(** * The anomaly-scoring engine [process_transactions]

    A shallow embedding of [backend/services/anomaly_engine.py] (the same
    function is duplicated in [streamlit2.py]) and the properties of the
    engine that its specification states.

    The pandas data frame is modelled row-wise: a frame is the ordered list
    of its column names and the ordered list of its rows, each row being an
    index label and a finite map from column names to cells.  Exceptions
    (a [KeyError] on a missing column, a parse error on a temporal stamp,
    a cell whose type the engine cannot work with) are the [None] of the
    option monad.

    The embedding covers the batches whose records all carry a sender
    account and, when the temporal stamps are a feature, a stamp: a record
    that lacks one of them is outside of it, and gives [None] as well
    (pandas drops such a record from the groups of its account and carries
    the missing value on). *)

From Stdlib Require Import ZArith Ascii PrimFloat Uint63.
From stdpp Require Import base option list gmap strings pretty sorting.

Local Open Scope Z_scope.

(** ** Cells, rows, frames *)

(** A cell of a data frame.  [CFloat] is an IEEE binary64 number, [CTime] a
    UTC instant in nanoseconds since the epoch (a pandas [Timestamp] with
    [tz=UTC]), [CList] a Python list of strings, and [CNA] the missing value
    ([NaN], [pd.NA], [NaT], [None]). *)
Inductive cell :=
  | CStr (s : string)
  | CInt (z : Z)
  | CFloat (f : float)
  | CBool (b : bool)
  | CTime (t : Z)
  | CList (l : list string)
  | CNA.

Record Row := mkRow { label : nat; cells : gmap string cell }.

Record DataFrame := mkDF { columns : list string; rows : list Row }.

Definition set_cell (c : string) (v : cell) (r : Row) : Row :=
  mkRow (label r) (<[c := v]> (cells r)).

Definition add_column (c : string) (cols : list string) : list string :=
  if bool_decide (c ∈ cols) then cols else cols ++ [c].

(** [df[c]]: a [KeyError] when the frame has no column [c]. *)
Definition col (c : string) (df : DataFrame) : option (list cell) :=
  if bool_decide (c ∈ columns df) then mapM (λ r, cells r !! c) (rows df)
  else None.

(** [df[c] = series], the series being aligned with the rows *)
Definition assign (c : string) (vals : list cell) (df : DataFrame) : DataFrame :=
  mkDF (add_column c (columns df)) (zip_with (set_cell c) vals (rows df)).

(** [df[c] = scalar] *)
Definition assign_const (c : string) (v : cell) (df : DataFrame) : DataFrame :=
  mkDF (add_column c (columns df)) (set_cell c v <$> rows df).

(** [df[c] = <elementwise expression over columns of df>] *)
Definition assign_rows (c : string) (f : Row → option cell) (df : DataFrame)
    : option DataFrame :=
  rs ← mapM (λ r, v ← f r; Some (set_cell c v r)) (rows df);
  Some (mkDF (add_column c (columns df)) rs).

Definition as_str (c : cell) : option string :=
  match c with CStr s => Some s | _ => None end.
Definition as_int (c : cell) : option Z :=
  match c with CInt z => Some z | _ => None end.
Definition as_bool (c : cell) : option bool :=
  match c with CBool b => Some b | _ => None end.
Definition as_time (c : cell) : option Z :=
  match c with CTime t => Some t | _ => None end.

(** An opaque identifier column read from a CSV file holds strings and
    missing values. *)
Definition as_ident (c : cell) : option (option string) :=
  match c with CStr s => Some (Some s) | CNA => Some None | _ => None end.

(** The binary64 number nearest to an [int64]; the primitive conversion
    takes 63 bits, so the least [int64] is converted by halves. *)
Definition float_of_Z (z : Z) : float :=
  if z =? - 2 ^ 63 then
    (PrimFloat.opp (PrimFloat.of_uint63 (Uint63.of_Z (2 ^ 62))) * 2)%float
  else if z <? 0 then PrimFloat.opp (PrimFloat.of_uint63 (Uint63.of_Z (- z)))
  else PrimFloat.of_uint63 (Uint63.of_Z z).

Definition float_of_nat (n : nat) : float := float_of_Z (Z.of_nat n).

(** A numeric column is [int64] or [float64] (with [NaN] for a missing
    value); arithmetic on it is done in binary64. *)
Definition as_float (c : cell) : option float :=
  match c with
  | CFloat f => Some f
  | CInt z => if bool_decide (- 2 ^ 63 ≤ z < 2 ^ 63) then Some (float_of_Z z) else None
  | CNA => Some PrimFloat.nan
  | _ => None
  end.

(** The sender account is a column of strings or a column of integers. *)
Inductive akey := KInt (z : Z) | KStr (s : string).

Global Instance akey_eq_dec : EqDecision akey.
Proof. solve_decision. Defined.

Definition as_key (c : cell) : option akey :=
  match c with CInt z => Some (KInt z) | CStr s => Some (KStr s) | _ => None end.

Definition is_KInt (k : akey) : bool := if k is KInt _ then true else false.

(** [df["sender_account"]] as grouping and sorting keys; pandas cannot order
    a column that mixes strings and integers. *)
Definition account_keys (df : DataFrame) : option (list akey) :=
  ks ← col "sender_account" df ≫= mapM as_key;
  if forallb is_KInt ks || forallb (negb ∘ is_KInt) ks then Some ks else None.

Definition akey_leb (a b : akey) : bool :=
  match a, b with
  | KInt x, KInt y => bool_decide (x ≤ y)
  | KStr s, KStr t => String.leb s t
  | KInt _, KStr _ => true
  | KStr _, KInt _ => false
  end.

(** ** Sorting and grouping *)

Section sorting.
Context {A : Type} (leb : A → A → bool).

Fixpoint insert_sorted (x : A) (l : list A) : list A :=
  match l with
  | [] => [x]
  | y :: l' => if leb x y then x :: l else y :: insert_sorted x l'
  end.

(** A stable sort, as pandas' sort on several keys is. *)
Definition isort (l : list A) : list A := foldr insert_sorted [] l.
End sorting.

(** [df.sort_values(by)], the keys [by] having been read into [keys] *)
Definition sort_values {K} (leb : K → K → bool) (keys : list K) (df : DataFrame)
    : DataFrame :=
  mkDF (columns df) ((isort (λ a b, leb a.1 b.1) (zip keys (rows df))).*2).

Section grouping.
Context {K : Type} `{EqDecision K} {A B : Type}.

(** the values of the group of key [k], in row order *)
Definition group_of (keys : list K) (xs : list A) (k : K) : list A :=
  (filter (λ p, p.1 = k) (zip keys xs)).*2.

(** the position of row [i], of key [k], within its group *)
Definition rank_in_group (keys : list K) (i : nat) (k : K) : nat :=
  length (filter (k =.) (take i keys)).

(** [df.groupby(keys)[xs].transform(f)]: [f] is applied to each group and
    the results are put back at the rows of the group. *)
Definition groupby_transform (f : list A → list B) (d : B)
    (keys : list K) (xs : list A) : list B :=
  imap (λ i k, default d (f (group_of keys xs k) !! rank_in_group keys i k)) keys.
End grouping.

(** [x.duplicated()]: an element is a duplicate when it occurred before. *)
Definition duplicated {A} `{EqDecision A} (xs : list A) : list bool :=
  imap (λ j x, bool_decide (x ∈ take j xs)) xs.

(** [x.shift(1)]: the first place is filled with the missing value. *)
Definition shift1 {A} (xs : list (option A)) : list (option A) :=
  take (length xs) (None :: xs).

(** [groupby(keys, dropna=True).cumcount()]: the rows whose key is missing
    belong to no group and get the missing value. *)
Definition cumcount {K} `{EqDecision K} (keys : list (option K)) : list (option nat) :=
  imap (λ i k, if k is Some _ then Some (rank_in_group keys i k) else None) keys.

(** ** Arithmetic of the amount check *)

Definition notna (xs : list float) : list float :=
  filter (λ x, PrimFloat.is_nan x = false) xs.

Section statistics.
(** The sum of an array of binary64 numbers, as the numeric library
    computes it (the order of the additions is the library's). *)
Variable fsum : list float → float.

(** [x.mean()], missing values skipped *)
Definition mean (xs : list float) : float :=
  let v := notna xs in
  match v with
  | [] => PrimFloat.nan
  | _ => (fsum v / float_of_nat (length v))%float
  end.

(** [x.std()]: the sample standard deviation ([ddof=1]), missing values
    skipped; undefined ([NaN]) for fewer than two values. *)
Definition std (xs : list float) : float :=
  let v := notna xs in
  if bool_decide (length v ≤ 1)%nat then PrimFloat.nan
  else
    let avg := (fsum v / float_of_nat (length v))%float in
    PrimFloat.sqrt
      (fsum ((λ x, (avg - x) * (avg - x))%float <$> v)
       / float_of_nat (length v - 1))%float.

(** [lambda x: (x - x.mean()) / x.std() if x.std() > 0 else 0] *)
Definition zscore (x : list float) : list float :=
  if (0 <? std x)%float then (λ v, (v - mean x) / std x)%float <$> x
  else replicate (length x) 0%float.
End statistics.

(** ** Keys of the two sorts and of the dominant-hour table *)

(** [["sender_account", "timestamp"]], ascending *)
Definition account_time_leb (a b : akey * Z) : bool :=
  if bool_decide (a.1 = b.1) then bool_decide (a.2 ≤ b.2) else akey_leb a.1 b.1.

(** a column with missing values, ascending, [na_position="last"] *)
Definition na_last_leb {A} (leb : A → A → bool) (a b : option A) : bool :=
  match a, b with
  | Some x, Some y => leb x y
  | Some _, None => true
  | None, Some _ => false
  | None, None => true
  end.

(** [["session_id", "sim_timestamp"]], ascending, missing values last *)
Definition session_time_leb (a b : option string * Z) : bool :=
  if bool_decide (a.1 = b.1) then bool_decide (a.2 ≤ b.2)
  else na_last_leb String.leb a.1 b.1.

(** the keys [(sender_account, hour)] of a [groupby], ascending *)
Definition account_hour_leb (a b : akey * Z) : bool := account_time_leb a b.

(** [["sender_account", "count"]] with [ascending=[True, False]] *)
Definition account_count_leb (a b : akey * Z * nat) : bool :=
  if bool_decide (a.1.1 = b.1.1) then bool_decide (b.2 ≤ a.2)%nat
  else akey_leb a.1.1 b.1.1.

(** [df.groupby(["sender_account", "hour"]).size().reset_index(name="count")]:
    one row per observed pair, in ascending order of the pair. *)
Definition group_sizes (ks : list akey) (hs : list Z) : list (akey * Z * nat) :=
  let ps := zip ks hs in
  (λ p, (p, length (filter (p =.) ps))) <$> isort account_hour_leb (remove_dups ps).

(** The table [dominant_hour]: the sizes sorted by account and descending
    count, the first row of each account kept. *)
Definition dominant_hour_table (ks : list akey) (hs : list Z) : list (akey * Z * nat) :=
  isort account_count_leb (group_sizes ks hs).

(** [dominant_hour[a]] for [Series.map]: the hour of the first row of
    account [a]. *)
Definition dominant_hour (tbl : list (akey * Z * nat)) (a : akey) : option Z :=
  (λ x, x.2.1.2) <$> list_find (λ x, x.1.1 = a) tbl.

(** ** Constants of the engine *)

Definition hour_of (t : Z) : Z := (t `div` 3600000000000) `mod` 24.

(** [timedelta(seconds=n)] in nanoseconds *)
Definition timedelta_seconds (n : Z) : Z := n * 1000000000.

Definition session_size : nat := 5.

Definition session_name (s : nat) : string := "SIM_SESSION_" +:+ pretty s.

(** ** The threshold selector *)

Definition select_threshold (total_possible_risks : nat) : Z :=
  match total_possible_risks with
  | 0%nat => 1
  | 1%nat => 1
  | 2%nat => 2
  | 3%nat => 3
  | 4%nat => 3
  | 5%nat => 4
  | _ => 5
  end.

(** ** The explanation builder *)

(** Python truthiness of a cell ([bool(nan)] is true). *)
Definition truthy (c : cell) : bool :=
  match c with
  | CBool b => b
  | CInt z => negb (z =? 0)
  | CFloat f => negb (f =? 0)%float
  | CStr s => negb (String.eqb s "")
  | CList l => negb (bool_decide (l = []))
  | CTime _ => true
  | CNA => true
  end.

(** A Python [dict] keeps its keys in insertion order; storing under a key
    that is present replaces the value in place. *)
Fixpoint dict_set (k v : string) (d : list (string * string)) : list (string * string) :=
  match d with
  | [] => [(k, v)]
  | (k', v') :: d' => if bool_decide (k' = k) then (k, v) :: d' else (k', v') :: dict_set k v d'
  end.

(** [{r[0]: r[1] for r in active_risks}] *)
Definition risk_descriptions (active_risks : list (string * string)) : list (string * string) :=
  foldl (λ d r, dict_set r.1 r.2 d) [] active_risks.

(** [row.get(risk_col, False)] *)
Definition row_get (r : Row) (c : string) (d : cell) : cell := default d (cells r !! c).

Definition build_reasons (descriptions : list (string * string)) (row : Row) : list string :=
  foldl (λ reasons '(risk_col, description),
           if truthy (row_get row risk_col (CBool false))
           then reasons ++ [description] else reasons)
        [] descriptions.

(** ** Label-based access, used by the session simulator *)

(** [df.reset_index(drop=True)] *)
Definition reset_index (df : DataFrame) : DataFrame :=
  mkDF (columns df) (imap (λ i r, mkRow i (cells r)) (rows df)).

(** [df.index[a:b]] *)
Definition index_slice (a b : nat) (df : DataFrame) : list nat :=
  label <$> take (b - a) (drop a (rows df)).

(** [df.loc[i, c]] *)
Definition loc_get (i : nat) (c : string) (df : DataFrame) : option cell :=
  r ← list_find (λ r, label r = i) (rows df); cells r.2 !! c.

(** [df.loc[i, c] = v] *)
Definition loc_set (i : nat) (c : string) (v : cell) (df : DataFrame) : DataFrame :=
  mkDF (add_column c (columns df))
       ((λ r, if bool_decide (label r = i) then set_cell c v r else r) <$> rows df).

(** a [for] loop whose body may raise *)
Fixpoint for_each {A S} (body : S → A → option S) (l : list A) (s : S) : option S :=
  match l with
  | [] => Some s
  | x :: l' => s' ← body s x; for_each body l' s'
  end.

(** ** The engine *)

(** The working state of [process_transactions]: the frame [df] and the list
    [active_risks] of the checks registered so far. *)
Record State := mkState { frame : DataFrame; active_risks : list (string * string) }.

(** What [process_transactions] returns: the frame and its [attrs]. *)
Record Output := mkOutput {
  out_frame : DataFrame;
  attrs_active_risks : list (string * string);
  attrs_threshold : Z;
  attrs_available_features : gset string }.

Section engine.
(** [pd.to_datetime(s, format="ISO8601", utc=True)] on one string: the
    instant in nanoseconds since the epoch, or a parse error. *)
Variable to_datetime : string → option Z.
(** the library's sum of an array of binary64 numbers *)
Variable fsum : list float → float.

Definition parse_datetime (c : cell) : option Z :=
  match c with
  | CStr s => to_datetime s
  | CTime t => Some t
  | _ => None
  end.

(** Lines 18-25: the temporal stamps are parsed, the batch is sorted by
    account and time, and the hour of day is taken. *)
Definition timestamp_handling (has_timestamp : bool) (df : DataFrame)
    : option DataFrame :=
  if has_timestamp then
    ts ← col "timestamp" df ≫= mapM parse_datetime;
    let df := assign "timestamp" (CTime <$> ts) df in
    ks ← account_keys df;
    let df := sort_values account_time_leb (zip ks ts) df in
    assign_rows "hour"
      (λ r, t ← cells r !! "timestamp" ≫= as_time; Some (CInt (hour_of t))) df
  else Some (assign_const "hour" (CInt 12) df).

(** Lines 27-38 *)
Definition amount_check (has_amount : bool) (st : State) : option State :=
  let df := frame st in
  if has_amount then
    ks ← account_keys df;
    xs ← col "amount" df ≫= mapM as_float;
    let df := assign "amount_zscore"
                (CFloat <$> groupby_transform (zscore fsum) PrimFloat.nan ks xs) df in
    df ← assign_rows "risk_amount"
           (λ r, z ← cells r !! "amount_zscore" ≫= as_float;
                 Some (CBool (1 <=? z)%float)) df;
    Some (mkState df (active_risks st ++ [("risk_amount", "Unusual transaction amount")]))
  else
    let df := assign_const "risk_amount" (CBool false) df in
    let df := assign_const "amount_zscore" (CInt 0) df in
    Some (mkState df (active_risks st)).

(** Lines 40-60: the new-device and the new-IP check, which differ in
    their column names only. *)
Definition first_seen_check (has_feature : bool) (feature is_new risk description : string)
    (st : State) : option State :=
  let df := frame st in
  if has_feature then
    ks ← account_keys df;
    xs ← col feature df ≫= mapM as_ident;
    let df := assign is_new
                (CBool <$> groupby_transform (λ x, negb <$> duplicated x) false ks xs) df in
    df ← assign_rows risk (λ r, cells r !! is_new) df;
    Some (mkState df (active_risks st ++ [(risk, description)]))
  else
    let df := assign_const is_new (CBool false) df in
    let df := assign_const risk (CBool false) df in
    Some (mkState df (active_risks st)).

(** [a != b] on two identifier cells: a missing value differs from
    everything, itself included. *)
Definition ident_ne (a b : option string) : bool :=
  match a, b with
  | Some x, Some y => bool_decide (x ≠ y)
  | _, _ => true
  end.

Definition ident_cell (a : option string) : cell :=
  match a with Some s => CStr s | None => CNA end.

(** Lines 62-72 *)
Definition location_check (has_location : bool) (st : State) : option State :=
  let df := frame st in
  if has_location then
    ks ← account_keys df;
    xs ← col "location" df ≫= mapM as_ident;
    let df := assign "prev_location"
                (ident_cell <$> groupby_transform shift1 None ks xs) df in
    df ← assign_rows "location_changed"
           (λ r, a ← cells r !! "location" ≫= as_ident;
                 b ← cells r !! "prev_location" ≫= as_ident;
                 Some (CBool (ident_ne a b))) df;
    df ← assign_rows "risk_location_change" (λ r, cells r !! "location_changed") df;
    Some (mkState df (active_risks st ++
                      [("risk_location_change", "Transaction location changed")]))
  else
    let df := assign_const "prev_location" CNA df in
    let df := assign_const "location_changed" (CBool false) df in
    let df := assign_const "risk_location_change" (CBool false) df in
    Some (mkState df (active_risks st)).

(** Lines 74-92 *)
Definition off_hour_check (has_timestamp : bool) (st : State) : option State :=
  let df := frame st in
  if has_timestamp then
    ks ← account_keys df;
    hs ← col "hour" df ≫= mapM as_int;
    let tbl := dominant_hour_table ks hs in
    let df := assign "dominant_hour"
                ((λ k, from_option CInt CNA (dominant_hour tbl k)) <$> ks) df in
    df ← assign_rows "off_hour_txn"
           (λ r, h ← cells r !! "hour" ≫= as_int;
                 d ← cells r !! "dominant_hour";
                 match d with
                 | CInt d => Some (CBool (bool_decide (h ≠ d)))
                 | CNA => Some (CBool true)
                 | _ => None
                 end) df;
    df ← assign_rows "risk_off_hour" (λ r, cells r !! "off_hour_txn") df;
    Some (mkState df (active_risks st ++ [("risk_off_hour", "Transaction at unusual time")]))
  else
    let df := assign_const "dominant_hour" (CInt 12) df in
    let df := assign_const "off_hour_txn" (CBool false) df in
    let df := assign_const "risk_off_hour" (CBool false) df in
    Some (mkState df (active_risks st)).

(** [df[base_risk_cols].sum(axis=1)] on one row *)
Definition sum_risk_cols (base_risk_cols : list string) (r : Row) : option cell :=
  bs ← mapM (λ c, cells r !! c ≫= as_bool) base_risk_cols;
  Some (CInt (foldr (λ b acc, Z.b2z b + acc) 0 bs)).

(** Lines 94-100 *)
Definition risk_aggregation (st : State) : option State :=
  let df := frame st in
  let base_risk_cols := (active_risks st).*1 in
  df ← match base_risk_cols with
       | [] => Some (assign_const "base_risk_score" (CInt 0) df)
       | _ => assign_rows "base_risk_score" (sum_risk_cols base_risk_cols) df
       end;
  Some (mkState df (active_risks st)).

(** The body of the loop of lines 113-120 for session [s]. *)
Definition simulate_session (df : DataFrame) (s : nat) : option DataFrame :=
  let idx := index_slice (s * session_size) ((s + 1) * session_size) df in
  i0 ← idx !! 0%nat;
  base_time ← loc_get i0 "timestamp" df ≫= as_time;
  let session := session_name s in
  Some (foldl (λ df '(j, i),
                 let df := loc_set i "session_id" (CStr session) df in
                 loc_set i "sim_timestamp"
                   (CTime (base_time + timedelta_seconds (10 * Z.of_nat j))) df)
              df (zip (seq 0 (length idx)) idx)).

(** [df["txn_count_sim"] >= 3] on one cell; a missing count compares false *)
Definition count_reaches_3 (c : cell) : option cell :=
  match c with
  | CInt n => Some (CBool (bool_decide (3 ≤ n)))
  | CNA => Some (CBool false)
  | _ => None
  end.

(** Lines 102-125 *)
Definition velocity_simulation (simulation_mode has_timestamp : bool) (st : State)
    : option State :=
  let df := frame st in
  let df := assign_const "risk_velocity_sim" (CBool false) df in
  let df := assign_const "txn_count_sim" (CInt 1) df in
  let df := assign_const "session_id" CNA df in
  df ← (if has_timestamp
        then assign_rows "sim_timestamp" (λ r, cells r !! "timestamp") df
        else Some (assign_const "sim_timestamp" CNA df));
  if simulation_mode && has_timestamp then
    let df := reset_index df in
    let num_sessions := (100 `min` (length (rows df) `div` session_size))%nat in
    df ← for_each simulate_session (seq 0 num_sessions) df;
    sids ← col "session_id" df ≫= mapM as_ident;
    sts ← col "sim_timestamp" df ≫= mapM as_time;
    let df := sort_values session_time_leb (zip sids sts) df in
    sids ← col "session_id" df ≫= mapM as_ident;
    let df := assign "txn_count_sim"
                ((λ c, from_option (λ n : nat, CInt (Z.of_nat n + 1)) CNA c) <$> cumcount sids)
                df in
    df ← assign_rows "risk_velocity_sim"
           (λ r, cells r !! "txn_count_sim" ≫= count_reaches_3) df;
    Some (mkState df (active_risks st ++
                      [("risk_velocity_sim", "Multiple transactions in short time")]))
  else Some (mkState df (active_risks st)).

(** Lines 18-100: the five per-account checks and the base score.  The
    frame of the resulting state is the working batch on which the
    session simulator runs. *)
Definition risk_checks (df : DataFrame) (available_features : gset string)
    : option State :=
  let has_timestamp := bool_decide ("timestamp" ∈ available_features) in
  df ← timestamp_handling has_timestamp df;
  st ← amount_check (bool_decide ("amount" ∈ available_features)) (mkState df []);
  st ← first_seen_check (bool_decide ("device_hash" ∈ available_features))
         "device_hash" "is_new_device" "risk_new_device" "New device detected" st;
  st ← first_seen_check (bool_decide ("ip_address" ∈ available_features))
         "ip_address" "is_new_ip" "risk_new_ip" "New IP address detected" st;
  st ← location_check (bool_decide ("location" ∈ available_features)) st;
  st ← off_hour_check has_timestamp st;
  risk_aggregation st.

(** Lines 127-162: the final score, the reasons and the verdict. *)
Definition final_verdict (st : State) : option (DataFrame * Z) :=
  let active_risks := active_risks st in
  df ← assign_rows "final_risk_score"
         (λ r, b ← cells r !! "base_risk_score" ≫= as_int;
               v ← cells r !! "risk_velocity_sim" ≫= as_bool;
               Some (CInt (b + Z.b2z v))) (frame st);
  let descriptions := risk_descriptions active_risks in
  df ← assign_rows "final_reasons"
         (λ r, Some (CList (build_reasons descriptions r))) df;
  let threshold := select_threshold (length active_risks) in
  df ← assign_rows "final_is_anomalous"
         (λ r, s ← cells r !! "final_risk_score" ≫= as_int;
               Some (CBool (bool_decide (threshold ≤ s)))) df;
  Some (df, threshold).

(** [available_features=None] stands for [set(df.columns)]. *)
Definition resolve_features (df : DataFrame) (available_features : option (gset string))
    : gset string :=
  match available_features with
  | None => list_to_set (columns df)
  | Some fs => fs
  end.

(** Lines 4-169 *)
Definition process_transactions (df : DataFrame) (simulation_mode : bool)
    (available_features : option (gset string)) : option Output :=
  let available_features := resolve_features df available_features in
  let has_timestamp := bool_decide ("timestamp" ∈ available_features) in
  st ← risk_checks df available_features;
  st ← velocity_simulation simulation_mode has_timestamp st;
  '(df, threshold) ← final_verdict st;
  Some (mkOutput df (active_risks st) threshold available_features).
End engine.

(** ** Instances of the two library functions

    For the runs on concrete batches: a parser of the common profile
    [YYYY-MM-DD(T| )HH:MM:SS] followed by [Z], by an offset [+HH:MM] or
    [-HH:MM], or by nothing (a naive stamp is taken as UTC), and the
    left-to-right sum, which is the library's on arrays of fewer than eight
    numbers. *)

Definition digit (a : Ascii.ascii) : option Z :=
  let n := Z.of_N (Ascii.N_of_ascii a) in
  if (48 <=? n) && (n <=? 57) then Some (n - 48) else None.

(** the first [n] characters of [s] read as a decimal number *)
Fixpoint digits (n : nat) (acc : Z) (s : string) : option (Z * string) :=
  match n with
  | O => Some (acc, s)
  | S n' =>
      match s with
      | String a s' => d ← digit a; digits n' (10 * acc + d) s'
      | EmptyString => None
      end
  end.

Definition expect (cs : list Ascii.ascii) (s : string) : option string :=
  match s with
  | String a s' => if bool_decide (a ∈ cs) then Some s' else None
  | EmptyString => None
  end.

Definition is_leap (y : Z) : bool :=
  ((y `mod` 4 =? 0) && negb (y `mod` 100 =? 0)) || (y `mod` 400 =? 0).

Definition days_in_month (y m : Z) : Z :=
  if m =? 2 then (if is_leap y then 29 else 28)
  else if (m =? 4) || (m =? 6) || (m =? 9) || (m =? 11) then 30 else 31.

(** days from 1970-01-01 to the civil date [y-m-d] *)
Definition days_from_civil (y m d : Z) : Z :=
  let y := if m <=? 2 then y - 1 else y in
  let era := y `div` 400 in
  let yoe := y - era * 400 in
  let doy := (153 * (if 2 <? m then m - 3 else m + 9) + 2) `div` 5 + d - 1 in
  let doe := yoe * 365 + yoe `div` 4 - yoe `div` 100 + doy in
  era * 146097 + doe - 719468.

Definition utc_offset (s : string) : option Z :=
  match s with
  | EmptyString => Some 0
  | String "Z" EmptyString => Some 0
  | String sign s' =>
      sg ← (if bool_decide (sign = "+"%char) then Some 1
            else if bool_decide (sign = "-"%char) then Some (-1) else None);
      '(hh, s') ← digits 2 0 s';
      s' ← expect [":"%char] s';
      '(mm, s') ← digits 2 0 s';
      if bool_decide (s' = EmptyString ∧ hh < 24 ∧ mm < 60)
      then Some (sg * (hh * 3600 + mm * 60)) else None
  end.

Definition iso8601 (s : string) : option Z :=
  '(y, s) ← digits 4 0 s;
  s ← expect ["-"%char] s;
  '(m, s) ← digits 2 0 s;
  s ← expect ["-"%char] s;
  '(d, s) ← digits 2 0 s;
  s ← expect ["T"%char; " "%char] s;
  '(hh, s) ← digits 2 0 s;
  s ← expect [":"%char] s;
  '(mi, s) ← digits 2 0 s;
  s ← expect [":"%char] s;
  '(ss, s) ← digits 2 0 s;
  off ← utc_offset s;
  if bool_decide (1 ≤ m ≤ 12 ∧ 1 ≤ d ≤ days_in_month y m ∧ hh < 24 ∧ mi < 60 ∧ ss < 60)
  then Some ((days_from_civil y m d * 86400 + hh * 3600 + mi * 60 + ss - off) * 1000000000)
  else None.

Definition seq_sum (xs : list float) : float := foldl PrimFloat.add 0%float xs.

Definition run (df : DataFrame) (simulation_mode : bool)
    (available_features : option (gset string)) : option Output :=
  process_transactions iso8601 seq_sum df simulation_mode available_features.

(** A frame as [pd.read_csv] builds it: a range index, every row holding
    the cells of every column. *)
Definition read_rows (cols : list string) (data : list (list cell)) : DataFrame :=
  mkDF cols (imap (λ i cs, mkRow i (list_to_map (zip cols cs))) data).


(** * The ingestion service and the routes of the flagged transactions

    A shallow embedding of [ingest_dataframe] of
    [backend/services/upload_service.py], which validates an uploaded
    batch, runs the engine on it and stores the records, and of
    [get_flagged_transactions] of [backend/routes/transactions.py].  The
    MongoDB collection is outside the repository: it is a parameter, with
    the calls that the code makes on it. *)

(** ** [upload_service.py] *)

Definition MIN_REQUIRED_COLS : gset string :=
  {[ "transaction_id"; "sender_account" ]}.

Definition OPTIONAL_FEATURE_COLS : gset string :=
  {[ "timestamp"; "amount"; "device_hash"; "ip_address"; "location" ]}.

(** [sorted(s)] for a set of strings *)
Definition sorted (s : gset string) : list string := isort String.leb (elements s).

(** The [repr] of a string that has no quote, no backslash and no
    non-printing character, as the names of the columns here are. *)
Definition repr_str (s : string) : string := "'" +:+ s +:+ "'".

(** the [repr] of a list of such strings, as an f-string formats it *)
Definition repr_list (l : list string) : string :=
  "[" +:+ String.concat ", " (repr_str <$> l) +:+ "]".

(** [df.empty]: an axis of the frame has length 0 *)
Definition df_empty (df : DataFrame) : bool :=
  bool_decide (length (rows df) = 0%nat ∨ length (columns df) = 0%nat).

(** A stored record: the dictionary of the cells of a row by column, in
    the order of the columns. *)
Definition document := list (string * cell).

(** [df.to_dict(orient="records")] *)
Definition to_records (df : DataFrame) : list document :=
  (λ r, omap (λ c, (λ v, (c, v)) <$> cells r !! c) (columns df)) <$> rows df.

(** What [ingest_dataframe] raises: a [ValueError] of its own, whatever the
    engine raised, or whatever the store raised. *)
Inductive error :=
  | ValueError (msg : string)
  | EngineError
  | StoreError.

(** the dictionary that [ingest_dataframe] returns *)
Record metadata := mkMetadata {
  rows_processed : nat;
  meta_simulation_mode : bool;
  meta_available_features : list string;
  meta_missing_features : list string;
  meta_active_risks : list string;
  meta_threshold : Z }.

Section ingestion.
Variable to_datetime : string → option Z.
Variable fsum : list float → float.
(** the collection that [get_collection()] returns, as a state *)
Variable Coll : Type.
(** [collection.insert_many(records)]: the collection afterwards, and
    whether the call returned (it may raise, on a record that cannot be
    encoded or on a failure of the store). *)
Variable insert_many : list document → Coll → Coll * bool.

(** Lines 13-52 *)
Definition ingest_dataframe (df : DataFrame) (simulation_mode : bool) (coll : Coll)
    : Coll * (error + metadata) :=
  if df_empty df then (coll, inl (ValueError "CSV contains no rows"))
  else
    let missing_minimal := MIN_REQUIRED_COLS ∖ list_to_set (columns df) in
    if bool_decide (missing_minimal ≠ ∅) then
      (coll, inl (ValueError ("Missing required columns: "
                              +:+ repr_list (sorted missing_minimal))))
    else
      let available_features : gset string := list_to_set (columns df) in
      let present_optional := OPTIONAL_FEATURE_COLS ∩ available_features in
      let missing_optional := OPTIONAL_FEATURE_COLS ∖ available_features in
      match process_transactions to_datetime fsum df simulation_mode
              (Some available_features) with
      | None => (coll, inl EngineError)
      | Some processed =>
          let records := to_records (out_frame processed) in
          let '(coll, returned) := insert_many records coll in
          if returned then
            (coll, inr (mkMetadata (length records) simulation_mode
                          (sorted present_optional) (sorted missing_optional)
                          (attrs_active_risks processed).*2
                          (attrs_threshold processed)))
          else (coll, inl StoreError)
      end.
End ingestion.

(** ** [routes/transactions.py] *)

Section flagged.
Variable Coll : Type.
(** The cursor of
    [c.find({"final_is_anomalous": True, "final_risk_score": {"$gte": min_risk}}, {"_id": 0})]:
    the documents that it yields, in its order. *)
Variable find_flagged : Z → Coll → list document.

(** [get_flagged_transactions]: the parameters are validated
    ([limit] from 1 to 1000, [offset] and [min_risk] not negative; the
    request is refused otherwise), then the cursor is skipped and
    limited. *)
Definition get_flagged_transactions (limit offset min_risk : Z) (c : Coll)
    : option (list document) :=
  if bool_decide (1 ≤ limit ≤ 1000 ∧ 0 ≤ offset ∧ 0 ≤ min_risk)
  then Some (take (Z.to_nat limit) (drop (Z.to_nat offset) (find_flagged min_risk c)))
  else None.
End flagged.


(** * The vocabulary of the properties

    What the statements below speak of: the orders of the sorts, the
    frames that the stages of the engine leave, what a row holds after
    each stage, and the batches on which the engine is run. *)

(** ** Orders *)

(** The order of the sorted list, refined by the order [R] the list was in:
    elements that compare equal keep their relative order. *)
Definition stable_le {A} (leb : A → A → bool) (R : relation A) (x y : A) : Prop :=
  leb x y = true ∧ (leb y x = true → R x y).

Definition lex_leb {K V} `{EqDecision K} (kleb : K → K → bool) (vleb : V → V → bool)
    (a b : K * V) : bool :=
  if bool_decide (a.1 = b.1) then vleb a.2 b.2 else kleb a.1 b.1.

Definition Z_leb (x y : Z) : bool := bool_decide (x ≤ y).

(** ** Frames under the assignments of the engine *)

(** [r'] has the cells of [r] at every column outside [cs]. *)
Definition cells_step (cs : list string) (r r' : Row) : Prop :=
  ∀ c, c ∉ cs → cells r' !! c = cells r !! c.

Definition row_step (cs : list string) (r r' : Row) : Prop :=
  label r' = label r ∧ cells_step cs r r'.

(** [df'] has the columns of [df] and possibly some of [cs]. *)
Definition cols_step (cs : list string) (df df' : DataFrame) : Prop :=
  columns df ⊆ columns df' ∧ ∀ c, c ∈ columns df' → c ∈ columns df ∨ c ∈ cs.

(** [df'] is [df] with columns of [cs] assigned, row by row. *)
Definition frame_step (cs : list string) (df df' : DataFrame) : Prop :=
  cols_step cs df df' ∧ Forall2 (row_step cs) (rows df) (rows df').

(** The rows [rs'] are the rows [rs] in some order, each changed by [R]. *)
Definition rows_perm (R : Row → Row → Prop) (rs rs' : list Row) : Prop :=
  ∃ l, l ≡ₚ rs ∧ Forall2 R l rs'.

(** ** The rows after each stage *)

(** what a row of the batch holds after the amount check *)
Definition amount_row (fsum : list float → float) (ks : list akey) (xs : list float)
    (i : nat) (r : Row) : Prop :=
  ∃ z, groupby_transform (zscore fsum) PrimFloat.nan ks xs !! i = Some z ∧
       cells r !! "amount_zscore" = Some (CFloat z) ∧
       cells r !! "risk_amount" = Some (CBool (1 <=? z)%float).

(** what a row holds after a first-seen check on the column [feature] *)
Definition first_seen_row (risk : string) (ks : list akey) (xs : list (option string))
    (i : nat) (r : Row) : Prop :=
  ∃ b, groupby_transform (λ x, negb <$> duplicated x) false ks xs !! i = Some b ∧
       cells r !! risk = Some (CBool b).

(** what a row holds after the location check *)
Definition location_row (ks : list akey) (xs : list (option string))
    (i : nat) (r : Row) : Prop :=
  ∃ x p, xs !! i = Some x ∧ groupby_transform shift1 None ks xs !! i = Some p ∧
         cells r !! "prev_location" = Some (ident_cell p) ∧
         cells r !! "risk_location_change" = Some (CBool (ident_ne x p)).

(** what a row holds after the off-hour check *)
Definition off_hour_row (ks : list akey) (hs : list Z) (i : nat) (r : Row) : Prop :=
  ∃ k h, ks !! i = Some k ∧ hs !! i = Some h ∧
         cells r !! "dominant_hour" =
           Some (from_option CInt CNA (dominant_hour (dominant_hour_table ks hs) k)) ∧
         cells r !! "risk_off_hour" =
           Some (CBool (match dominant_hour (dominant_hour_table ks hs) k with
                        | Some d => bool_decide (h ≠ d)
                        | None => true
                        end)).

(** the stamp of [r] parses to the instant that [r1] holds, with its hour *)
Definition parsed_row (to_datetime : string → option Z) (r r1 : Row) : Prop :=
  ∃ t, cells r !! "timestamp" ≫= parse_datetime to_datetime = Some t ∧
       cells r1 !! "timestamp" = Some (CTime t) ∧
       cells r1 !! "hour" = Some (CInt (hour_of t)).

(** the row [r1] has the account and the instant of the key [k] *)
Definition keyed_row (r1 : Row) (k : akey * Z) : Prop :=
  cells r1 !! "sender_account" ≫= as_key = Some k.1 ∧
  cells r1 !! "timestamp" = Some (CTime k.2).

(** ** Scores *)

(** The boolean column [c] is true for the record [r]. *)
Definition fired (r : Row) (c : string) : bool :=
  match cells r !! c with
  | Some (CBool true) => true
  | _ => false
  end.

(** the number of the checks of [active] whose column is true for [r] *)
Definition count_fired (active : list (string * string)) (r : Row) : Z :=
  Z.of_nat (length (filter (λ a, fired r a.1 = true) active)).

(** the row [r'] holds the count of the fired checks of [r] as base score *)
Definition base_score_row (active : list (string * string)) (r r' : Row) : Prop :=
  cells r' !! "base_risk_score" = Some (CInt (count_fired active r)).

(** ** The working batch *)

(** the columns that the five checks and the aggregation assign *)
Definition check_columns : list string :=
  ["amount_zscore"; "risk_amount"; "is_new_device"; "risk_new_device";
   "is_new_ip"; "risk_new_ip"; "prev_location"; "location_changed";
   "risk_location_change"; "dominant_hour"; "off_hour_txn"; "risk_off_hour";
   "base_risk_score"].

(** the boolean columns of the five per-account checks *)
Definition base_risk_columns : list string :=
  ["risk_amount"; "risk_new_device"; "risk_new_ip"; "risk_location_change";
   "risk_off_hour"].

(** the checks that the available features activate, in the order in which
    the engine registers them *)
Definition base_checks (available_features : gset string) : list (string * string) :=
  (if bool_decide ("amount" ∈ available_features)
   then [("risk_amount", "Unusual transaction amount")] else []) ++
  (if bool_decide ("device_hash" ∈ available_features)
   then [("risk_new_device", "New device detected")] else []) ++
  (if bool_decide ("ip_address" ∈ available_features)
   then [("risk_new_ip", "New IP address detected")] else []) ++
  (if bool_decide ("location" ∈ available_features)
   then [("risk_location_change", "Transaction location changed")] else []) ++
  (if bool_decide ("timestamp" ∈ available_features)
   then [("risk_off_hour", "Transaction at unusual time")] else []).

Definition acct_of (r : Row) : option akey := cells r !! "sender_account" ≫= as_key.

(** The stages of [risk_checks], as they ran. *)
Inductive stages (to_datetime : string → option Z) (fsum : list float → float)
    (df : DataFrame) (feats : gset string) (st : State) : Prop :=
  | Stages (df1 : DataFrame) (s2 s3 s4 s5 s6 : State) :
      timestamp_handling to_datetime (bool_decide ("timestamp" ∈ feats)) df = Some df1 →
      amount_check fsum (bool_decide ("amount" ∈ feats)) (mkState df1 []) = Some s2 →
      first_seen_check (bool_decide ("device_hash" ∈ feats))
        "device_hash" "is_new_device" "risk_new_device" "New device detected" s2
        = Some s3 →
      first_seen_check (bool_decide ("ip_address" ∈ feats))
        "ip_address" "is_new_ip" "risk_new_ip" "New IP address detected" s3
        = Some s4 →
      location_check (bool_decide ("location" ∈ feats)) s4 = Some s5 →
      off_hour_check (bool_decide ("timestamp" ∈ feats)) s5 = Some s6 →
      risk_aggregation s6 = Some st →
      stages to_datetime fsum df feats st.

(** ** The session simulator *)

(** After [reset_index] the label of a row is its position. *)
Definition labels_ok (rs : list Row) : Prop :=
  ∀ p r, rs !! p = Some r → label r = p.

(** the instant held by the row at position [q] *)
Definition time_at (rs : list Row) (q : nat) : option Z :=
  rs !! q ≫= λ r, cells r !! "timestamp" ≫= as_time.

(** what the body of the loop does to a row, for session [s] of base time [t0] *)
Definition session_update (s : nat) (t0 : Z) (r : Row) : Row :=
  if bool_decide (5 * s ≤ label r < 5 * s + 5)%nat
  then set_cell "sim_timestamp"
         (CTime (t0 + timedelta_seconds (10 * Z.of_nat (label r - 5 * s))))
         (set_cell "session_id" (CStr (session_name s)) r)
  else r.

(** what the whole loop does to a row: the sessions [a], ..., [a + k - 1] *)
Definition sessions_from (a k : nat) (rs : list Row) (r : Row) : Row :=
  if bool_decide (5 * a ≤ label r < 5 * (a + k))%nat then
    match time_at rs (5 * (label r `div` 5)) with
    | Some t0 => session_update (label r `div` 5) t0 r
    | None => r
    end
  else r.

(** the key under which the row of label [p] is sorted *)
Definition session_key (ns : nat) (T0 : nat → Z) (p : nat) (k : option string * Z) : Prop :=
  if decide (p < 5 * ns)%nat
  then k = (Some (session_name (p `div` 5)),
            T0 (p `div` 5)%nat + timedelta_seconds (10 * Z.of_nat (p `mod` 5)))
  else k.1 = None.

Definition velocity_columns : list string :=
  ["risk_velocity_sim"; "txn_count_sim"; "session_id"; "sim_timestamp"].

(** [num_sessions], for a batch of [n] records *)
Definition num_sessions (n : nat) : nat := (100 `min` (n `div` 5))%nat.

(** the four columns as lines 103-106 initialise them *)
Definition velocity_init (has_timestamp : bool) (r rv : Row) : Prop :=
  ∃ v, (if has_timestamp then cells r !! "timestamp" = Some v else v = CNA) ∧
       rv = set_cell "sim_timestamp" v
              (set_cell "session_id" CNA
                 (set_cell "txn_count_sim" (CInt 1)
                    (set_cell "risk_velocity_sim" (CBool false) r))).

(** What the simulator leaves in the row [r'], which stood at position [p]
    of the working batch [w], [ns] sessions having been created. *)
Definition velocity_row (ns : nat) (w : list Row) (p : nat) (r' : Row) : Prop :=
  if decide (p < 5 * ns)%nat then
    ∃ t0, time_at w (5 * (p `div` 5)) = Some t0 ∧
      cells r' !! "session_id" = Some (CStr (session_name (p `div` 5))) ∧
      cells r' !! "sim_timestamp" =
        Some (CTime (t0 + timedelta_seconds (10 * Z.of_nat (p `mod` 5)))) ∧
      cells r' !! "txn_count_sim" = Some (CInt (Z.of_nat (p `mod` 5) + 1)) ∧
      cells r' !! "risk_velocity_sim" = Some (CBool (bool_decide (2 ≤ p `mod` 5)%nat))
  else
    cells r' !! "session_id" = Some CNA ∧
    cells r' !! "sim_timestamp" = cells r' !! "timestamp" ∧
    cells r' !! "txn_count_sim" = Some CNA ∧
    cells r' !! "risk_velocity_sim" = Some (CBool false).

(** ** The verdict *)

Definition final_columns : list string :=
  ["final_risk_score"; "final_reasons"; "final_is_anomalous"].

(** every column that the engine assigns, the temporal stamp apart *)
Definition derived_columns : list string :=
  "hour" :: check_columns ++ velocity_columns ++ final_columns.

Definition velocity_check : string * string :=
  ("risk_velocity_sim", "Multiple transactions in short time").

(** the row [r'] of the output, made from the row [r] of the batch that the
    simulator left *)
Definition final_row (active : list (string * string)) (r r' : Row) : Prop :=
  ∃ b v,
    cells r !! "base_risk_score" = Some (CInt b) ∧
    cells r !! "risk_velocity_sim" = Some (CBool v) ∧
    cells r' !! "final_risk_score" = Some (CInt (b + Z.b2z v)) ∧
    cells r' !! "final_reasons" =
      Some (CList (build_reasons (risk_descriptions active)
                     (set_cell "final_risk_score" (CInt (b + Z.b2z v)) r))) ∧
    cells r' !! "final_is_anomalous" =
      Some (CBool (bool_decide (select_threshold (length active) ≤ b + Z.b2z v))).

(** A run of the engine, stage by stage. *)
Inductive run_stages (to_datetime : string → option Z) (fsum : list float → float)
    (df : DataFrame) (simulation_mode : bool)
    (available_features : option (gset string)) (out : Output) : Prop :=
  | RunStages (st stv : State) :
      risk_checks to_datetime fsum df (resolve_features df available_features)
        = Some st →
      velocity_simulation simulation_mode
        (bool_decide ("timestamp" ∈ resolve_features df available_features)) st
        = Some stv →
      final_verdict stv = Some (out_frame out, attrs_threshold out) →
      attrs_active_risks out = active_risks stv →
      attrs_available_features out = resolve_features df available_features →
      run_stages to_datetime fsum df simulation_mode available_features out.

(** the checks that are active in a run *)
Definition active_checks (feats : gset string) (simulation_mode : bool)
    : list (string * string) :=
  base_checks feats ++
  (if simulation_mode && bool_decide ("timestamp" ∈ feats) then [velocity_check] else []).

(** ** The six checks *)

(** A risk check: the feature it requires, whether it also requires the
    simulation mode, its boolean column and its description. *)
Record check := mkCheck {
  feature : string;
  needs_simulation : bool;
  column : string;
  description : string }.

(** the checks, in the order in which the engine activates them *)
Definition all_checks : list check :=
  [ mkCheck "amount" false "risk_amount" "Unusual transaction amount";
    mkCheck "device_hash" false "risk_new_device" "New device detected";
    mkCheck "ip_address" false "risk_new_ip" "New IP address detected";
    mkCheck "location" false "risk_location_change" "Transaction location changed";
    mkCheck "timestamp" false "risk_off_hour" "Transaction at unusual time";
    mkCheck "timestamp" true "risk_velocity_sim" "Multiple transactions in short time" ].

Definition check_active (feats : gset string) (simulation_mode : bool) (c : check) : bool :=
  bool_decide (feature c ∈ feats) && implb (needs_simulation c) simulation_mode.

(** ** The fields of the input batch *)

(** what the engine does to the temporal stamp of a record *)
Definition stamp_handled (to_datetime : string → option Z) (has_timestamp : bool)
    (r r' : Row) : Prop :=
  if has_timestamp then
    ∃ t, cells r !! "timestamp" ≫= parse_datetime to_datetime = Some t ∧
         cells r' !! "timestamp" = Some (CTime t)
  else cells r' !! "timestamp" = cells r !! "timestamp".

(** ** Groups, seen from a row *)

(** the position of the record that comes immediately before record [i]
    among the records of its group *)
Definition previous_in_group {K} `{EqDecision K} (keys : list K) (i : nat) : option nat :=
  k ← keys !! i; last (filter (λ j, keys !! j = Some k) (seq 0 i)).

(** the members of the group of [k] among the first [i] rows *)
Definition group_before {K} `{EqDecision K} {A} (keys : list K) (xs : list A) (k : K)
    (i : nat) : list (K * A) :=
  filter (λ p, p.1 = k) (take i (zip keys xs)).

(** the number of the records of account [a] at the hour [h] *)
Definition hour_count (ks : list akey) (hs : list Z) (a : akey) (h : Z) : nat :=
  length (filter ((a, h) =.) (zip ks hs)).

(** * Runs on concrete batches *)

(** the output of a run that did not raise *)
Definition output_of (o : option Output) : Output :=
  default (mkOutput (mkDF [] []) [] 0 ∅) o.

(** the cells of the column [c] of the output, in row order *)
Definition column_values (c : string) (out : Output) : list (option cell) :=
  (λ r, cells r !! c) <$> rows (out_frame out).

(** Three accounts, the records not in order: account A with the amounts
    100, 100, 100, account B with the amounts 10, 10, 1000, and account C
    with records at the hours 9, 9, 9 and 14. *)
Definition accounts : DataFrame :=
  read_rows
    ["sender_account"; "amount"; "device_hash"; "ip_address"; "location"; "timestamp"]
    [ [CStr "C"; CInt 40; CStr "d5"; CStr "10.0.0.5"; CStr "Delhi"; CStr "2024-03-04T14:05:00Z"];
      [CStr "A"; CInt 100; CStr "d1"; CStr "10.0.0.1"; CStr "Pune"; CStr "2024-03-01T08:00:00Z"];
      [CStr "B"; CInt 10; CStr "d3"; CStr "10.0.0.3"; CStr "Nagpur"; CStr "2024-03-01T11:30:00Z"];
      [CStr "C"; CInt 20; CStr "d5"; CStr "10.0.0.5"; CStr "Delhi"; CStr "2024-03-01T09:10:00Z"];
      [CStr "A"; CInt 100; CStr "d1"; CStr "10.0.0.1"; CStr "Pune"; CStr "2024-03-02T08:15:00Z"];
      [CStr "B"; CInt 1000; CStr "d4"; CStr "10.0.0.9"; CStr "Goa"; CStr "2024-03-03T23:45:00Z"];
      [CStr "C"; CInt 30; CStr "d5"; CStr "10.0.0.5"; CStr "Delhi"; CStr "2024-03-02T09:20:00Z"];
      [CStr "B"; CInt 10; CStr "d3"; CStr "10.0.0.3"; CStr "Nagpur"; CStr "2024-03-02T11:40:00Z"];
      [CStr "A"; CInt 100; CStr "d2"; CStr "10.0.0.1"; CStr "Mumbai"; CStr "2024-03-03T08:30:00Z"];
      [CStr "C"; CInt 25; CStr "d5"; CStr "10.0.0.5"; CStr "Delhi"; CStr "2024-03-03T09:30:00Z"] ].

Definition accounts_out : Output := output_of (run accounts true None).

(** Seventeen records of one account, a minute apart. *)
Definition seventeen : DataFrame :=
  read_rows ["sender_account"; "timestamp"]
    [ [CStr "A"; CStr "2024-03-01T10:00:00Z"]; [CStr "A"; CStr "2024-03-01T10:01:00Z"];
      [CStr "A"; CStr "2024-03-01T10:02:00Z"]; [CStr "A"; CStr "2024-03-01T10:03:00Z"];
      [CStr "A"; CStr "2024-03-01T10:04:00Z"]; [CStr "A"; CStr "2024-03-01T10:05:00Z"];
      [CStr "A"; CStr "2024-03-01T10:06:00Z"]; [CStr "A"; CStr "2024-03-01T10:07:00Z"];
      [CStr "A"; CStr "2024-03-01T10:08:00Z"]; [CStr "A"; CStr "2024-03-01T10:09:00Z"];
      [CStr "A"; CStr "2024-03-01T10:10:00Z"]; [CStr "A"; CStr "2024-03-01T10:11:00Z"];
      [CStr "A"; CStr "2024-03-01T10:12:00Z"]; [CStr "A"; CStr "2024-03-01T10:13:00Z"];
      [CStr "A"; CStr "2024-03-01T10:14:00Z"]; [CStr "A"; CStr "2024-03-01T10:15:00Z"];
      [CStr "A"; CStr "2024-03-01T10:16:00Z"] ].

Definition seventeen_out : Output := output_of (run seventeen true None).

(** A batch with none of the five features. *)
Definition bare : DataFrame :=
  read_rows ["transaction_id"; "note"]
    [ [CStr "T1"; CStr "rent"]; [CStr "T2"; CStr "salary"] ].

Definition bare_out : Output := output_of (run bare true None).

(** Three stamped records of one account: fewer than a session. *)
Definition three_stamped : DataFrame :=
  read_rows ["sender_account"; "timestamp"]
    [ [CStr "A"; CStr "2024-03-01T10:00:00Z"]; [CStr "A"; CStr "2024-03-01T10:01:00Z"];
      [CStr "A"; CStr "2024-03-01T10:02:00Z"] ].

Definition three_stamped_out : Output := output_of (run three_stamped true None).

(** One record, with a location. *)
Definition one_located : DataFrame :=
  read_rows ["sender_account"; "location"] [ [CStr "A"; CStr "Pune"] ].

(** One record, stamped with an offset from UTC. *)
Definition one_stamped : DataFrame :=
  read_rows ["sender_account"; "timestamp"]
    [ [CStr "A"; CStr "2024-01-15T09:30:00+05:30"] ].

(** the binary64 number nearest to one tenth *)
Definition tenth : float := 0x1.999999999999ap-4%float.

(** One account with the same amount, one tenth, three times. *)
Definition constant_amounts : DataFrame :=
  read_rows ["sender_account"; "amount"]
    [ [CStr "A"; CFloat tenth]; [CStr "A"; CFloat tenth]; [CStr "A"; CFloat tenth] ].


(** ** Batches that the engine can work with *)

(** the names of the five features, in alphabetical order *)
Definition feature_names : list string :=
  ["amount"; "device_hash"; "ip_address"; "location"; "timestamp"].





(** *** The same, as a check that runs *)




(** ** Further runs on concrete batches *)

(** whether a run returned *)
Definition returned {A} (o : option A) : bool := if o is Some _ then true else false.

(** A batch with amounts and no account column. *)
Definition no_accounts : DataFrame :=
  read_rows ["transaction_id"; "amount"] [ [CStr "T1"; CInt 10]; [CStr "T2"; CInt 20] ].

(** One record whose stamp is not a date. *)
Definition bad_stamp : DataFrame :=
  read_rows ["sender_account"; "timestamp"] [ [CStr "A"; CStr "yesterday"] ].

(** the first row of a frame *)
Definition first_row (df : DataFrame) : Row := default (mkRow 0 ∅) (head (rows df)).

Definition one_located_out : Output := output_of (run one_located true None).

(** the three accounts, with the identifier of the transaction that the
    ingestion requires *)
Definition accounts_with_ids : DataFrame :=
  mkDF ("transaction_id" :: columns accounts)
       ((λ r, set_cell "transaction_id" (CStr ("T" +:+ pretty (label r))) r)
          <$> rows accounts).

(** a collection as the list of its documents; storing appends *)
Definition list_insert_many (docs : list document) (coll : list document)
    : list document * bool := (coll ++ docs, true).

(** the value of a field of a document *)
Definition doc_field (k : string) (d : document) : option cell :=
  (λ x, x.2.2) <$> list_find (λ kv : string * cell, kv.1 = k) d.

(** A cursor over such a collection, for the runs: the documents that are
    flagged anomalous with an integer score of at least [min_risk], in the
    order of the collection. *)
Definition flagged_doc (min_risk : Z) (d : document) : bool :=
  match doc_field "final_is_anomalous" d, doc_field "final_risk_score" d with
  | Some (CBool true), Some (CInt s) => bool_decide (min_risk ≤ s)
  | _, _ => false
  end.

Definition list_find_flagged (min_risk : Z) (coll : list document) : list document :=
  filter (λ d, flagged_doc min_risk d = true) coll.

(** the collection that holds the records of the three accounts *)
Definition accounts_collection : list document := to_records (out_frame accounts_out).

(** the output of the three accounts with the simulation mode off *)
Definition accounts_plain_out : Output := output_of (run accounts false None).

(** whether an ingestion returned its metadata *)
Definition stored {A} (r : error + A) : bool := if r is inr _ then true else false.

Definition metadata_of (r : error + metadata) : metadata :=
  match r with
  | inr meta => meta
  | inl _ => mkMetadata 0 false [] [] [] 0
  end.

(** the three accounts, ingested into an empty collection *)
Definition accounts_ingested : list document * (error + metadata) :=
  ingest_dataframe iso8601 seq_sum (list document) list_insert_many
                   accounts_with_ids true [].

Definition accounts_stored : list document := accounts_ingested.1.

Definition accounts_metadata : metadata := metadata_of accounts_ingested.2.

(** * Properties *)

(** Arithmetic on positions is kept folded by [simpl]. *)
Global Arguments Nat.div : simpl never.
Global Arguments Nat.modulo : simpl never.
Global Arguments Nat.mul : simpl never.

(** ** The stable sort *)

Section isort_facts.
Context {A : Type} (leb : A → A → bool).

Lemma insert_sorted_Permutation (x : A) (l : list A) :
  insert_sorted leb x l ≡ₚ x :: l.
Proof.
  induction l as [|y l IH]; simpl; [done|].
  destruct (leb x y); [done|]. rewrite IH. apply Permutation_swap.
Qed.

Lemma isort_Permutation (l : list A) : isort leb l ≡ₚ l.
Proof.
  induction l as [|x l IH]; simpl; [done|].
  by rewrite insert_sorted_Permutation, IH.
Qed.

Lemma isort_length (l : list A) : length (isort leb l) = length l.
Proof. apply Permutation_length, isort_Permutation. Qed.

Hypothesis leb_total : ∀ x y, leb x y = true ∨ leb y x = true.
Hypothesis leb_trans : ∀ x y z, leb x y = true → leb y z = true → leb x z = true.

Lemma insert_sorted_stable (R : relation A) (x : A) (s : list A) :
  Forall (R x) s →
  StronglySorted (stable_le leb R) s →
  StronglySorted (stable_le leb R) (insert_sorted leb x s).
Proof.
  induction s as [|y s IH]; intros HR Hs; simpl.
  { repeat constructor. }
  apply Forall_cons in HR as [HRy HR].
  apply StronglySorted_inv in Hs as [Hs Hy].
  destruct (leb x y) eqn:Hxy.
  - constructor; [by constructor|].
    constructor; [by split|].
    rewrite Forall_forall in HR, Hy. apply Forall_forall. intros z Hz.
    destruct (Hy z Hz) as [Hyz _]. split; [by eapply leb_trans|auto].
  - constructor; [by apply IH|].
    rewrite insert_sorted_Permutation. constructor; [|done].
    split; [|congruence]. destruct (leb_total x y); congruence.
Qed.

Lemma isort_stable (R : relation A) (l : list A) :
  StronglySorted R l → StronglySorted (stable_le leb R) (isort leb l).
Proof.
  induction 1 as [|x l Hl IH Hx]; simpl; [constructor|].
  apply insert_sorted_stable; [|done]. by rewrite isort_Permutation.
Qed.

Lemma isort_sorted (l : list A) :
  StronglySorted (λ x y, leb x y = true) (isort leb l).
Proof.
  induction l as [|x l IH]; simpl; [constructor|].
  assert (∀ s, StronglySorted (λ x y, leb x y = true) s →
               StronglySorted (λ x y, leb x y = true) (insert_sorted leb x s)) as Hins;
    [|by apply Hins].
  clear IH. induction s as [|y s IHs]; intros Hs; simpl; [repeat constructor|].
  apply StronglySorted_inv in Hs as [Hs Hy].
  destruct (leb x y) eqn:Hxy.
  - constructor; [by constructor|]. constructor; [done|].
    eapply Forall_impl; [done|]. intros z Hz. by eapply leb_trans.
  - constructor; [by apply IHs|].
    rewrite insert_sorted_Permutation. constructor; [|done].
    destruct (leb_total x y); congruence.
Qed.
End isort_facts.


(** ** Frames under the assignments of the engine *)

Lemma elem_of_add_column (c c' : string) (cols : list string) :
  c' ∈ add_column c cols ↔ c' ∈ cols ∨ c' = c.
Proof.
  unfold add_column. case_bool_decide as Hc.
  - split; [auto|]. by intros [?| ->].
  - by rewrite elem_of_app, list_elem_of_singleton.
Qed.

Lemma cells_step_refl cs r : cells_step cs r r.
Proof. by intros c _. Qed.

Lemma cells_step_trans cs1 cs2 r1 r2 r3 :
  cells_step cs1 r1 r2 → cells_step cs2 r2 r3 → cells_step (cs1 ++ cs2) r1 r3.
Proof.
  intros H1 H2 c Hc. rewrite elem_of_app in Hc.
  rewrite H2, H1; naive_solver.
Qed.

Lemma cells_step_mono cs cs' r r' :
  cs ⊆ cs' → cells_step cs r r' → cells_step cs' r r'.
Proof. intros Hsub H c Hc. apply H. intros ?. by apply Hc, Hsub. Qed.

Lemma cells_step_set_cell c v r : cells_step [c] r (set_cell c v r).
Proof.
  intros c' Hc'. simpl. apply lookup_insert_ne.
  intros ->. apply Hc'. by left.
Qed.

Lemma row_step_refl cs r : row_step cs r r.
Proof. split; [done|apply cells_step_refl]. Qed.

Lemma row_step_trans cs1 cs2 r1 r2 r3 :
  row_step cs1 r1 r2 → row_step cs2 r2 r3 → row_step (cs1 ++ cs2) r1 r3.
Proof.
  intros [? ?] [? ?]. split; [congruence|by eapply cells_step_trans].
Qed.

Lemma row_step_mono cs cs' r r' : cs ⊆ cs' → row_step cs r r' → row_step cs' r r'.
Proof. intros ? [? ?]. split; [done|by eapply cells_step_mono]. Qed.

Lemma row_step_set_cell c v r : row_step [c] r (set_cell c v r).
Proof. split; [done|apply cells_step_set_cell]. Qed.

Lemma cols_step_refl cs df : cols_step cs df df.
Proof. split; [done|auto]. Qed.

Lemma cols_step_trans cs1 cs2 df1 df2 df3 :
  cols_step cs1 df1 df2 → cols_step cs2 df2 df3 → cols_step (cs1 ++ cs2) df1 df3.
Proof.
  intros [Ha Hb] [Hc Hd]. split; [by etrans|].
  intros c Hin. rewrite elem_of_app.
  destruct (Hd c Hin) as [?|?]; [|by auto]. destruct (Hb c); auto.
Qed.

Lemma cols_step_mono cs cs' df df' : cs ⊆ cs' → cols_step cs df df' → cols_step cs' df df'.
Proof. intros Hsub [? H]. split; [done|]. intros c Hc. destruct (H c Hc); auto. Qed.

Lemma cols_step_add c df rs :
  cols_step [c] df (mkDF (add_column c (columns df)) rs).
Proof.
  split; simpl.
  - intros c' ?. apply elem_of_add_column. by left.
  - intros c' [?| ->]%elem_of_add_column; [by left|right; by left].
Qed.

Lemma cols_step_eq c df df' :
  columns df' = add_column c (columns df) → cols_step [c] df df'.
Proof.
  intros H. destruct df' as [cols' rs']. simpl in H. subst. apply cols_step_add.
Qed.

Lemma frame_step_refl cs df : frame_step cs df df.
Proof.
  split; [apply cols_step_refl|].
  apply Forall_Forall2_diag, Forall_forall. intros. apply row_step_refl.
Qed.

Lemma frame_step_trans cs1 cs2 df1 df2 df3 :
  frame_step cs1 df1 df2 → frame_step cs2 df2 df3 → frame_step (cs1 ++ cs2) df1 df3.
Proof.
  intros [? H1] [? H2]. split; [by eapply cols_step_trans|].
  eapply Forall2_trans; [|done..]. intros ???. apply row_step_trans.
Qed.

Lemma frame_step_mono cs cs' df df' :
  cs ⊆ cs' → frame_step cs df df' → frame_step cs' df df'.
Proof.
  intros ? [? H]. split; [by eapply cols_step_mono|].
  eapply Forall2_impl; [done|]. intros ??. by apply row_step_mono.
Qed.

Lemma frame_step_length cs df df' :
  frame_step cs df df' → length (rows df') = length (rows df).
Proof. intros [_ H]. symmetry. by eapply Forall2_length. Qed.

(** a cell outside the assigned columns, at a position *)
Lemma frame_step_lookup cs df df' i r' c :
  frame_step cs df df' → rows df' !! i = Some r' → c ∉ cs →
  ∃ r, rows df !! i = Some r ∧ label r' = label r ∧ cells r' !! c = cells r !! c.
Proof.
  intros [_ H] Hi Hc.
  destruct (Forall2_lookup_r _ _ _ _ _ H Hi) as (r & Hr & Hl & Hs). eauto.
Qed.

Lemma frame_step_assign_const c v df : frame_step [c] df (assign_const c v df).
Proof.
  split; [apply cols_step_add|]. simpl.
  apply Forall2_fmap_r, Forall_Forall2_diag, Forall_forall.
  intros r _. apply row_step_set_cell.
Qed.

Lemma rows_assign_lookup c vals df i r' :
  rows (assign c vals df) !! i = Some r' ↔
  ∃ v r, vals !! i = Some v ∧ rows df !! i = Some r ∧ r' = set_cell c v r.
Proof. simpl. rewrite lookup_zip_with_Some. naive_solver. Qed.

Lemma frame_step_assign c vals df :
  length vals = length (rows df) → frame_step [c] df (assign c vals df).
Proof.
  intros Hlen. split; [apply cols_step_add|].
  apply Forall2_same_length_lookup_2.
  { simpl. rewrite length_zip_with. lia. }
  intros i r r' Hr (v & r0 & Hv & Hr0 & ->)%rows_assign_lookup.
  simplify_eq. apply row_step_set_cell.
Qed.

Lemma assign_rows_Some c f df df' :
  assign_rows c f df = Some df' →
  columns df' = add_column c (columns df) ∧
  Forall2 (λ r r', ∃ v, f r = Some v ∧ r' = set_cell c v r) (rows df) (rows df').
Proof.
  unfold assign_rows. intros H. simplify_option_eq. split; [done|].
  simpl. eapply Forall2_impl; [by apply mapM_Some_1|].
  intros r r' Hr. simpl in Hr. destruct (f r) as [v|]; simplify_eq/=. eauto.
Qed.

Lemma frame_step_assign_rows c f df df' :
  assign_rows c f df = Some df' → frame_step [c] df df'.
Proof.
  intros [Hc H]%assign_rows_Some. split.
  - destruct df' as [cols' rs']. simpl in *. subst. apply cols_step_add.
  - eapply Forall2_impl; [done|]. intros r r' (v & _ & ->). apply row_step_set_cell.
Qed.

(** the assigned cell, at a position *)
Lemma assign_rows_lookup c f df df' i r' :
  assign_rows c f df = Some df' → rows df' !! i = Some r' →
  ∃ r v, rows df !! i = Some r ∧ f r = Some v ∧ r' = set_cell c v r.
Proof.
  intros [_ H]%assign_rows_Some Hi.
  destruct (Forall2_lookup_r _ _ _ _ _ H Hi) as (r & ? & v & ? & ?). eauto.
Qed.

Lemma lookup_set_cell_eq c v r : cells (set_cell c v r) !! c = Some v.
Proof. apply lookup_insert_eq. Qed.

Lemma lookup_set_cell_ne c c' v r : c ≠ c' → cells (set_cell c v r) !! c' = cells r !! c'.
Proof. intros. by apply lookup_insert_ne. Qed.

(** reading a cell through the assignments made before *)
Ltac cells_simpl :=
  simpl; repeat (rewrite lookup_insert_eq || rewrite lookup_insert_ne by done).
Tactic Notation "cells_simpl" "in" hyp(H) :=
  simpl in H;
  repeat (rewrite lookup_insert_eq in H || rewrite lookup_insert_ne in H by done).

(** [df[c]] read row by row *)
Lemma col_Some c df vs :
  col c df = Some vs → Forall2 (λ r v, cells r !! c = Some v) (rows df) vs.
Proof. unfold col. case_bool_decide; [|done]. apply mapM_Some_1. Qed.

Lemma col_mapM_Some {A} c (f : cell → option A) df xs :
  col c df ≫= mapM f = Some xs →
  c ∈ columns df ∧ Forall2 (λ r x, cells r !! c ≫= f = Some x) (rows df) xs.
Proof.
  intros H. apply bind_Some in H as (vs & Hvs & Hxs).
  split; [unfold col in Hvs; by case_bool_decide|].
  apply col_Some in Hvs. apply mapM_Some_1 in Hxs.
  eapply Forall2_trans; [|done..]. intros r v x Hv Hx. by rewrite Hv.
Qed.

Lemma account_keys_Some df ks :
  account_keys df = Some ks →
  Forall2 (λ r k, cells r !! "sender_account" ≫= as_key = Some k) (rows df) ks.
Proof.
  unfold account_keys. intros H. apply bind_Some in H as (ks' & Hks & H).
  destruct (_ || _); simplify_eq. by apply col_mapM_Some in Hks as [_ ?].
Qed.

(** ** Sorting a frame permutes its rows *)



(** ** The stages of the engine, one by one *)

Lemma groupby_transform_length {K} `{EqDecision K} {A B} (f : list A → list B) d
    (ks : list K) (xs : list A) :
  length (groupby_transform f d ks xs) = length ks.
Proof. apply length_imap. Qed.

Lemma account_keys_length df ks :
  account_keys df = Some ks → length ks = length (rows df).
Proof. intros H%account_keys_Some. symmetry. by eapply Forall2_length. Qed.

Lemma col_mapM_length {A} c (f : cell → option A) df xs :
  col c df ≫= mapM f = Some xs → length xs = length (rows df).
Proof. intros [_ H]%col_mapM_Some. symmetry. by eapply Forall2_length. Qed.

Lemma amount_check_Some fsum (b : bool) st st' :
  amount_check fsum b st = Some st' →
  frame_step ["amount_zscore"; "risk_amount"] (frame st) (frame st') ∧
  active_risks st' =
    active_risks st ++ (if b then [("risk_amount", "Unusual transaction amount")] else []) ∧
  (if b then
     ∃ ks xs, account_keys (frame st) = Some ks ∧
              col "amount" (frame st) ≫= mapM as_float = Some xs ∧
              ∀ i r, rows (frame st') !! i = Some r → amount_row fsum ks xs i r
   else Forall (λ r, cells r !! "risk_amount" = Some (CBool false)) (rows (frame st'))).
Proof.
  unfold amount_check. destruct b; intros H.
  - apply bind_Some in H as (ks & Hks & H).
    apply bind_Some in H as (xs & Hxs & H).
    apply bind_Some in H as (df2 & Hdf2 & H). simplify_eq/=.
    split_and!.
    + eapply (frame_step_trans ["amount_zscore"] ["risk_amount"]);
        [|apply (frame_step_assign_rows _ _ _ _ Hdf2)].
      apply frame_step_assign.
      rewrite length_fmap, groupby_transform_length. by apply account_keys_length.
    + done.
    + exists ks, xs. split_and!; [done..|].
      intros i r Hr.
      destruct (assign_rows_lookup _ _ _ _ _ _ Hdf2 Hr) as (r1 & v & Hr1 & Hv & ->).
      apply rows_assign_lookup in Hr1 as (v1 & r0 & Hv1 & Hr0 & ->).
      rewrite list_lookup_fmap in Hv1. apply fmap_Some in Hv1 as (z & Hz & ->).
      rewrite lookup_set_cell_eq in Hv. simplify_eq/=.
      exists z. split_and!; [done| |].
      * by cells_simpl.
      * by cells_simpl.
  - simplify_eq/=. split_and!.
    + apply (frame_step_mono (["risk_amount"] ++ ["amount_zscore"])); [set_solver|].
      eapply frame_step_trans; apply frame_step_assign_const.
    + by rewrite app_nil_r.
    + apply Forall_forall. intros r Hr.
      apply list_elem_of_fmap in Hr as (r1 & -> & Hr1).
      apply list_elem_of_fmap in Hr1 as (r0 & -> & Hr0).
      by cells_simpl.
Qed.

Lemma first_seen_check_Some (b : bool) feature is_new risk description st st' :
  is_new ≠ risk →
  first_seen_check b feature is_new risk description st = Some st' →
  frame_step [is_new; risk] (frame st) (frame st') ∧
  active_risks st' = active_risks st ++ (if b then [(risk, description)] else []) ∧
  (if b then
     ∃ ks xs, account_keys (frame st) = Some ks ∧
              col feature (frame st) ≫= mapM as_ident = Some xs ∧
              ∀ i r, rows (frame st') !! i = Some r → first_seen_row risk ks xs i r
   else Forall (λ r, cells r !! risk = Some (CBool false)) (rows (frame st'))).
Proof.
  intros Hne. unfold first_seen_check. destruct b; intros H.
  - apply bind_Some in H as (ks & Hks & H).
    apply bind_Some in H as (xs & Hxs & H).
    apply bind_Some in H as (df2 & Hdf2 & H). simplify_eq/=.
    split_and!.
    + eapply (frame_step_trans [is_new] [risk]);
        [|apply (frame_step_assign_rows _ _ _ _ Hdf2)].
      apply frame_step_assign.
      rewrite length_fmap, groupby_transform_length. by apply account_keys_length.
    + done.
    + exists ks, xs. split_and!; [done..|].
      intros i r Hr.
      destruct (assign_rows_lookup _ _ _ _ _ _ Hdf2 Hr) as (r1 & v & Hr1 & Hv & ->).
      apply rows_assign_lookup in Hr1 as (v1 & r0 & Hv1 & Hr0 & ->).
      rewrite list_lookup_fmap in Hv1. apply fmap_Some in Hv1 as (z & Hz & ->).
      rewrite lookup_set_cell_eq in Hv. simplify_eq/=.
      exists z. split; [done|]. by rewrite lookup_set_cell_eq.
  - simplify_eq/=. split_and!.
    + eapply (frame_step_trans [is_new] [risk]); apply frame_step_assign_const.
    + by rewrite app_nil_r.
    + apply Forall_forall. intros r Hr.
      apply list_elem_of_fmap in Hr as (r1 & -> & Hr1).
      by rewrite lookup_set_cell_eq.
Qed.

Lemma as_ident_ident_cell p : as_ident (ident_cell p) = Some p.
Proof. by destruct p. Qed.

Lemma location_check_Some (b : bool) st st' :
  location_check b st = Some st' →
  frame_step ["prev_location"; "location_changed"; "risk_location_change"]
             (frame st) (frame st') ∧
  active_risks st' =
    active_risks st ++
    (if b then [("risk_location_change", "Transaction location changed")] else []) ∧
  (if b then
     ∃ ks xs, account_keys (frame st) = Some ks ∧
              col "location" (frame st) ≫= mapM as_ident = Some xs ∧
              ∀ i r, rows (frame st') !! i = Some r → location_row ks xs i r
   else Forall (λ r, cells r !! "risk_location_change" = Some (CBool false))
               (rows (frame st'))).
Proof.
  unfold location_check. destruct b; intros H.
  - apply bind_Some in H as (ks & Hks & H).
    apply bind_Some in H as (xs & Hxs & H).
    apply bind_Some in H as (df2 & Hdf2 & H).
    apply bind_Some in H as (df3 & Hdf3 & H). simplify_eq/=.
    split_and!.
    + eapply (frame_step_trans ["prev_location"] ["location_changed"; "risk_location_change"]);
        [|eapply (frame_step_trans ["location_changed"] ["risk_location_change"]);
          [apply (frame_step_assign_rows _ _ _ _ Hdf2)
          |apply (frame_step_assign_rows _ _ _ _ Hdf3)]].
      apply frame_step_assign.
      rewrite length_fmap, groupby_transform_length. by apply account_keys_length.
    + done.
    + exists ks, xs. split_and!; [done..|].
      intros i r Hr.
      destruct (assign_rows_lookup _ _ _ _ _ _ Hdf3 Hr) as (r2 & v & Hr2 & Hv & ->).
      destruct (assign_rows_lookup _ _ _ _ _ _ Hdf2 Hr2) as (r1 & v2 & Hr1 & Hv2 & ->).
      apply rows_assign_lookup in Hr1 as (v1 & r0 & Hv1 & Hr0 & ->).
      rewrite list_lookup_fmap in Hv1. apply fmap_Some in Hv1 as (p & Hp & ->).
      rewrite lookup_set_cell_eq in Hv. simplify_eq/=.
      apply bind_Some in Hv2 as (x & Hx & Hv2).
      rewrite lookup_insert_ne in Hx by done.
      rewrite lookup_insert_eq in Hv2. simpl in Hv2.
      rewrite as_ident_ident_cell in Hv2. simplify_eq/=.
      apply col_mapM_Some in Hxs as [_ Hxs].
      destruct (Forall2_lookup_l _ _ _ _ _ Hxs Hr0) as (x' & Hx' & Hxx).
      assert (x' = x) as -> by congruence.
      exists x, p. split_and!; [done..| |].
      * by cells_simpl.
      * by cells_simpl.
  - simplify_eq/=. split_and!.
    + eapply (frame_step_trans ["prev_location"] ["location_changed"; "risk_location_change"]);
        [apply frame_step_assign_const|].
      eapply (frame_step_trans ["location_changed"] ["risk_location_change"]);
        apply frame_step_assign_const.
    + by rewrite app_nil_r.
    + apply Forall_forall. intros r Hr.
      apply list_elem_of_fmap in Hr as (r1 & -> & Hr1).
      by rewrite lookup_set_cell_eq.
Qed.

Lemma off_hour_check_Some (b : bool) st st' :
  off_hour_check b st = Some st' →
  frame_step ["dominant_hour"; "off_hour_txn"; "risk_off_hour"] (frame st) (frame st') ∧
  active_risks st' =
    active_risks st ++
    (if b then [("risk_off_hour", "Transaction at unusual time")] else []) ∧
  (if b then
     ∃ ks hs, account_keys (frame st) = Some ks ∧
              col "hour" (frame st) ≫= mapM as_int = Some hs ∧
              ∀ i r, rows (frame st') !! i = Some r → off_hour_row ks hs i r
   else Forall (λ r, cells r !! "risk_off_hour" = Some (CBool false) ∧
                     cells r !! "dominant_hour" = Some (CInt 12))
               (rows (frame st'))).
Proof.
  unfold off_hour_check. destruct b; intros H.
  - apply bind_Some in H as (ks & Hks & H).
    apply bind_Some in H as (hs & Hhs & H).
    apply bind_Some in H as (df2 & Hdf2 & H).
    apply bind_Some in H as (df3 & Hdf3 & H). simplify_eq/=.
    split_and!.
    + eapply (frame_step_trans ["dominant_hour"] ["off_hour_txn"; "risk_off_hour"]);
        [|eapply (frame_step_trans ["off_hour_txn"] ["risk_off_hour"]);
          [apply (frame_step_assign_rows _ _ _ _ Hdf2)
          |apply (frame_step_assign_rows _ _ _ _ Hdf3)]].
      apply frame_step_assign. rewrite length_fmap. by apply account_keys_length.
    + done.
    + exists ks, hs. split_and!; [done..|].
      intros i r Hr.
      destruct (assign_rows_lookup _ _ _ _ _ _ Hdf3 Hr) as (r2 & v & Hr2 & Hv & ->).
      destruct (assign_rows_lookup _ _ _ _ _ _ Hdf2 Hr2) as (r1 & v2 & Hr1 & Hv2 & ->).
      apply rows_assign_lookup in Hr1 as (v1 & r0 & Hv1 & Hr0 & ->).
      rewrite list_lookup_fmap in Hv1. apply fmap_Some in Hv1 as (k & Hk & ->).
      rewrite lookup_set_cell_eq in Hv. simplify_eq/=.
      apply bind_Some in Hv2 as (h & Hh & Hv2).
      rewrite lookup_insert_ne in Hh by done.
      rewrite lookup_insert_eq in Hv2. simpl in Hv2.
      apply col_mapM_Some in Hhs as [_ Hhs].
      destruct (Forall2_lookup_l _ _ _ _ _ Hhs Hr0) as (h' & Hh' & Hhh).
      assert (h' = h) as -> by congruence.
      exists k, h. split_and!; [done..| |].
      * by cells_simpl.
      * cells_simpl.
        destruct (dominant_hour _ k); simplify_eq/=; done.
  - simplify_eq/=. split_and!.
    + eapply (frame_step_trans ["dominant_hour"] ["off_hour_txn"; "risk_off_hour"]);
        [apply frame_step_assign_const|].
      eapply (frame_step_trans ["off_hour_txn"] ["risk_off_hour"]);
        apply frame_step_assign_const.
    + by rewrite app_nil_r.
    + apply Forall_forall. intros r Hr.
      apply list_elem_of_fmap in Hr as (r1 & -> & Hr1).
      apply list_elem_of_fmap in Hr1 as (r2 & -> & Hr2).
      apply list_elem_of_fmap in Hr2 as (r3 & -> & Hr3).
      split; by cells_simpl.
Qed.


(** ** The orders of the sorts are total preorders *)

Lemma string_leb_refl s : String.leb s s = true.
Proof. apply Is_true_true. apply (reflexivity (R:=String.le)). Qed.

Lemma string_leb_total s t : String.leb s t = true ∨ String.leb t s = true.
Proof. apply String.leb_total. Qed.

Lemma string_leb_trans s t u :
  String.leb s t = true → String.leb t u = true → String.leb s u = true.
Proof.
  rewrite <-!Is_true_true. apply (transitivity (R:=String.le)).
Qed.

Lemma string_leb_antisym s t : String.leb s t = true → String.leb t s = true → s = t.
Proof. apply String.leb_antisym. Qed.

Lemma akey_leb_refl a : akey_leb a a = true.
Proof. destruct a; simpl; [by apply bool_decide_eq_true|apply string_leb_refl]. Qed.

Lemma akey_leb_total a b : akey_leb a b = true ∨ akey_leb b a = true.
Proof.
  destruct a, b; simpl; auto using string_leb_total.
  rewrite !bool_decide_eq_true. lia.
Qed.

Lemma akey_leb_trans a b c :
  akey_leb a b = true → akey_leb b c = true → akey_leb a c = true.
Proof.
  destruct a, b, c; simpl; try done; eauto using string_leb_trans.
  rewrite !bool_decide_eq_true. lia.
Qed.

Lemma akey_leb_antisym a b : akey_leb a b = true → akey_leb b a = true → a = b.
Proof.
  destruct a, b; simpl; try done.
  - rewrite !bool_decide_eq_true. intros. f_equal. lia.
  - intros. f_equal. by apply string_leb_antisym.
Qed.

(** A lexicographic order: a first key under a total order, then a second
    one.  The three sorts of the engine are of this shape. *)
Section lexicographic.
Context {K V : Type} `{EqDecision K} (kleb : K → K → bool) (vleb : V → V → bool).
Hypothesis kleb_total : ∀ a b, kleb a b = true ∨ kleb b a = true.
Hypothesis kleb_trans : ∀ a b c, kleb a b = true → kleb b c = true → kleb a c = true.
Hypothesis kleb_antisym : ∀ a b, kleb a b = true → kleb b a = true → a = b.
Hypothesis vleb_total : ∀ a b, vleb a b = true ∨ vleb b a = true.
Hypothesis vleb_trans : ∀ a b c, vleb a b = true → vleb b c = true → vleb a c = true.

Lemma lex_leb_total a b : lex_leb kleb vleb a b = true ∨ lex_leb kleb vleb b a = true.
Proof.
  unfold lex_leb. repeat case_bool_decide; try congruence; auto.
Qed.

Lemma lex_leb_trans a b c :
  lex_leb kleb vleb a b = true → lex_leb kleb vleb b c = true → lex_leb kleb vleb a c = true.
Proof.
  unfold lex_leb. repeat case_bool_decide; intros Hab Hbc; eauto; try congruence.
  exfalso. assert (a.1 = b.1); [|congruence]. apply kleb_antisym; [done|].
  replace a.1 with c.1 by done. done.
Qed.
End lexicographic.

Lemma Z_leb_total (a b : Z) : bool_decide (a ≤ b) = true ∨ bool_decide (b ≤ a) = true.
Proof. rewrite !bool_decide_eq_true. lia. Qed.

Lemma Z_leb_trans (a b c : Z) :
  bool_decide (a ≤ b) = true → bool_decide (b ≤ c) = true → bool_decide (a ≤ c) = true.
Proof. rewrite !bool_decide_eq_true. lia. Qed.

Lemma account_time_leb_total a b :
  account_time_leb a b = true ∨ account_time_leb b a = true.
Proof.
  exact (lex_leb_total akey_leb Z_leb akey_leb_total Z_leb_total a b).
Qed.

Lemma account_time_leb_trans a b c :
  account_time_leb a b = true → account_time_leb b c = true → account_time_leb a c = true.
Proof.
  exact (lex_leb_trans akey_leb Z_leb akey_leb_trans akey_leb_antisym Z_leb_trans a b c).
Qed.

Lemma na_last_leb_total s t :
  na_last_leb String.leb s t = true ∨ na_last_leb String.leb t s = true.
Proof. destruct s, t; simpl; auto using string_leb_total. Qed.

Lemma na_last_leb_trans s t u :
  na_last_leb String.leb s t = true → na_last_leb String.leb t u = true →
  na_last_leb String.leb s u = true.
Proof. destruct s, t, u; simpl; try done. apply string_leb_trans. Qed.

Lemma na_last_leb_antisym s t :
  na_last_leb String.leb s t = true → na_last_leb String.leb t s = true → s = t.
Proof.
  destruct s, t; simpl; try done. intros. f_equal. by apply string_leb_antisym.
Qed.

Lemma session_time_leb_total a b :
  session_time_leb a b = true ∨ session_time_leb b a = true.
Proof.
  exact (lex_leb_total (na_last_leb String.leb) Z_leb na_last_leb_total Z_leb_total a b).
Qed.

Lemma session_time_leb_trans a b c :
  session_time_leb a b = true → session_time_leb b c = true → session_time_leb a c = true.
Proof.
  exact (lex_leb_trans (na_last_leb String.leb) Z_leb
           na_last_leb_trans na_last_leb_antisym Z_leb_trans a b c).
Qed.

Lemma account_count_leb_total a b :
  account_count_leb a b = true ∨ account_count_leb b a = true.
Proof.
  unfold account_count_leb. repeat case_bool_decide; try congruence; auto;
    try lia. apply akey_leb_total.
Qed.

Lemma account_count_leb_trans a b c :
  account_count_leb a b = true → account_count_leb b c = true →
  account_count_leb a c = true.
Proof.
  unfold account_count_leb. repeat case_bool_decide; intros Hab Hbc;
    eauto using akey_leb_trans; try congruence; try lia.
  exfalso. assert (a.1.1 = b.1.1); [|congruence]. apply akey_leb_antisym; [done|].
  replace a.1.1 with c.1.1 by done. done.
Qed.


(** ** Rows related up to their order *)

Lemma rows_perm_Forall2 (R : Row → Row → Prop) rs rs' :
  Forall2 R rs rs' → rows_perm R rs rs'.
Proof. by exists rs. Qed.

Lemma rows_perm_Permutation_r (R : Row → Row → Prop) rs rs' rs'' :
  rows_perm R rs rs' → rs'' ≡ₚ rs' → rows_perm R rs rs''.
Proof.
  intros (l & Hl & HR) Hp.
  apply Forall2_flip in HR.
  destruct (Permutation_Forall2 (P:=flip R) (Permutation_sym Hp) HR) as (l' & Hl' & HR').
  exists l'. split; [by rewrite <-Hl'|]. by apply Forall2_flip in HR'.
Qed.

Lemma rows_perm_trans (R1 R2 R3 : Row → Row → Prop) rs1 rs2 rs3 :
  (∀ a b c, R1 a b → R2 b c → R3 a c) →
  rows_perm R1 rs1 rs2 → rows_perm R2 rs2 rs3 → rows_perm R3 rs1 rs3.
Proof.
  intros HR H1 (l2 & Hl2 & H2).
  destruct (rows_perm_Permutation_r _ _ _ _ H1 Hl2) as (l1 & Hl1 & H1').
  exists l1. split; [done|]. by eapply Forall2_trans.
Qed.

Lemma rows_perm_impl (R R' : Row → Row → Prop) rs rs' :
  (∀ a b, R a b → R' a b) → rows_perm R rs rs' → rows_perm R' rs rs'.
Proof. intros HR (l & ? & ?). exists l. split; [done|]. by eapply Forall2_impl. Qed.

Lemma rows_perm_length (R : Row → Row → Prop) rs rs' :
  rows_perm R rs rs' → length rs' = length rs.
Proof.
  intros (l & Hl & HR). rewrite <-Hl. symmetry. by eapply Forall2_length.
Qed.

(** ** The temporal stamps *)

Section timestamps.
Variable to_datetime : string → option Z.

Lemma timestamp_handling_Some (b : bool) df df1 :
  timestamp_handling to_datetime b df = Some df1 →
  cols_step ["timestamp"; "hour"] df df1 ∧
  if b then
    rows_perm (λ r r1, row_step ["timestamp"; "hour"] r r1 ∧ parsed_row to_datetime r r1)
              (rows df) (rows df1) ∧
    ∃ keys, Forall2 keyed_row (rows df1) keys ∧
            StronglySorted (λ a b, account_time_leb a b = true) keys
  else rows df1 = set_cell "hour" (CInt 12) <$> rows df.
Proof.
  unfold timestamp_handling. destruct b; intros H; [|simplify_eq/=].
  2:{ split; [|done].
      eapply (cols_step_mono ["hour"]); [set_solver|apply cols_step_add]. }
  apply bind_Some in H as (ts & Hts & H).
  apply bind_Some in H as (ks & Hks & H).
  pose proof (col_mapM_length _ _ _ _ Hts) as Hlen.
  apply col_mapM_Some in Hts as [Hcol Hts].
  set (dfa := assign "timestamp" (CTime <$> ts) df) in *.
  assert (Forall2 (λ r ra, row_step ["timestamp"] r ra ∧
            ∃ t, cells r !! "timestamp" ≫= parse_datetime to_datetime = Some t ∧
                 cells ra !! "timestamp" = Some (CTime t)) (rows df) (rows dfa)) as Ha.
  { apply Forall2_same_length_lookup_2.
    { simpl. rewrite length_zip_with, length_fmap. lia. }
    intros i r ra Hr (v & r0 & Hv & Hr0 & ->)%rows_assign_lookup. simplify_eq.
    split; [apply row_step_set_cell|].
    rewrite list_lookup_fmap in Hv. apply fmap_Some in Hv as (t & Ht & ->).
    exists t. split; [|by cells_simpl].
    by destruct (Forall2_lookup_lr _ _ _ _ _ _ Hts Hr Ht). }
  pose proof (account_keys_Some _ _ Hks) as Hka.
  set (pairs := zip (zip ks ts) (rows dfa)) in *.
  set (sorted := isort (λ a b : akey * Z * Row, account_time_leb a.1 b.1) pairs) in *.
  assert (length ks = length (rows dfa)) as Hlk by (by apply account_keys_length).
  assert (length (rows dfa) = length ts) as Hla.
  { simpl. rewrite length_zip_with, length_fmap. lia. }
  assert (Forall (λ p : akey * Z * Row, keyed_row p.2 p.1) pairs) as Hpairs.
  { apply Forall_forall. intros [[k t] ra] Hin.
    apply list_elem_of_lookup in Hin as (i & Hi).
    apply lookup_zip_with_Some in Hi as (kt & ra' & ? & Hkt & Hra). simplify_eq.
    apply lookup_zip_with_Some in Hkt as (k' & t' & ? & Hk & Ht). simplify_eq.
    split; simpl.
    - by destruct (Forall2_lookup_lr _ _ _ _ _ _ Hka Hra Hk).
    - apply rows_assign_lookup in Hra as (v & r0 & Hv & Hr0 & ->).
      rewrite list_lookup_fmap, Ht in Hv. simplify_eq/=. by cells_simpl. }
  assert (sorted.*2 ≡ₚ rows dfa) as Hperm.
  { unfold sorted. rewrite isort_Permutation. unfold pairs.
    rewrite snd_zip; [done|]. rewrite length_zip. lia. }
  pose proof (assign_rows_Some _ _ _ _ H) as [Hc1 Hh].
  change (rows (sort_values account_time_leb (zip ks ts) dfa)) with sorted.*2 in Hh.
  assert (Forall (λ p : akey * Z * Row, keyed_row p.2 p.1) sorted) as Hs.
  { unfold sorted. by rewrite isort_Permutation. }
  assert (StronglySorted (λ a b, account_time_leb a b = true) sorted.*1) as Hss.
  { eapply StronglySorted_fmap; [|apply isort_sorted].
    - intros x y Hxy. exact Hxy.
    - intros x y. apply account_time_leb_total.
    - intros x y z. apply account_time_leb_trans. }
  clearbody sorted. clear pairs Hpairs.
  split.
  { destruct df1 as [c1 r1]. simpl in *. subst c1.
    eapply (cols_step_trans ["timestamp"] ["hour"]); [apply cols_step_add|].
    apply (cols_step_add "hour" (mkDF (add_column "timestamp" (columns df)) sorted.*2)). }
  split.
  - eapply rows_perm_trans; cycle 1.
    { eapply rows_perm_Permutation_r; [apply (rows_perm_Forall2 _ _ _ Ha)|exact Hperm]. }
    { apply (rows_perm_Forall2 _ _ _ Hh). }
    intros r ra r1 [Hst (t & Hp & Ht)] (v & Hv & ->).
    rewrite Ht in Hv. simplify_eq/=. split.
    + eapply (row_step_trans ["timestamp"] ["hour"]); [done|apply row_step_set_cell].
    + exists t. split; [done|]. split; by cells_simpl.
  - exists (sorted.*1). split.
    + apply Forall2_same_length_lookup_2.
      { apply Forall2_length in Hh. rewrite <-Hh. by rewrite !length_fmap. }
      intros i r1 k Hr1 Hk.
      destruct (Forall2_lookup_r _ _ _ _ _ Hh Hr1) as (rs & Hrs & v & Hv & ->).
      rewrite list_lookup_fmap in Hrs. rewrite list_lookup_fmap in Hk.
      destruct (sorted !! i) as [[k' rs']|] eqn:Hi; simplify_eq/=.
      rewrite Forall_forall in Hs.
      destruct (Hs (k, rs)) as [Hk1 Hk2]; [by eapply list_elem_of_lookup_2|].
      split; by cells_simpl.
    + done.
Qed.
End timestamps.


(** ** Fired checks and the base score *)

(** a column name that is not in a list of literal names *)
Ltac notin :=
  let H := fresh in
  intros H; repeat (apply elem_of_cons in H as [H|H]; [discriminate H|]);
  by apply elem_of_nil in H.

Lemma sum_risk_cols_count (active : list (string * string)) (r : Row) bs :
  mapM (λ c, cells r !! c ≫= as_bool) active.*1 = Some bs →
  foldr (λ (b : bool) acc, Z.b2z b + acc) 0 bs = count_fired active r.
Proof.
  unfold count_fired. revert bs.
  induction active as [|[c d] active IH]; intros bs H; [by inv H|].
  simpl in H. apply bind_Some in H as (b & Hb & H).
  apply bind_Some in H as (bs' & Hbs & H). inv H.
  assert (fired r c = b) as Hf.
  { unfold fired. destruct (cells r !! c) as [[]|]; simplify_eq/=. by destruct b. }
  rewrite filter_cons. simpl. rewrite Hf, (IH _ Hbs).
  destruct b; simpl; [|done]. lia.
Qed.

Lemma mapM_as_bool_Some (cols : list string) (r : Row) :
  Forall (λ c, ∃ b, cells r !! c = Some (CBool b)) cols →
  ∃ bs, mapM (λ c, cells r !! c ≫= as_bool) cols = Some bs.
Proof.
  induction 1 as [|c cols [b Hb] _ [bs IH]]; [by exists []|].
  exists (b :: bs). simpl. rewrite Hb, IH. done.
Qed.

Lemma risk_aggregation_Some st st' :
  risk_aggregation st = Some st' →
  frame_step ["base_risk_score"] (frame st) (frame st') ∧
  active_risks st' = active_risks st ∧
  Forall2 (base_score_row (active_risks st)) (rows (frame st)) (rows (frame st')).
Proof.
  unfold risk_aggregation. intros H.
  apply bind_Some in H as (df' & Hdf & H). simplify_eq/=.
  destruct ((active_risks st).*1) eqn:Hcols.
  - simplify_eq/=. split_and!; [apply frame_step_assign_const|done|].
    apply Forall2_fmap_r, Forall_Forall2_diag, Forall_forall. intros r _.
    unfold base_score_row, count_fired. cells_simpl.
    destruct (active_risks st); [done|discriminate].
  - rewrite <-Hcols in Hdf. clear Hcols.
    split_and!; [by eapply frame_step_assign_rows|done|].
    apply assign_rows_Some in Hdf as [_ Hdf].
    eapply Forall2_impl; [done|]. intros r r' (v & Hv & ->).
    unfold sum_risk_cols in Hv. apply bind_Some in Hv as (bs & Hbs & Hv).
    simplify_eq. unfold base_score_row. cells_simpl.
    by erewrite sum_risk_cols_count.
Qed.

(** ** Columns that later stages leave alone *)

Lemma Forall2_frame_step {X} (P : option cell → X → Prop) (c : string) cs df df' xs :
  frame_step cs df df' → c ∉ cs →
  Forall2 (λ r x, P (cells r !! c) x) (rows df) xs →
  Forall2 (λ r x, P (cells r !! c) x) (rows df') xs.
Proof.
  intros [_ Hs] Hc Hx. apply Forall2_flip in Hs.
  eapply Forall2_trans; [|exact Hs|exact Hx].
  intros r' r x [_ Hr] Hp. simpl in *. by rewrite Hr.
Qed.

Lemma Forall2_Some_unique {X} (g : Row → option X) rs xs xs' :
  Forall2 (λ r x, g r = Some x) rs xs → Forall2 (λ r x, g r = Some x) rs xs' → xs = xs'.
Proof.
  intros H. revert xs'. induction H; intros xs' H'; inv H'; [done|].
  f_equal; eauto; congruence.
Qed.

Lemma account_keys_frame_step cs df df' ks ks' :
  frame_step cs df df' → "sender_account" ∉ cs →
  account_keys df = Some ks → account_keys df' = Some ks' → ks' = ks.
Proof.
  intros Hs Hc Hks%account_keys_Some Hks'%account_keys_Some.
  eapply Forall2_Some_unique; [exact Hks'|].
  by apply (Forall2_frame_step (λ o k, o ≫= as_key = Some k) _ _ _ _ _ Hs Hc).
Qed.

Lemma col_mapM_frame_step {X} (f : cell → option X) c cs df df' xs :
  frame_step cs df df' → c ∉ cs →
  col c df ≫= mapM f = Some xs →
  Forall2 (λ r x, cells r !! c ≫= f = Some x) (rows df') xs.
Proof.
  intros Hs Hc [_ Hx]%col_mapM_Some.
  by apply (Forall2_frame_step (λ o x, o ≫= f = Some x) _ _ _ _ _ Hs Hc).
Qed.


(** ** The working batch *)

Lemma base_checks_columns feats : (base_checks feats).*1 ⊆ base_risk_columns.
Proof.
  unfold base_checks, base_risk_columns.
  repeat case_bool_decide; simpl; set_solver.
Qed.

Lemma frame_step_row cs df df' i r' :
  frame_step cs df df' → rows df' !! i = Some r' →
  ∃ r, rows df !! i = Some r ∧ row_step cs r r'.
Proof. intros [_ H] Hi. by apply (Forall2_lookup_r _ _ _ _ _ H Hi). Qed.

Lemma count_fired_ext active r r' :
  (∀ c, c ∈ active.*1 → cells r' !! c = cells r !! c) →
  count_fired active r' = count_fired active r.
Proof.
  unfold count_fired. intros H. f_equal. f_equal.
  induction active as [|[c d] active IH]; [done|].
  rewrite !filter_cons. simpl.
  assert (fired r' c = fired r c) as ->.
  { unfold fired. rewrite H; [done|]. by left. }
  rewrite IH; [done|]. intros c' Hc'. apply H. by right.
Qed.

Lemma amount_row_step fsum ks xs i cs r r' :
  row_step cs r r' → "amount_zscore" ∉ cs → "risk_amount" ∉ cs →
  amount_row fsum ks xs i r → amount_row fsum ks xs i r'.
Proof.
  intros [_ Hs] H1 H2 (z & ? & ? & ?). exists z. rewrite !Hs by done. done.
Qed.

Lemma location_row_step ks xs i cs r r' :
  row_step cs r r' → "prev_location" ∉ cs → "risk_location_change" ∉ cs →
  location_row ks xs i r → location_row ks xs i r'.
Proof.
  intros [_ Hs] H1 H2 (x & p & ? & ? & ? & ?). exists x, p. rewrite !Hs by done. done.
Qed.

Lemma off_hour_row_step ks hs i cs r r' :
  row_step cs r r' → "dominant_hour" ∉ cs → "risk_off_hour" ∉ cs →
  off_hour_row ks hs i r → off_hour_row ks hs i r'.
Proof.
  intros [_ Hs] H1 H2 (k & h & ? & ? & ? & ?). exists k, h. rewrite !Hs by done. done.
Qed.

(** a check column is boolean after its stage, whichever branch ran *)
Lemma stage_bool (b : bool) (c : string) (P : nat → Row → Prop) (rs : list Row) :
  (∀ i r, P i r → ∃ v, cells r !! c = Some (CBool v)) →
  (if b then ∀ i r, rs !! i = Some r → P i r
   else Forall (λ r, cells r !! c = Some (CBool false)) rs) →
  Forall (λ r, ∃ v, cells r !! c = Some (CBool v)) rs.
Proof.
  intros HP H. apply Forall_forall. intros r Hr. destruct b.
  - apply list_elem_of_lookup in Hr as [i Hi]. eauto.
  - rewrite Forall_forall in H. eauto.
Qed.

Lemma Forall_bool_frame_step cs df df' c :
  frame_step cs df df' → c ∉ cs →
  Forall (λ r, ∃ v, cells r !! c = Some (CBool v)) (rows df) →
  Forall (λ r, ∃ v, cells r !! c = Some (CBool v)) (rows df').
Proof.
  intros Hs Hc H. apply Forall_forall. intros r' Hr'.
  apply list_elem_of_lookup in Hr' as [i Hi].
  destruct (frame_step_row _ _ _ _ _ Hs Hi) as (r & Hr & _ & Hcs).
  rewrite Forall_forall in H. rewrite Hcs by done.
  apply H. by eapply list_elem_of_lookup_2.
Qed.

Section working_batch.
Variable to_datetime : string → option Z.
Variable fsum : list float → float.

Lemma risk_checks_stages df feats st :
  risk_checks to_datetime fsum df feats = Some st →
  stages to_datetime fsum df feats st.
Proof.
  unfold risk_checks. intros H.
  apply bind_Some in H as (df1 & H1 & H).
  apply bind_Some in H as (s2 & H2 & H).
  apply bind_Some in H as (s3 & H3 & H).
  apply bind_Some in H as (s4 & H4 & H).
  apply bind_Some in H as (s5 & H5 & H).
  apply bind_Some in H as (s6 & H6 & H).
  by econstructor.
Qed.

(** What the working batch is, in terms of the batch after the temporal
    stamps were handled: the rows are those of that batch, in the same
    order, with the check columns assigned; the five check columns are
    boolean and the base score counts the active ones that are true. *)
Lemma risk_checks_frame df feats st :
  risk_checks to_datetime fsum df feats = Some st →
  ∃ df1,
    timestamp_handling to_datetime (bool_decide ("timestamp" ∈ feats)) df = Some df1 ∧
    frame_step check_columns df1 (frame st) ∧
    active_risks st = base_checks feats ∧
    Forall (λ r, Forall (λ c, ∃ v, cells r !! c = Some (CBool v)) base_risk_columns ∧
                 base_score_row (base_checks feats) r r) (rows (frame st)).
Proof.
  intros [df1 s2 s3 s4 s5 s6 H1 H2 H3 H4 H5 H6 H7]%risk_checks_stages.
  apply amount_check_Some in H2 as (Fa & Aa & Ra).
  apply first_seen_check_Some in H3 as (Fd & Ad & Rd); [|done].
  apply first_seen_check_Some in H4 as (Fi & Ai & Ri); [|done].
  apply location_check_Some in H5 as (Fl & Al & Rl).
  apply off_hour_check_Some in H6 as (Fo & Ao & Ro).
  apply risk_aggregation_Some in H7 as (Fb & Ab & Rb).
  simpl in *.
  pose proof (frame_step_trans _ _ _ _ _ Fo Fb) as T5.
  pose proof (frame_step_trans _ _ _ _ _ Fl T5) as T4.
  pose proof (frame_step_trans _ _ _ _ _ Fi T4) as T3.
  pose proof (frame_step_trans _ _ _ _ _ Fd T3) as T2.
  pose proof (frame_step_trans _ _ _ _ _ Fa T2) as T1.
  simpl in T1, T2, T3, T4, T5.
  assert (active_risks st = base_checks feats) as Hact.
  { rewrite Ab, Ao, Al, Ai, Ad, Aa. unfold base_checks. by rewrite <-!(assoc_L (++)). }
  exists df1. split_and!; [done..|].
  assert (Forall (λ r, ∃ v, cells r !! "risk_amount" = Some (CBool v)) (rows (frame st))) as B1.
  { eapply Forall_bool_frame_step; [exact T2|notin|].
    destruct (bool_decide ("amount" ∈ feats)).
    - destruct Ra as (ks & xs & _ & _ & Ra). apply Forall_forall. intros r Hr.
      apply list_elem_of_lookup in Hr as [i Hi].
      destruct (Ra i r Hi) as (z & _ & _ & ?). eauto.
    - eapply Forall_impl; [exact Ra|]. naive_solver. }
  assert (Forall (λ r, ∃ v, cells r !! "risk_new_device" = Some (CBool v)) (rows (frame st))) as B2.
  { eapply Forall_bool_frame_step; [exact T3|notin|].
    destruct (bool_decide ("device_hash" ∈ feats)).
    - destruct Rd as (ks & xs & _ & _ & Rd). apply Forall_forall. intros r Hr.
      apply list_elem_of_lookup in Hr as [i Hi].
      destruct (Rd i r Hi) as (z & _ & ?). eauto.
    - eapply Forall_impl; [exact Rd|]. naive_solver. }
  assert (Forall (λ r, ∃ v, cells r !! "risk_new_ip" = Some (CBool v)) (rows (frame st))) as B3.
  { eapply Forall_bool_frame_step; [exact T4|notin|].
    destruct (bool_decide ("ip_address" ∈ feats)).
    - destruct Ri as (ks & xs & _ & _ & Ri). apply Forall_forall. intros r Hr.
      apply list_elem_of_lookup in Hr as [i Hi].
      destruct (Ri i r Hi) as (z & _ & ?). eauto.
    - eapply Forall_impl; [exact Ri|]. naive_solver. }
  assert (Forall (λ r, ∃ v, cells r !! "risk_location_change" = Some (CBool v))
                 (rows (frame st))) as B4.
  { eapply Forall_bool_frame_step; [exact T5|notin|].
    destruct (bool_decide ("location" ∈ feats)).
    - destruct Rl as (ks & xs & _ & _ & Rl). apply Forall_forall. intros r Hr.
      apply list_elem_of_lookup in Hr as [i Hi].
      destruct (Rl i r Hi) as (x & p & _ & _ & _ & ?). eauto.
    - eapply Forall_impl; [exact Rl|]. naive_solver. }
  assert (Forall (λ r, ∃ v, cells r !! "risk_off_hour" = Some (CBool v)) (rows (frame st))) as B5.
  { eapply Forall_bool_frame_step; [exact Fb|notin|].
    destruct (bool_decide ("timestamp" ∈ feats)).
    - destruct Ro as (ks & xs & _ & _ & Ro). apply Forall_forall. intros r Hr.
      apply list_elem_of_lookup in Hr as [i Hi].
      destruct (Ro i r Hi) as (k & h & _ & _ & _ & ?). eauto.
    - eapply Forall_impl; [exact Ro|]. naive_solver. }
  apply Forall_forall. intros r Hr. split.
  { rewrite Forall_forall in B1, B2, B3, B4, B5.
    unfold base_risk_columns. repeat (apply Forall_cons; split); auto. }
  apply list_elem_of_lookup in Hr as [i Hi].
  destruct (Forall2_lookup_r _ _ _ _ _ Rb Hi) as (r6 & Hr6 & Hb).
  destruct (frame_step_row _ _ _ _ _ Fb Hi) as (r6' & Hr6' & _ & Hs).
  assert (r6' = r6) as -> by congruence.
  unfold base_score_row in *. rewrite Hb. do 2 f_equal.
  rewrite <-Hact, Ab. symmetry. apply count_fired_ext.
  intros c Hc. apply Hs. rewrite <-Ab, Hact in Hc.
  apply base_checks_columns in Hc. revert Hc. unfold base_risk_columns.
  rewrite !elem_of_cons, elem_of_nil. intros Hc [->|[]].
  repeat (destruct Hc as [Hc|Hc]; [discriminate Hc|]). done.
Qed.
End working_batch.


(** ** The session simulator: the loop that assigns the sessions *)

Lemma add_column_elem c cols : c ∈ cols → add_column c cols = cols.
Proof. intros. unfold add_column. by rewrite bool_decide_eq_true_2. Qed.

Lemma labels_ok_reset_index df : labels_ok (rows (reset_index df)).
Proof.
  intros p r Hr. simpl in Hr. apply list_lookup_imap_Some in Hr as (r0 & _ & ->). done.
Qed.

Lemma labels_ok_slice rs a k :
  labels_ok rs → (a + k ≤ length rs)%nat → label <$> take k (drop a rs) = seq a k.
Proof.
  intros Hl Hlen. apply list_eq. intros i.
  rewrite list_lookup_fmap. destruct (decide (i < k)%nat) as [Hi|Hi].
  - rewrite lookup_take_lt, lookup_drop by done. rewrite lookup_seq_lt by done.
    destruct (lookup_lt_is_Some_2 rs (a + i)) as [r Hr]; [lia|].
    rewrite Hr. simpl. f_equal. by apply Hl.
  - rewrite lookup_take_ge by lia. rewrite lookup_seq_ge by lia. done.
Qed.

Lemma labels_ok_find rs p r :
  labels_ok rs → rs !! p = Some r → list_find (λ r, label r = p) rs = Some (p, r).
Proof.
  intros Hl Hr. apply list_find_Some. split_and!; [done|by apply Hl|].
  intros j y Hy Hj Hlab. apply Hl in Hy. lia.
Qed.

(** the two assignments of the body of the inner loop, for the label [i] *)
Lemma loc_set_pair i v1 v2 df :
  "session_id" ∈ columns df → "sim_timestamp" ∈ columns df →
  loc_set i "sim_timestamp" v2 (loc_set i "session_id" v1 df) =
  mkDF (columns df)
       ((λ r, if bool_decide (label r = i)
              then set_cell "sim_timestamp" v2 (set_cell "session_id" v1 r) else r)
          <$> rows df).
Proof.
  intros H1 H2. unfold loc_set. simpl. f_equal.
  - by rewrite (add_column_elem "session_id"), add_column_elem.
  - rewrite <-list_fmap_compose. apply list_fmap_ext. intros _ r _. simpl.
    destruct (decide (label r = i)) as [E|N].
    + rewrite (bool_decide_eq_true_2 _ E). simpl. by rewrite (bool_decide_eq_true_2 _ E).
    + rewrite (bool_decide_eq_false_2 _ N). by rewrite (bool_decide_eq_false_2 _ N).
Qed.

Lemma simulate_session_Some df s df' :
  labels_ok (rows df) → (5 * s + 5 ≤ length (rows df))%nat →
  "session_id" ∈ columns df → "sim_timestamp" ∈ columns df →
  simulate_session df s = Some df' →
  ∃ t0, time_at (rows df) (5 * s) = Some t0 ∧
        df' = mkDF (columns df) (session_update s t0 <$> rows df).
Proof.
  intros Hl Hlen Hc1 Hc2. unfold simulate_session, index_slice, session_size.
  replace ((s + 1) * 5 - s * 5)%nat with 5%nat by lia.
  replace (s * 5)%nat with (5 * s)%nat by lia.
  rewrite labels_ok_slice by (done || lia).
  unfold session_update. remember (5 * s)%nat as a eqn:Ha.
  intros H. apply bind_Some in H as (i0 & Hi0 & H).
  rewrite lookup_seq_lt in Hi0 by lia. rewrite Nat.add_0_r in Hi0. simplify_eq.
  apply bind_Some in H as (t0 & Ht0 & H).
  destruct (lookup_lt_is_Some_2 (rows df) (5 * s)) as [r0 Hr0]; [lia|].
  unfold loc_get in Ht0. rewrite (labels_ok_find _ _ _ Hl Hr0) in Ht0. simpl in Ht0.
  exists t0. split; [unfold time_at; by rewrite Hr0|].
  remember (5 * s)%nat as a eqn:Ha. clear Ha Hr0 Ht0 r0 Hl Hlen.
  simplify_eq. simpl.
  rewrite !loc_set_pair
    by (simpl; repeat (apply elem_of_add_column; left); done).
  simpl.
  f_equal. rewrite <-!list_fmap_compose. apply list_fmap_ext. intros _ r _. simpl.
  destruct (decide (label r = a)%nat) as [E0|N0];
  [|destruct (decide (label r = S a)%nat) as [E1|N1];
  [|destruct (decide (label r = S (S a))%nat) as [E2|N2];
  [|destruct (decide (label r = S (S (S a)))%nat) as [E3|N3];
  [|destruct (decide (label r = S (S (S (S a))))%nat) as [E4|N4]]]]].
  all: first [rewrite (bool_decide_eq_true_2 (a ≤ label r < a + 5)%nat) by lia
             |rewrite (bool_decide_eq_false_2 (a ≤ label r < a + 5)%nat) by lia].
  all: first [rewrite (bool_decide_eq_true_2 (label r = a)) by lia
             |rewrite (bool_decide_eq_false_2 (label r = a)) by lia]; simpl.
  all: first [rewrite (bool_decide_eq_true_2 (label r = S a)) by lia
             |rewrite (bool_decide_eq_false_2 (label r = S a)) by lia]; simpl.
  all: first [rewrite (bool_decide_eq_true_2 (label r = S (S a))) by lia
             |rewrite (bool_decide_eq_false_2 (label r = S (S a))) by lia]; simpl.
  all: first [rewrite (bool_decide_eq_true_2 (label r = S (S (S a)))) by lia
             |rewrite (bool_decide_eq_false_2 (label r = S (S (S a)))) by lia]; simpl.
  all: first [rewrite (bool_decide_eq_true_2 (label r = S (S (S (S a))))) by lia
             |rewrite (bool_decide_eq_false_2 (label r = S (S (S (S a))))) by lia]; simpl.
  all: try done.
  all: repeat f_equal; lia.
Qed.

Lemma label_session_update s t0 r : label (session_update s t0 r) = label r.
Proof. unfold session_update. by case_bool_decide. Qed.

Lemma timestamp_session_update s t0 r :
  cells (session_update s t0 r) !! "timestamp" = cells r !! "timestamp".
Proof. unfold session_update. case_bool_decide; [by cells_simpl|done]. Qed.

Lemma time_at_session_update s t0 rs q :
  time_at (session_update s t0 <$> rs) q = time_at rs q.
Proof.
  unfold time_at. rewrite list_lookup_fmap. destruct (rs !! q) as [r|]; [|done].
  simpl. by rewrite timestamp_session_update.
Qed.

Lemma labels_ok_session_update s t0 rs :
  labels_ok rs → labels_ok (session_update s t0 <$> rs).
Proof.
  intros Hl p r Hr. rewrite list_lookup_fmap in Hr.
  apply fmap_Some in Hr as (r0 & Hr0 & ->). rewrite label_session_update. by apply Hl.
Qed.

Lemma div5_unique (l a : nat) : (5 * a ≤ l < 5 * a + 5)%nat → (l `div` 5 = a)%nat.
Proof. intros H. symmetry. apply (Nat.div_unique l 5 a (l - 5 * a)); lia. Qed.

Lemma for_each_simulate_session a k df df' :
  labels_ok (rows df) → (5 * (a + k) ≤ length (rows df))%nat →
  "session_id" ∈ columns df → "sim_timestamp" ∈ columns df →
  for_each simulate_session (seq a k) df = Some df' →
  df' = mkDF (columns df) (sessions_from a k (rows df) <$> rows df) ∧
  ∀ s, (a ≤ s < a + k)%nat → is_Some (time_at (rows df) (5 * s)).
Proof.
  revert a df. induction k as [|k IH]; intros a df Hl Hlen Hc1 Hc2 H.
  - simpl in H. assert (df' = df) as -> by congruence. clear H.
    split; [|intros; lia].
    destruct df as [cols rs]. simpl. f_equal.
    rewrite <-(list_fmap_id rs) at 1. apply list_fmap_ext. intros _ r _.
    unfold sessions_from. rewrite bool_decide_eq_false_2 by lia. done.
  - simpl in H. apply bind_Some in H as (df1 & H1 & H).
    apply simulate_session_Some in H1 as (t0 & Ht0 & ->); [|done|lia|done..].
    apply IH in H as [H Ht]; [|by apply labels_ok_session_update
                              |simpl; rewrite length_fmap; lia|done..].
    split.
    2:{ intros s Hs. destruct (decide (s = a)) as [->|Hne]; [by eexists|].
        specialize (Ht s). simpl in Ht. rewrite time_at_session_update in Ht.
        apply Ht. lia. }
    subst df'. simpl. f_equal. rewrite <-list_fmap_compose.
    apply list_fmap_ext. intros _ r _. simpl.
    unfold sessions_from. rewrite label_session_update.
    rewrite time_at_session_update.
    destruct (decide (5 * a ≤ label r < 5 * a + 5)%nat) as [Hin|Hout].
    + rewrite (bool_decide_eq_false_2 (5 * S a ≤ label r < 5 * (S a + k))%nat) by lia.
      rewrite (bool_decide_eq_true_2 (5 * a ≤ label r < 5 * (a + S k))%nat) by lia.
      rewrite (div5_unique _ _ Hin), Ht0. done.
    + assert (session_update a t0 r = r) as ->.
      { unfold session_update. by rewrite bool_decide_eq_false_2. }
      destruct (decide (5 * S a ≤ label r < 5 * (S a + k))%nat).
      * rewrite (bool_decide_eq_true_2 (5 * S a ≤ label r < 5 * (S a + k))%nat) by done.
        rewrite (bool_decide_eq_true_2 (5 * a ≤ label r < 5 * (a + S k))%nat) by lia.
        done.
      * rewrite (bool_decide_eq_false_2 (5 * S a ≤ label r < 5 * (S a + k))%nat) by done.
        rewrite (bool_decide_eq_false_2 (5 * a ≤ label r < 5 * (a + S k))%nat) by lia.
        done.
Qed.


(** ** The session simulator: the count within a session *)

Lemma session_name_inj s s' : session_name s = session_name s' → s = s'.
Proof.
  unfold session_name. intros H%(inj (String.app _)). by apply (inj pretty) in H.
Qed.

Lemma StronglySorted_lookup {A} (R : relation A) l i j x y :
  StronglySorted R l → (i < j)%nat → l !! i = Some x → l !! j = Some y → R x y.
Proof.
  intros Hl. revert i j. induction Hl as [|z l Hl IH Hz]; intros i j Hij Hi Hj; [done|].
  destruct j as [|j]; [lia|]. simpl in Hj. destruct i as [|i]; simpl in Hi.
  - simplify_eq. rewrite Forall_forall in Hz. apply Hz. by eapply list_elem_of_lookup_2.
  - eapply (IH i j); [lia|done..].
Qed.

Lemma length_filter_fmap {A B} (f : A → B) (P : B → Prop) `{∀ y, Decision (P y)}
    (l : list A) :
  length (filter P (f <$> l)) = length (filter (λ x, P (f x)) l).
Proof.
  induction l as [|x l IH]; [done|]. csimpl. rewrite !filter_cons.
  destruct (decide (P (f x))); simpl; by rewrite IH.
Qed.

Lemma timedelta_seconds_le (i j : nat) (t : Z) :
  t + timedelta_seconds (10 * Z.of_nat i) ≤ t + timedelta_seconds (10 * Z.of_nat j) ↔
  (i ≤ j)%nat.
Proof. unfold timedelta_seconds. lia. Qed.

Section session_count.
Variable ns : nat.
Variable T0 : nat → Z.

Variable srt : list (option string * Z * Row).
Hypothesis srt_sorted : StronglySorted (λ x y, session_time_leb x.1 y.1 = true) srt.
Hypothesis srt_labels : NoDup (label <$> srt.*2).
Hypothesis srt_sessions : ∀ p, (p < 5 * ns)%nat → ∃ x, x ∈ srt ∧ label x.2 = p.
Hypothesis srt_keys : ∀ x, x ∈ srt → session_key ns T0 (label x.2) x.1.

Lemma srt_lookup_inj q q' x x' :
  srt !! q = Some x → srt !! q' = Some x' → label x.2 = label x'.2 → q = q'.
Proof.
  intros Hq Hq' Hl. apply (NoDup_lookup _ _ _ (label x.2) srt_labels).
  - by rewrite !list_lookup_fmap, Hq.
  - by rewrite !list_lookup_fmap, Hq', Hl.
Qed.

(** Two rows of one session are sorted as their places in the session are. *)
Lemma same_session_order x x' :
  x ∈ srt → x' ∈ srt → (label x.2 < 5 * ns)%nat → (label x'.2 < 5 * ns)%nat →
  (label x.2 `div` 5 = label x'.2 `div` 5)%nat →
  session_time_leb x.1 x'.1 = true ↔ (label x.2 ≤ label x'.2)%nat.
Proof.
  intros Hx Hx' Hp Hp' Hs.
  pose proof (srt_keys _ Hx) as Hk. pose proof (srt_keys _ Hx') as Hk'.
  unfold session_key in Hk, Hk'.
  rewrite decide_True in Hk by done. rewrite decide_True in Hk' by done.
  unfold session_time_leb. rewrite Hk, Hk'. cbn [fst snd]. rewrite Hs.
  rewrite bool_decide_eq_true_2 by done. rewrite bool_decide_eq_true.
  rewrite timedelta_seconds_le.
  pose proof (Nat.div_mod_eq (label x.2) 5). pose proof (Nat.div_mod_eq (label x'.2) 5).
  lia.
Qed.

Lemma session_rank q x :
  srt !! q = Some x → (label x.2 < 5 * ns)%nat →
  rank_in_group (srt.*1.*1) q (Some (session_name (label x.2 `div` 5)))
  = (label x.2 `mod` 5)%nat.
Proof.
  intros Hq Hp. set (p := label x.2) in *. set (s := (p `div` 5)%nat).
  unfold rank_in_group.
  rewrite <-!fmap_take, !length_filter_fmap.
  set (F := filter _ (take q srt)).
  assert (label <$> F.*2 ≡ₚ seq (5 * s) (p - 5 * s)) as Hperm.
  { apply NoDup_Permutation.
    - eapply sublist_NoDup; [exact srt_labels|].
      do 2 apply fmap_sublist. etrans; [apply sublist_filter|apply sublist_take].
    - apply NoDup_seq.
    - intros p'. rewrite elem_of_seq. split.
      + intros (r' & -> & Hr')%list_elem_of_fmap.
        apply list_elem_of_fmap in Hr' as (x' & -> & Hx').
        apply list_elem_of_filter in Hx' as [Hsid Hx'].
        apply elem_of_take in Hx' as (q' & Hq' & Hlt).
        assert (x' ∈ srt) as Hin' by (by eapply list_elem_of_lookup_2).
        assert (x ∈ srt) as Hin by (by eapply list_elem_of_lookup_2).
        pose proof (srt_keys _ Hin') as Hk'. unfold session_key in Hk'.
        destruct (decide (label x'.2 < 5 * ns)%nat) as [Hp'|Hp'];
          [|rewrite Hk' in Hsid; discriminate].
        assert ((label x'.2 `div` 5)%nat = s) as Hs'.
        { rewrite Hk' in Hsid. cbn [fst snd] in Hsid. apply (inj Some) in Hsid.
          symmetry. by apply session_name_inj. }
        pose proof (StronglySorted_lookup _ _ _ _ _ _ srt_sorted Hlt Hq' Hq) as Hle.
        simpl in Hle. apply same_session_order in Hle; [|done..].
        assert (label x'.2 ≠ p).
        { intros Heq. assert (q' = q); [|lia]. by eapply srt_lookup_inj. }
        pose proof (Nat.div_mod_eq (label x'.2) 5). fold p in Hle. lia.
      + intros Hrange.
        pose proof (Nat.div_mod_eq p 5) as Hdm. fold s in Hdm.
        pose proof (Nat.mod_upper_bound p 5).
        destruct (srt_sessions p') as (x' & Hin' & Hl'); [lia|].
        assert (x ∈ srt) as Hin by (by eapply list_elem_of_lookup_2).
        assert ((label x'.2 `div` 5)%nat = s) as Hs'.
        { rewrite Hl'. apply div5_unique. lia. }
        apply list_elem_of_lookup in Hin' as [q' Hq'].
        assert (x' ∈ srt) as Hin' by (by eapply list_elem_of_lookup_2).
        assert (q' < q)%nat as Hlt.
        { destruct (decide (q' < q)%nat) as [|Hge]; [done|].
          destruct (decide (q' = q)) as [->|Hne].
          { assert (x' = x) as -> by congruence. unfold p in Hrange. lia. }
          assert (q < q')%nat as Hlt by lia.
          pose proof (StronglySorted_lookup _ _ _ _ _ _ srt_sorted Hlt Hq Hq') as Hle.
          simpl in Hle. apply same_session_order in Hle; [|done|done|done|lia|done].
          fold p in Hle. lia. }
        apply list_elem_of_fmap. exists x'.2. split; [done|].
        apply list_elem_of_fmap. exists x'. split; [done|].
        apply list_elem_of_filter. split.
        * pose proof (srt_keys _ Hin') as Hk'. unfold session_key in Hk'.
          rewrite decide_True in Hk' by lia. rewrite Hk'. cbn [fst snd]. by rewrite Hs'.
        * apply elem_of_take. eauto. }
  apply Permutation_length in Hperm.
  rewrite !length_fmap, length_seq in Hperm.
  pose proof (Nat.div_mod_eq p 5). fold s in H. rewrite Hperm. lia.
Qed.
End session_count.


(** ** The session simulator as a whole *)

Global Arguments num_sessions : simpl never.
Global Arguments session_name : simpl never.
Global Arguments timedelta_seconds : simpl never.

Lemma velocity_init_Some (has_ts : bool) df dfv :
  (if has_ts
   then assign_rows "sim_timestamp" (λ r, cells r !! "timestamp")
          (assign_const "session_id" CNA
             (assign_const "txn_count_sim" (CInt 1)
                (assign_const "risk_velocity_sim" (CBool false) df)))
   else Some (assign_const "sim_timestamp" CNA
                (assign_const "session_id" CNA
                   (assign_const "txn_count_sim" (CInt 1)
                      (assign_const "risk_velocity_sim" (CBool false) df))))) = Some dfv →
  frame_step velocity_columns df dfv ∧
  "session_id" ∈ columns dfv ∧ "sim_timestamp" ∈ columns dfv ∧
  Forall2 (velocity_init has_ts) (rows df) (rows dfv).
Proof.
  intros H.
  assert (frame_step ["risk_velocity_sim"; "txn_count_sim"; "session_id"] df
            (assign_const "session_id" CNA
               (assign_const "txn_count_sim" (CInt 1)
                  (assign_const "risk_velocity_sim" (CBool false) df)))) as F3.
  { eapply (frame_step_trans ["risk_velocity_sim"] ["txn_count_sim"; "session_id"]);
      [apply frame_step_assign_const|].
    eapply (frame_step_trans ["txn_count_sim"] ["session_id"]);
      apply frame_step_assign_const. }
  destruct has_ts.
  - pose proof (frame_step_assign_rows _ _ _ _ H) as F4.
    pose proof (frame_step_trans _ _ _ _ _ F3 F4) as F. simpl in F.
    apply assign_rows_Some in H as [Hc H]. split_and!; [done| | |].
    + rewrite Hc. simpl. apply elem_of_add_column. left.
      apply elem_of_add_column. by right.
    + rewrite Hc. apply elem_of_add_column. by right.
    + simpl in H. rewrite !Forall2_fmap_l in H.
      eapply Forall2_impl; [exact H|]. intros r rv (v & Hv & ->).
      simpl in Hv. rewrite !lookup_insert_ne in Hv by done.
      exists v. done.
  - simplify_eq. split_and!.
    + apply (frame_step_trans _ ["sim_timestamp"] _ _ _ F3).
      apply frame_step_assign_const.
    + simpl. apply elem_of_add_column. left. apply elem_of_add_column. by right.
    + simpl. apply elem_of_add_column. by right.
    + simpl. rewrite !Forall2_fmap_r.
      apply Forall_Forall2_diag, Forall_forall. intros r _. by exists CNA.
Qed.

Lemma num_sessions_le n : (5 * num_sessions n ≤ n)%nat.
Proof.
  unfold num_sessions. pose proof (Nat.mul_div_le n 5). lia.
Qed.

(** the rows, paired with their keys and sorted *)
Lemma sorted_pairs_spec (rs : list Row) (sids : list (option string)) (sts : list Z) :
  Forall2 (λ r k, cells r !! "session_id" ≫= as_ident = Some k) rs sids →
  Forall2 (λ r t, cells r !! "sim_timestamp" ≫= as_time = Some t) rs sts →
  let srt := isort (λ a b : option string * Z * Row, session_time_leb a.1 b.1)
                   (zip (zip sids sts) rs) in
  srt.*2 ≡ₚ rs ∧
  StronglySorted (λ x y, session_time_leb x.1 y.1 = true) srt ∧
  Forall (λ x, cells x.2 !! "session_id" ≫= as_ident = Some x.1.1 ∧
               cells x.2 !! "sim_timestamp" ≫= as_time = Some x.1.2) srt.
Proof.
  intros Hsid Hst srt.
  pose proof (Forall2_length _ _ _ Hsid) as L1.
  pose proof (Forall2_length _ _ _ Hst) as L2.
  split_and!.
  - unfold srt. rewrite isort_Permutation. rewrite snd_zip; [done|].
    rewrite length_zip. lia.
  - apply isort_sorted.
    + intros x y. apply session_time_leb_total.
    + intros x y z. apply session_time_leb_trans.
  - unfold srt. rewrite isort_Permutation. apply Forall_forall. intros [[k t] r] Hin.
    apply list_elem_of_lookup in Hin as (i & Hi).
    apply lookup_zip_with_Some in Hi as (kt & r' & ? & Hkt & Hr). simplify_eq.
    apply lookup_zip_with_Some in Hkt as (k' & t' & ? & Hk & Ht). simplify_eq.
    split; simpl.
    + by destruct (Forall2_lookup_lr _ _ _ _ _ _ Hsid Hr Hk).
    + by destruct (Forall2_lookup_lr _ _ _ _ _ _ Hst Hr Ht).
Qed.

Lemma velocity_init_timestamp has_ts r rv :
  velocity_init has_ts r rv → cells rv !! "timestamp" = cells r !! "timestamp".
Proof. intros (v & _ & ->). by cells_simpl. Qed.

Lemma velocity_init_step has_ts r rv :
  velocity_init has_ts r rv → cells_step velocity_columns r rv.
Proof.
  intros (v & _ & ->) c Hc. unfold velocity_columns in Hc.
  rewrite !not_elem_of_cons in Hc. destruct Hc as (? & ? & ? & ? & _).
  simpl. by rewrite !lookup_insert_ne.
Qed.

(** the batch after [reset_index] and the loop, row by row *)
Section simulated_rows.
Variables (has_ts : bool) (w rowsv : list Row) (ns : nat).
Hypothesis Hinit : Forall2 (velocity_init has_ts) w rowsv.
Hypothesis Hns : (5 * ns ≤ length w)%nat.

Let rows_r : list Row := imap (λ i r, mkRow i (cells r)) rowsv.
Let rows_l : list Row := sessions_from 0 ns rows_r <$> rows_r.

Hypothesis Htimes : ∀ s, (0 ≤ s < 0 + ns)%nat → is_Some (time_at rows_r (5 * s)).

Lemma time_at_reset q : time_at rows_r q = time_at w q.
Proof.
  unfold time_at, rows_r. rewrite list_lookup_imap.
  destruct (rowsv !! q) as [rv|] eqn:Hrv; simpl.
  - destruct (Forall2_lookup_r _ _ _ _ _ Hinit Hrv) as (r & Hr & Hi).
    rewrite Hr. simpl. by rewrite (velocity_init_timestamp _ _ _ Hi).
  - apply (Forall2_length) in Hinit. apply lookup_ge_None in Hrv.
    rewrite (proj2 (lookup_ge_None w q)); [done|lia].
Qed.

Lemma length_rows_l : length rows_l = length w.
Proof.
  unfold rows_l, rows_r. rewrite length_fmap, length_imap.
  symmetry. by eapply Forall2_length.
Qed.

Lemma labels_rows_l : label <$> rows_l = seq 0 (length w).
Proof.
  apply list_eq. intros p. unfold rows_l, rows_r.
  rewrite !list_lookup_fmap, list_lookup_imap.
  pose proof (Forall2_length _ _ _ Hinit) as Hlen.
  destruct (rowsv !! p) as [rv|] eqn:Hrv; simpl.
  - unfold sessions_from. apply lookup_lt_Some in Hrv.
    rewrite lookup_seq_lt by lia. f_equal.
    case_bool_decide; [|done]. simpl. destruct (time_at _ _); [|done].
    by rewrite label_session_update.
  - apply lookup_ge_None in Hrv. rewrite lookup_seq_ge by lia. done.
Qed.

(** The row of label [p] after the loop: with its session when it has one. *)
Lemma rows_l_spec x2 :
  x2 ∈ rows_l →
  ∃ r rv, w !! label x2 = Some r ∧ velocity_init has_ts r rv ∧
    if decide (label x2 < 5 * ns)%nat then
      ∃ t0, time_at w (5 * (label x2 `div` 5)) = Some t0 ∧
        cells x2 =
          <["sim_timestamp" :=
              CTime (t0 + timedelta_seconds (10 * Z.of_nat (label x2 `mod` 5)))]>
            (<["session_id" := CStr (session_name (label x2 `div` 5))]> (cells rv))
    else cells x2 = cells rv.
Proof.
  intros Hin. apply list_elem_of_lookup in Hin as [p Hp].
  assert (label x2 = p) as Hl.
  { assert ((label <$> rows_l) !! p = Some (label x2)) as Hlp
      by (by rewrite list_lookup_fmap, Hp).
    rewrite labels_rows_l in Hlp. apply lookup_seq in Hlp. lia. }
  unfold rows_l in Hp. rewrite list_lookup_fmap in Hp.
  apply fmap_Some in Hp as (rr & Hrr & Hx2).
  unfold rows_r in Hrr. apply list_lookup_imap_Some in Hrr as (rv & Hrv & ->).
  destruct (Forall2_lookup_r _ _ _ _ _ Hinit Hrv) as (r & Hr & Hi).
  exists r, rv. rewrite Hl. split_and!; [done..|].
  unfold sessions_from in Hx2. cbn [label] in Hx2.
  destruct (decide (p < 5 * ns)%nat) as [Hlt|Hge].
  - rewrite bool_decide_eq_true_2 in Hx2 by lia.
    assert (p `div` 5 < ns)%nat as Hs.
    { apply Nat.Div0.div_lt_upper_bound. lia. }
    destruct (Htimes (p `div` 5)%nat) as [t0 Ht0]; [lia|].
    fold rows_r in Hx2. rewrite Ht0 in Hx2. exists t0. split.
    + by rewrite <-time_at_reset.
    + subst x2. unfold session_update. cbn [label].
      pose proof (Nat.div_mod_eq p 5). pose proof (Nat.mod_upper_bound p 5).
      rewrite bool_decide_eq_true_2 by lia. cbn [cells set_cell]. do 4 f_equal. lia.
  - rewrite bool_decide_eq_false_2 in Hx2 by lia. by subst x2.
Qed.
End simulated_rows.

Lemma velocity_simulation_Some (sim has_ts : bool) st st' :
  velocity_simulation sim has_ts st = Some st' →
  active_risks st' =
    active_risks st ++
    (if sim && has_ts
     then [("risk_velocity_sim", "Multiple transactions in short time")] else []) ∧
  cols_step velocity_columns (frame st) (frame st') ∧
  if sim && has_ts then
    label <$> rows (frame st') ≡ₚ seq 0 (length (rows (frame st))) ∧
    ∀ r', r' ∈ rows (frame st') →
      ∃ r, rows (frame st) !! label r' = Some r ∧
           cells_step velocity_columns r r' ∧
           velocity_row (num_sessions (length (rows (frame st)))) (rows (frame st))
                        (label r') r'
  else
    Forall2 (λ r r', row_step velocity_columns r r' ∧
                     cells r' !! "risk_velocity_sim" = Some (CBool false))
            (rows (frame st)) (rows (frame st')).
Proof.
  unfold velocity_simulation. intros H.
  apply bind_Some in H as (dfv & Hv & H).
  apply velocity_init_Some in Hv as (Fv & Hc1 & Hc2 & Hinit).
  destruct (sim && has_ts) eqn:Hmode; [|simplify_eq/=].
  2:{ rewrite app_nil_r. split_and!; [done|apply Fv|].
      destruct Fv as [_ Fv].
      apply Forall2_same_length_lookup_2; [by eapply Forall2_length|].
      intros i r r' Hr Hr'. split; [by eapply Forall2_lookup_lr|].
      destruct (Forall2_lookup_lr _ _ _ _ _ _ Hinit Hr Hr') as (v & _ & ->).
      by cells_simpl. }
  change (100 `min` (length (rows (reset_index dfv)) `div` session_size))%nat
    with (num_sessions (length (rows (reset_index dfv)))) in H.
  assert (length (rows (reset_index dfv)) = length (rows (frame st))) as Hlen.
  { simpl. rewrite length_imap. symmetry. by eapply Forall2_length. }
  rewrite Hlen in H.
  apply bind_Some in H as (dfl & Hloop & H).
  apply for_each_simulate_session in Hloop as [-> Htimes];
    [|apply labels_ok_reset_index
     |rewrite Hlen; apply num_sessions_le
     |done..].
  apply bind_Some in H as (sids & Hsids & H).
  apply bind_Some in H as (sts & Hsts & H).
  apply bind_Some in H as (sids' & Hsids' & H).
  apply bind_Some in H as (dff & Hfin & H). simplify_eq.
  cbn [frame active_risks].
  apply col_mapM_Some in Hsids as [_ Hsids].
  apply col_mapM_Some in Hsts as [_ Hsts].
  cbn [rows reset_index] in Hsids, Hsts, Htimes.
  set (ns := num_sessions (length (rows (frame st)))) in *.
  set (rows_l := sessions_from 0 ns _ <$> _) in *.
  destruct (sorted_pairs_spec _ _ _ Hsids Hsts) as (Hperm & Hsorted & Hkeys).
  set (srt := isort _ _) in *.
  apply col_mapM_Some in Hsids' as [_ Hsids'].
  change (rows (sort_values session_time_leb (zip sids sts) _)) with srt.*2 in Hsids'.
  unfold sort_values in Hfin. cbn [rows columns reset_index] in Hfin. fold srt in Hfin.
  assert (sids' = srt.*1.*1) as ->.
  { eapply Forall2_Some_unique; [exact Hsids'|].
    rewrite <-list_fmap_compose. apply Forall2_fmap.
    apply Forall_Forall2_diag. eapply Forall_impl; [exact Hkeys|]. by intros x [? _]. }
  pose proof (num_sessions_le (length (rows (frame st)))) as Hnsle. fold ns in Hnsle.
  pose proof (labels_rows_l has_ts _ (rows dfv) ns Hinit Hnsle) as Hlabels.
  pose proof (rows_l_spec has_ts _ (rows dfv) ns Hinit Hnsle Htimes) as Hrows.
  fold rows_l in Hlabels, Hrows.
  clearbody srt rows_l ns.
  split_and!; [done| | |].
  - (* the columns *)
    apply frame_step_assign_rows in Hfin as [Hcf _].
    destruct Fv as [Fv _].
    eapply (cols_step_mono (velocity_columns ++ ["txn_count_sim"] ++ ["risk_velocity_sim"]));
      [unfold velocity_columns; set_solver|].
    eapply cols_step_trans; [exact Fv|].
    eapply cols_step_trans; [|exact Hcf]. by apply cols_step_eq.
  - (* the labels *)
    apply assign_rows_Some in Hfin as [_ Hfin].
    assert (label <$> rows dff = label <$> srt.*2) as ->.
    { apply list_eq. intros q. rewrite !list_lookup_fmap.
      destruct (rows dff !! q) as [r'|] eqn:Hq.
      - destruct (Forall2_lookup_r _ _ _ _ _ Hfin Hq) as (r1 & Hr1 & v & _ & ->).
        apply rows_assign_lookup in Hr1 as (c & r0 & _ & Hr0 & ->).
        simpl in Hr0. rewrite list_lookup_fmap in Hr0. by rewrite Hr0.
      - apply lookup_ge_None in Hq. apply Forall2_length in Hfin.
        simpl in Hfin. rewrite length_zip_with, length_fmap in Hfin.
        unfold cumcount in Hfin. rewrite length_imap, !length_fmap in Hfin.
        rewrite (proj2 (lookup_ge_None _ q)); [done|]. lia. }
    by rewrite Hperm, Hlabels.
  - (* the rows *)
    intros r' Hin. apply list_elem_of_lookup in Hin as [q Hq].
    destruct (assign_rows_lookup _ _ _ _ _ _ Hfin Hq) as (r1 & v & Hr1 & Hv & ->).
    apply rows_assign_lookup in Hr1 as (c & x2 & Hc & Hx2 & ->).
    cbn [rows] in Hx2. rewrite list_lookup_fmap in Hx2.
    destruct (srt !! q) as [x|] eqn:Hx; [|done]. simpl in Hx2. simplify_eq.
    assert (x ∈ srt) as Hxin by (by eapply list_elem_of_lookup_2).
    assert (x.2 ∈ rows_l) as Hin2.
    { rewrite <-Hperm. apply list_elem_of_fmap. eauto. }
    destruct (Hrows _ Hin2) as (r & rv & Hr & Hi & Hcase).
    cbn [label set_cell]. exists r. split; [done|]. split.
    { intros c' Hc'. pose proof (velocity_init_step _ _ _ Hi c' Hc') as Hrv.
      unfold velocity_columns in Hc'. rewrite !not_elem_of_cons in Hc'.
      destruct Hc' as (? & ? & ? & ? & _). cbn [cells set_cell].
      rewrite !lookup_insert_ne by done. rewrite <-Hrv.
      destruct (decide (label x.2 < 5 * ns)%nat).
      - destruct Hcase as (t0 & _ & ->). by rewrite !lookup_insert_ne.
      - by rewrite Hcase. }
    unfold velocity_row.
    rewrite list_lookup_fmap in Hc. apply fmap_Some in Hc as (cnt & Hcnt & ->).
    unfold cumcount in Hcnt. apply list_lookup_imap_Some in Hcnt as (sid & Hsid & ->).
    rewrite !list_lookup_fmap, Hx in Hsid. simpl in Hsid. simplify_eq.
    rewrite Forall_forall in Hkeys. destruct (Hkeys _ Hxin) as [Hk1 Hk2].
    cbn [cells set_cell] in Hv. rewrite lookup_insert_eq in Hv. cbn [mbind option_bind] in Hv.
    destruct (decide (label x.2 < 5 * ns)%nat) as [Hlt|Hge].
    + destruct Hcase as (t0 & Ht0 & Hcells).
      rewrite Hcells in Hk1, Hk2. cells_simpl in Hk1. cells_simpl in Hk2.
      simplify_eq/=. rewrite <-Hk1 in *.
      assert (rank_in_group srt.*1.*1 q (Some (session_name (label x.2 `div` 5)))
              = (label x.2 `mod` 5)%nat) as Hrank.
      { apply (session_rank ns (λ s, default 0 (time_at (rows (frame st)) (5 * s))));
          [exact Hsorted| | | |exact Hx|exact Hlt].
        - rewrite Hperm, Hlabels. apply NoDup_seq.
        - intros p Hp.
          assert (is_Some ((label <$> rows_l) !! p)) as [ly Hy'].
          { rewrite Hlabels. apply lookup_lt_is_Some. rewrite length_seq. lia. }
          rewrite list_lookup_fmap in Hy'. apply fmap_Some in Hy' as (y & Hy & _).
          assert (label y = p) as Hly.
          { assert ((label <$> rows_l) !! p = Some (label y)) as Hlp
              by (by rewrite list_lookup_fmap, Hy).
            rewrite Hlabels in Hlp. apply lookup_seq in Hlp. lia. }
          assert (y ∈ srt.*2) as Hys.
          { rewrite Hperm. by eapply list_elem_of_lookup_2. }
          apply list_elem_of_fmap in Hys as (z & -> & Hz). eauto.
        - intros z Hz. destruct (Hkeys _ Hz) as [Hz1 Hz2].
          assert (z.2 ∈ rows_l) as Hzin.
          { rewrite <-Hperm. apply list_elem_of_fmap. eauto. }
          destruct (Hrows _ Hzin) as (rz & rvz & _ & Hiz & Hcz).
          unfold session_key. destruct (decide (label z.2 < 5 * ns)%nat).
          + destruct Hcz as (tz & Htz & Hcz). rewrite Hcz in Hz1, Hz2.
            cells_simpl in Hz1. cells_simpl in Hz2. simplify_eq/=.
            rewrite Htz. simpl. destruct z as [[z1 z2] z3]. simpl in *. congruence.
          + rewrite Hcz in Hz1. destruct Hiz as (vz & _ & ->).
            cells_simpl in Hz1. by simplify_eq/=. }
      rewrite Hrank in *. simpl in Hv. simplify_eq/=.
      exists t0. split_and!; [done|..].
      * rewrite !lookup_insert_ne by done. rewrite Hcells. by cells_simpl.
      * rewrite !lookup_insert_ne by done. rewrite Hcells. by cells_simpl.
      * by cells_simpl.
      * cells_simpl. do 2 f_equal. apply bool_decide_ext. lia.
    + rewrite Hcase in Hk1. destruct Hi as (vi & Hvi & ->).
      cells_simpl in Hk1. simplify_eq/=. rewrite <-Hk1 in *. simpl in Hv. simplify_eq.
      assert (has_ts = true) as -> by (by destruct sim, has_ts).
      split_and!.
      * rewrite !lookup_insert_ne by done. rewrite Hcase. by cells_simpl.
      * rewrite !lookup_insert_ne by done. rewrite Hcase. by cells_simpl.
      * by cells_simpl.
      * by cells_simpl.
Qed.


(** ** The final score, the reasons and the verdict *)

Lemma final_verdict_Some st df thr :
  final_verdict st = Some (df, thr) →
  thr = select_threshold (length (active_risks st)) ∧
  frame_step final_columns (frame st) df ∧
  Forall2 (final_row (active_risks st)) (rows (frame st)) (rows df).
Proof.
  unfold final_verdict. intros H.
  apply bind_Some in H as (df1 & H1 & H).
  apply bind_Some in H as (df2 & H2 & H).
  apply bind_Some in H as (df3 & H3 & H). simplify_eq.
  split_and!; [done| |].
  - eapply (frame_step_trans ["final_risk_score"] ["final_reasons"; "final_is_anomalous"]);
      [apply (frame_step_assign_rows _ _ _ _ H1)|].
    eapply (frame_step_trans ["final_reasons"] ["final_is_anomalous"]);
      [apply (frame_step_assign_rows _ _ _ _ H2)|apply (frame_step_assign_rows _ _ _ _ H3)].
  - apply Forall2_same_length_lookup_2.
    { apply assign_rows_Some in H1 as [_ H1].
      apply assign_rows_Some in H2 as [_ H2]. apply assign_rows_Some in H3 as [_ H3].
      apply Forall2_length in H1, H2, H3. congruence. }
    intros i r r' Hr Hr'.
    destruct (assign_rows_lookup _ _ _ _ _ _ H3 Hr') as (r2 & v3 & Hr2 & Hv3 & ->).
    destruct (assign_rows_lookup _ _ _ _ _ _ H2 Hr2) as (r1 & v2 & Hr1 & Hv2 & ->).
    destruct (assign_rows_lookup _ _ _ _ _ _ H1 Hr1) as (r0 & v1 & Hr0 & Hv1 & ->).
    assert (r0 = r) as -> by congruence.
    apply bind_Some in Hv1 as (b & Hb & Hv1).
    apply bind_Some in Hv1 as (v & Hv & Hv1). simplify_eq.
    apply bind_Some in Hb as (cb & Hcb & Hb).
    destruct cb as [| zb | | | | |]; try discriminate Hb.
    apply bind_Some in Hv as (cv & Hcv & Hv).
    destruct cv as [| | | bv | | |]; try discriminate Hv.
    simpl in Hb, Hv. assert (zb = b) as -> by congruence.
    assert (bv = v) as -> by congruence.
    cells_simpl in Hv3. simplify_eq/=.
    exists b, v. split_and!; [done..| | |]; by cells_simpl.
Qed.

Section run_facts.
Variable to_datetime : string → option Z.
Variable fsum : list float → float.

Lemma process_transactions_stages df sim af out :
  process_transactions to_datetime fsum df sim af = Some out →
  run_stages to_datetime fsum df sim af out.
Proof.
  unfold process_transactions. intros H.
  apply bind_Some in H as (st & Hst & H).
  apply bind_Some in H as (stv & Hstv & H).
  apply bind_Some in H as ([dff thr] & Hf & H). simplify_eq.
  by econstructor.
Qed.

Lemma process_transactions_active df sim af out :
  process_transactions to_datetime fsum df sim af = Some out →
  attrs_active_risks out = active_checks (resolve_features df af) sim ∧
  attrs_threshold out = select_threshold (length (attrs_active_risks out)).
Proof.
  intros [st stv Hst Hstv Hf Ha _]%process_transactions_stages.
  apply risk_checks_frame in Hst as (_ & _ & _ & Hact & _).
  apply velocity_simulation_Some in Hstv as (Hactv & _).
  apply final_verdict_Some in Hf as (Hthr & _).
  rewrite Ha, Hthr. split; [|done]. rewrite Hactv, Hact. done.
Qed.

(** Every record of the output comes from a record of the working batch:
    the cells outside the columns of the simulator and of the verdict are
    those of the working batch, the velocity column is boolean (and false
    when the simulator did not run), and the final columns are as
    [final_row] says. *)
Lemma process_transactions_rows df sim af out st :
  process_transactions to_datetime fsum df sim af = Some out →
  risk_checks to_datetime fsum df (resolve_features df af) = Some st →
  ∀ r', r' ∈ rows (out_frame out) →
    ∃ rw rv, rw ∈ rows (frame st) ∧
      cells_step velocity_columns rw rv ∧
      cells_step final_columns rv r' ∧
      label r' = label rv ∧
      final_row (attrs_active_risks out) rv r' ∧
      (sim && bool_decide ("timestamp" ∈ resolve_features df af) = false →
       cells rv !! "risk_velocity_sim" = Some (CBool false)).
Proof.
  intros [st' stv Hst Hstv Hf Ha _]%process_transactions_stages Hst'.
  assert (st' = st) as -> by congruence.
  apply final_verdict_Some in Hf as (_ & Ff & Hf).
  apply velocity_simulation_Some in Hstv as (_ & _ & Hv).
  intros r' [q Hq]%list_elem_of_lookup.
  destruct (Forall2_lookup_r _ _ _ _ _ Hf Hq) as (rv & Hrv & Hfin).
  destruct (frame_step_row _ _ _ _ _ Ff Hq) as (rv' & Hrv' & Hl & Hs).
  assert (rv' = rv) as -> by congruence.
  destruct (sim && bool_decide ("timestamp" ∈ resolve_features df af)).
  - destruct Hv as [_ Hv].
    destruct (Hv rv) as (rw & Hrw & Hsw & _); [by eapply list_elem_of_lookup_2|].
    exists rw, rv. rewrite Ha. split_and!; [by eapply list_elem_of_lookup_2|done..].
  - destruct (Forall2_lookup_r _ _ _ _ _ Hv Hrv) as (rw & Hrw & [_ Hsw] & Hfalse).
    exists rw, rv. rewrite Ha. split_and!; [by eapply list_elem_of_lookup_2|done..].
Qed.

Lemma velocity_row_step ns w p cs r r' :
  cells_step cs r r' →
  "session_id" ∉ cs → "sim_timestamp" ∉ cs → "timestamp" ∉ cs →
  "txn_count_sim" ∉ cs → "risk_velocity_sim" ∉ cs →
  velocity_row ns w p r → velocity_row ns w p r'.
Proof.
  intros Hs H1 H2 H3 H4 H5. unfold velocity_row. destruct (decide _).
  - intros (t0 & ? & ? & ? & ? & ?). exists t0. rewrite !Hs by done. done.
  - intros (? & ? & ? & ?). rewrite !Hs by done. done.
Qed.

(** The working batch has the records of the input batch. *)
Lemma risk_checks_length df feats st :
  risk_checks to_datetime fsum df feats = Some st →
  length (rows (frame st)) = length (rows df).
Proof.
  intros (df1 & H1 & Hs & _)%risk_checks_frame.
  rewrite (frame_step_length _ _ _ Hs).
  apply timestamp_handling_Some in H1 as [_ H1].
  destruct (bool_decide _).
  - destruct H1 as [H1 _]. by apply rows_perm_length in H1.
  - rewrite H1. by rewrite length_fmap.
Qed.

(** A run with the simulator: every record of the output stood at the
    position that its label tells in the working batch, and holds what the
    simulator assigned to that position. *)
Lemma process_transactions_simulated df af out st :
  process_transactions to_datetime fsum df true af = Some out →
  "timestamp" ∈ resolve_features df af →
  risk_checks to_datetime fsum df (resolve_features df af) = Some st →
  label <$> rows (out_frame out) ≡ₚ seq 0 (length (rows (frame st))) ∧
  ∀ r', r' ∈ rows (out_frame out) →
    ∃ rw, rows (frame st) !! label r' = Some rw ∧
      cells_step (velocity_columns ++ final_columns) rw r' ∧
      velocity_row (num_sessions (length (rows (frame st)))) (rows (frame st))
                   (label r') r'.
Proof.
  intros [st' stv Hst Hstv Hf Ha _]%process_transactions_stages Hts Hst'.
  assert (st' = st) as -> by congruence.
  apply final_verdict_Some in Hf as (_ & Ff & _).
  apply velocity_simulation_Some in Hstv as (_ & _ & Hv).
  rewrite (bool_decide_eq_true_2 _ Hts) in Hv. simpl in Hv. destruct Hv as [Hlab Hv].
  split.
  - rewrite <-Hlab. destruct Ff as [_ Ff]. clear -Ff.
    induction Ff as [|r r' l l' [Hl _] _ IH]; [done|]. csimpl. by rewrite Hl, IH.
  - intros r' [q Hq]%list_elem_of_lookup.
    destruct (frame_step_row _ _ _ _ _ Ff Hq) as (rv & Hrv & Hl & Hs).
    destruct (Hv rv) as (rw & Hrw & Hsw & Hrow); [by eapply list_elem_of_lookup_2|].
    rewrite Hl. exists rw. split_and!; [done|by eapply cells_step_trans|].
    eapply velocity_row_step; [exact Hs|notin..|done].
Qed.
End run_facts.


(** ** The six checks *)

Lemma active_checks_filter feats sim :
  active_checks feats sim =
  (λ c, (column c, description c)) <$>
    filter (λ c, check_active feats sim c = true) all_checks.
Proof.
  unfold active_checks, base_checks, all_checks, check_active, velocity_check.
  rewrite !filter_cons, filter_nil. simpl.
  destruct (bool_decide ("amount" ∈ feats)), (bool_decide ("device_hash" ∈ feats)),
    (bool_decide ("ip_address" ∈ feats)), (bool_decide ("location" ∈ feats)),
    (bool_decide ("timestamp" ∈ feats)), sim; reflexivity.
Qed.

Lemma active_checks_columns feats sim :
  (active_checks feats sim).*1 ⊆ base_risk_columns ++ ["risk_velocity_sim"].
Proof.
  unfold active_checks. rewrite fmap_app. intros c [Hc|Hc]%elem_of_app.
  - apply elem_of_app. left. exact (base_checks_columns feats c Hc).
  - apply elem_of_app. right. destruct (_ && _); [done|]. by apply elem_of_nil in Hc.
Qed.


(** ** Counting the fired checks *)

Lemma count_fired_app a1 a2 r :
  count_fired (a1 ++ a2) r = count_fired a1 r + count_fired a2 r.
Proof. unfold count_fired. rewrite filter_app, length_app. lia. Qed.

Lemma count_fired_singleton c d r : count_fired [(c, d)] r = Z.b2z (fired r c).
Proof.
  unfold count_fired. rewrite filter_cons, filter_nil. simpl.
  by destruct (fired r c).
Qed.

Lemma fired_bool r c b : cells r !! c = Some (CBool b) → fired r c = b.
Proof. unfold fired. intros ->. by destruct b. Qed.

Section claims.
Variable to_datetime : string → option Z.
Variable fsum : list float → float.

(** The cells of a record of the output that the score is made of. *)
Lemma output_row_score df sim af out r' :
  process_transactions to_datetime fsum df sim af = Some out →
  r' ∈ rows (out_frame out) →
  ∃ s, cells r' !! "final_risk_score" = Some (CInt s) ∧
       s = count_fired (attrs_active_risks out) r' ∧
       cells r' !! "final_is_anomalous" =
         Some (CBool (bool_decide
                        (select_threshold (length (attrs_active_risks out)) ≤ s))) ∧
       Forall (λ a, ∃ b, cells r' !! a.1 = Some (CBool b)) (attrs_active_risks out).
Proof.
  intros Hrun Hr'.
  pose proof (process_transactions_active _ _ _ _ _ _ Hrun) as [Hact _].
  pose proof (process_transactions_stages _ _ _ _ _ _ Hrun) as [st stv Hst _ _ _ _].
  destruct (process_transactions_rows _ _ _ _ _ _ _ Hrun Hst r' Hr')
    as (rw & rv & Hrw & Hsv & Hsf & _ & (b & v & Hb & Hv & Hscore & _ & Hanom) & Hoff).
  apply risk_checks_frame in Hst as (_ & _ & _ & _ & Hbase).
  rewrite Forall_forall in Hbase. destruct (Hbase _ Hrw) as [Hbools Hbs].
  unfold base_score_row in Hbs.
  assert (cells rv !! "base_risk_score" = cells rw !! "base_risk_score") as Hbv
    by (apply Hsv; notin).
  rewrite Hbs in Hbv. assert (b = count_fired (base_checks (resolve_features df af)) rw)
    as -> by congruence.
  assert (∀ c, c ∈ base_risk_columns → cells r' !! c = cells rw !! c) as Hsame.
  { intros c Hc. rewrite Hsf, Hsv; [done|..];
      unfold base_risk_columns in Hc; intros Hin;
      repeat (apply elem_of_cons in Hc as [->|Hc]; [revert Hin; notin|]);
      by apply elem_of_nil in Hc. }
  assert (cells r' !! "risk_velocity_sim" = Some (CBool v)) as Hv'
    by (rewrite Hsf; [done|notin]).
  exists (count_fired (base_checks (resolve_features df af)) rw + Z.b2z v).
  assert (count_fired (attrs_active_risks out) r'
          = count_fired (base_checks (resolve_features df af)) rw + Z.b2z v) as Hcount.
  { rewrite Hact. unfold active_checks. rewrite count_fired_app. f_equal.
    - apply count_fired_ext. intros c Hc. apply Hsame.
      exact (base_checks_columns _ c Hc).
    - destruct (sim && _) eqn:Hmode.
      + unfold velocity_check. rewrite count_fired_singleton.
        by rewrite (fired_bool _ _ _ Hv').
      + rewrite Hoff in Hv by done. by simplify_eq. }
  split_and!; [done|by rewrite Hcount|done|].
  rewrite Hact. apply Forall_forall. intros [c d] Hin. simpl.
  assert (c ∈ base_risk_columns ++ ["risk_velocity_sim"]) as Hc.
  { apply (active_checks_columns (resolve_features df af) sim).
    apply list_elem_of_fmap. by exists (c, d). }
  apply elem_of_app in Hc as [Hc|Hc].
  - rewrite Hsame by done. rewrite Forall_forall in Hbools. by apply Hbools.
  - apply list_elem_of_singleton in Hc as ->. eauto.
Qed.

(** C1: for every batch and every record of the output, the final risk
    score is the number of the active checks (the per-feature checks, and
    the velocity check when it is registered) whose boolean column is true
    for the record, and the record is marked anomalous exactly when that
    score reaches the threshold selected for the number of active checks. *)
Theorem final_score_counts_fired_checks df sim af out :
  process_transactions to_datetime fsum df sim af = Some out →
  attrs_active_risks out = active_checks (resolve_features df af) sim ∧
  attrs_threshold out = select_threshold (length (attrs_active_risks out)) ∧
  ∀ r, r ∈ rows (out_frame out) →
    cells r !! "final_risk_score" = Some (CInt (count_fired (attrs_active_risks out) r)) ∧
    cells r !! "final_is_anomalous" =
      Some (CBool (bool_decide (attrs_threshold out
                                ≤ count_fired (attrs_active_risks out) r))).
Proof.
  intros Hrun.
  destruct (process_transactions_active _ _ _ _ _ _ Hrun) as [Hact Hthr].
  split_and!; [done..|]. intros r Hr.
  destruct (output_row_score _ _ _ _ _ Hrun Hr) as (s & Hs & -> & Ha & _).
  by rewrite Hthr.
Qed.

(** C2: the threshold is a function of the number of active checks only,
    by the table 0 -> 1, 1 -> 1, 2 -> 2, 3 -> 3, 4 -> 3, 5 -> 4, 6 or more
    -> 5; and in a run with no active check every record has score 0, the
    threshold is 1 and no record is flagged. *)
Theorem threshold_table_and_safe_degrade df sim af out :
  process_transactions to_datetime fsum df sim af = Some out →
  (select_threshold 0 = 1 ∧ select_threshold 1 = 1 ∧ select_threshold 2 = 2 ∧
   select_threshold 3 = 3 ∧ select_threshold 4 = 3 ∧ select_threshold 5 = 4 ∧
   ∀ n, (6 ≤ n)%nat → select_threshold n = 5) ∧
  attrs_threshold out = select_threshold (length (attrs_active_risks out)) ∧
  (attrs_active_risks out = [] →
   attrs_threshold out = 1 ∧
   ∀ r, r ∈ rows (out_frame out) →
     cells r !! "final_risk_score" = Some (CInt 0) ∧
     cells r !! "final_is_anomalous" = Some (CBool false)).
Proof.
  intros Hrun. split.
  { split_and!; try reflexivity. intros n Hn.
    do 6 (destruct n as [|n]; [lia|]). done. }
  destruct (process_transactions_active _ _ _ _ _ _ Hrun) as [_ Hthr].
  split; [done|]. intros Hnil. rewrite Hnil in *. split; [done|].
  intros r Hr.
  destruct (output_row_score _ _ _ _ _ Hrun Hr) as (s & Hs & -> & Ha & _).
  rewrite Hnil in *. by rewrite Hs, Ha.
Qed.
End claims.


(** ** The explanation builder *)




Lemma filter_ext_in {A} (P Q : A → Prop) `{∀ x, Decision (P x)} `{∀ x, Decision (Q x)}
    (l : list A) :
  (∀ x, x ∈ l → P x ↔ Q x) → filter P l = filter Q l.
Proof.
  induction l as [|x l IH]; intros HPQ; [done|].
  rewrite !filter_cons.
  rewrite IH by (intros y Hy; apply HPQ; by right).
  destruct (decide (P x)) as [HP|HP], (decide (Q x)) as [HQ|HQ]; try done.
  - destruct HQ. apply HPQ; [by left|done].
  - destruct HP. apply HPQ; [by left|done].
Qed.

Section claims_reasons.
Variable to_datetime : string → option Z.
Variable fsum : list float → float.

(** C9: the explanation builder takes the truth value of the cell that a
    record has at the column of each active check (line 137), and the
    missing value is true: on a record whose flag is missing the check is
    listed among the reasons, although its column is not true for the
    record, and although the score, which skips the missing value (line
    98), does not count it.  The first-seen checks leave the flag missing
    on a record without a sender account. *)
Theorem build_reasons_lists_a_missing_flag :
  let active := [("risk_new_device", "New device detected")] in
  let row := mkRow 1 {[ "risk_new_device" := CNA ]} in
  fired row "risk_new_device" = false ∧
  count_fired active row = 0 ∧
  build_reasons (risk_descriptions active) row = ["New device detected"].
Proof. by vm_compute. Qed.

(** C10: calling the engine with [available_features] omitted gives the
    output of the call with the set of the column names of the batch as the
    available features. *)
Theorem default_features_are_the_columns df sim :
  process_transactions to_datetime fsum df sim None =
  process_transactions to_datetime fsum df sim (Some (list_to_set (columns df))).
Proof. reflexivity. Qed.
End claims_reasons.


(** ** The simulator permutes the working batch *)

Lemma lookup_all_seq (w : list Row) (d : Row) :
  (λ p, default d (w !! p)) <$> seq 0 (length w) = w.
Proof.
  apply list_eq. intros i. rewrite list_lookup_fmap.
  destruct (w !! i) as [r|] eqn:Hi.
  - rewrite lookup_seq_lt by (by eapply lookup_lt_Some). simpl. by rewrite Hi.
  - rewrite lookup_seq_ge by (by apply lookup_ge_None). done.
Qed.

Lemma velocity_simulation_perm sim has_ts st stv :
  velocity_simulation sim has_ts st = Some stv →
  rows_perm (cells_step velocity_columns) (rows (frame st)) (rows (frame stv)).
Proof.
  intros (_ & _ & H)%velocity_simulation_Some. destruct (sim && has_ts).
  - destruct H as [Hlab H].
    set (d := mkRow 0 ∅).
    exists ((λ p, default d (rows (frame st) !! p)) <$> (label <$> rows (frame stv))).
    split.
    + rewrite Hlab. by rewrite lookup_all_seq.
    + rewrite <-list_fmap_compose. apply Forall2_fmap_l.
      apply Forall_Forall2_diag, Forall_forall. intros r' Hr'.
      destruct (H r' Hr') as (r & Hr & Hs & _). simpl. by rewrite Hr.
  - apply rows_perm_Forall2. eapply Forall2_impl; [exact H|].
    by intros r r' [[_ Hs] _].
Qed.

Section claims_simulator.
Variable to_datetime : string → option Z.
Variable fsum : list float → float.

(** With temporal stamps, the working batch is sorted by account, then by
    time. *)
Lemma working_batch_sorted df feats st :
  risk_checks to_datetime fsum df feats = Some st →
  "timestamp" ∈ feats →
  ∃ keys, Forall2 keyed_row (rows (frame st)) keys ∧
          StronglySorted (λ a b, account_time_leb a b = true) keys.
Proof.
  intros (df1 & H1 & Hs & _)%risk_checks_frame Hts.
  apply timestamp_handling_Some in H1 as [_ H1].
  rewrite (bool_decide_eq_true_2 _ Hts) in H1. destruct H1 as (_ & keys & Hk & Hsorted).
  exists keys. split; [|done].
  destruct Hs as [_ Hs]. apply Forall2_flip in Hs.
  eapply Forall2_trans; [|exact Hs|exact Hk].
  intros r' r k [_ Hr] [Hk1 Hk2]. simpl in *. split.
  - rewrite Hr; [done|notin].
  - rewrite Hr; [done|notin].
Qed.

(** C3, as the engine has it: the velocity check is registered as active,
    with the description "Multiple transactions in short time" and so
    counting in the number of active checks that selects the threshold,
    exactly when the simulation mode is on and the temporal stamps are
    available, whether or not it fired for a record; in a batch of fewer
    than 5 records no record fires it. *)
Theorem velocity_check_registered_by_mode df sim af out :
  process_transactions to_datetime fsum df sim af = Some out →
  (velocity_check ∈ attrs_active_risks out ↔
   sim = true ∧ "timestamp" ∈ resolve_features df af) ∧
  ("risk_velocity_sim" ∈ (attrs_active_risks out).*1 ↔
   sim = true ∧ "timestamp" ∈ resolve_features df af) ∧
  attrs_threshold out = select_threshold (length (attrs_active_risks out)) ∧
  ((length (rows df) < 5)%nat →
   ∀ r, r ∈ rows (out_frame out) →
     cells r !! "risk_velocity_sim" = Some (CBool false)).
Proof.
  intros Hrun.
  destruct (process_transactions_active _ _ _ _ _ _ Hrun) as [Hact Hthr].
  assert ("risk_velocity_sim" ∈ (attrs_active_risks out).*1 ↔
          sim = true ∧ "timestamp" ∈ resolve_features df af) as Hcol.
  { rewrite Hact. unfold active_checks. rewrite fmap_app, elem_of_app. split.
    - intros [Hin|Hin].
      + apply base_checks_columns in Hin. revert Hin. notin.
      + destruct sim; [|by apply elem_of_nil in Hin]. simpl in Hin.
        case_bool_decide; [done|by apply elem_of_nil in Hin].
    - intros [-> Hts]. right. rewrite (bool_decide_eq_true_2 _ Hts). simpl. by left. }
  split_and!; [|done|done|].
  - split.
    + intros Hin. apply Hcol. apply list_elem_of_fmap. by exists velocity_check.
    + intros [-> Hts]. rewrite Hact. unfold active_checks. apply elem_of_app. right.
      rewrite (bool_decide_eq_true_2 _ Hts). simpl. by left.
  - intros Hlen r' Hr'.
    pose proof (process_transactions_stages _ _ _ _ _ _ Hrun) as [st stv Hst _ _ _ _].
    destruct (sim && bool_decide ("timestamp" ∈ resolve_features df af)) eqn:Hmode.
    + apply andb_true_iff in Hmode as [-> Hts]. apply bool_decide_eq_true in Hts.
      destruct (process_transactions_simulated _ _ _ _ _ _ Hrun Hts Hst) as [_ H].
      destruct (H r' Hr') as (rw & _ & _ & Hrow).
      rewrite (risk_checks_length _ _ _ _ _ Hst) in Hrow.
      unfold velocity_row, num_sessions in Hrow.
      rewrite Nat.div_small in Hrow by done.
      rewrite decide_False in Hrow by lia. by destruct Hrow as (_ & _ & _ & ?).
    + destruct (process_transactions_rows _ _ _ _ _ _ _ Hrun Hst r' Hr')
        as (rw & rv & _ & _ & Hsf & _ & _ & Hoff).
      rewrite Hsf; [by apply Hoff|notin].
Qed.

(** C5: with the simulation mode on and temporal stamps present, the
    working batch, which is sorted by account and then by time, is cut in
    row order into slices of 5 records, [min 100 (n / 5)] of them; the
    record at the place [j] (from 0) of a slice gets the slice's first real
    instant plus [10 * j] seconds as synthetic instant; the records after
    the last slice get no session; the count within the session is
    [j + 1], and the velocity check fires exactly on the records whose
    count is at least 3.  A batch of 17 records gives 3 sessions and leaves
    2 records without one. *)
Theorem session_simulation_slices df af out :
  process_transactions to_datetime fsum df true af = Some out →
  "timestamp" ∈ resolve_features df af →
  ∃ st, risk_checks to_datetime fsum df (resolve_features df af) = Some st ∧
    let w := rows (frame st) in
    let ns := (100 `min` (length w `div` 5))%nat in
    length w = length (rows df) ∧
    (∃ keys, Forall2 keyed_row w keys ∧
             StronglySorted (λ a b, account_time_leb a b = true) keys) ∧
    label <$> rows (out_frame out) ≡ₚ seq 0 (length w) ∧
    (∀ r, r ∈ rows (out_frame out) →
       let p := label r in
       ∃ rw, w !! p = Some rw ∧
         cells_step (velocity_columns ++ final_columns) rw r ∧
         if decide (p < 5 * ns)%nat then
           ∃ t0, time_at w (5 * (p `div` 5)) = Some t0 ∧
             cells r !! "session_id" = Some (CStr (session_name (p `div` 5))) ∧
             cells r !! "sim_timestamp" =
               Some (CTime (t0 + timedelta_seconds (10 * Z.of_nat (p `mod` 5)))) ∧
             cells r !! "txn_count_sim" = Some (CInt (Z.of_nat (p `mod` 5) + 1)) ∧
             cells r !! "risk_velocity_sim" =
               Some (CBool (bool_decide (3 ≤ Z.of_nat (p `mod` 5) + 1)))
         else
           cells r !! "session_id" = Some CNA ∧
           cells r !! "sim_timestamp" = cells r !! "timestamp" ∧
           cells r !! "txn_count_sim" = Some CNA ∧
           cells r !! "risk_velocity_sim" = Some (CBool false)) ∧
    (length (rows df) = 17%nat → ns = 3%nat ∧ (length w - 5 * ns = 2)%nat).
Proof.
  intros Hrun Hts.
  pose proof (process_transactions_stages _ _ _ _ _ _ Hrun) as [st stv Hst _ _ _ _].
  exists st. split; [done|]. intros w ns.
  pose proof (risk_checks_length _ _ _ _ _ Hst) as Hlen.
  destruct (process_transactions_simulated _ _ _ _ _ _ Hrun Hts Hst) as [Hlab H].
  split_and!; [done|by eapply working_batch_sorted|done| |].
  - intros r Hr p. destruct (H r Hr) as (rw & Hrw & Hs & Hrow).
    exists rw. split_and!; [done..|].
    unfold velocity_row, num_sessions in Hrow. fold w ns p in Hrow.
    destruct (decide (p < 5 * ns)%nat); [|done].
    destruct Hrow as (t0 & ? & ? & ? & ? & Hv). exists t0. split_and!; [done..|].
    rewrite Hv. do 2 f_equal. apply bool_decide_ext. lia.
  - intros H17. unfold ns, w. rewrite Hlen, H17. by vm_compute.
Qed.
End claims_simulator.


(** ** The fields of the input batch *)

Section claims_frame.
Variable to_datetime : string → option Z.
Variable fsum : list float → float.

Lemma timestamp_handling_column (b : bool) df df1 :
  timestamp_handling to_datetime b df = Some df1 →
  cols_step ["hour"] df df1.
Proof.
  intros H. pose proof (timestamp_handling_Some _ _ _ _ H) as [[Hsub Hc] _].
  split; [done|]. intros c Hin. destruct (Hc c Hin) as [?|Hc']; [by left|].
  apply elem_of_cons in Hc' as [->|Hc']; [|by right].
  left. unfold timestamp_handling in H. destruct b.
  - apply bind_Some in H as (ts & Hts & _). by apply col_mapM_Some in Hts as [? _].
  - simplify_eq. simpl in Hin. apply elem_of_add_column in Hin as [?|?]; done.
Qed.

(** C6, as the engine has it: the records of the output are the records of
    the input, in some order; every field of the input whose name is not
    that of a column that the engine derives keeps its value, the temporal
    stamp apart, which the engine replaces by the instant it parses to
    when the stamps are an available feature; and the columns of the output
    are those of the input and derived ones. *)
Theorem input_fields_kept_but_timestamp df sim af out :
  process_transactions to_datetime fsum df sim af = Some out →
  cols_step derived_columns df (out_frame out) ∧
  rows_perm (λ r r',
      (∀ c, c ∉ derived_columns → c ≠ "timestamp" → cells r' !! c = cells r !! c) ∧
      stamp_handled to_datetime (bool_decide ("timestamp" ∈ resolve_features df af)) r r')
    (rows df) (rows (out_frame out)).
Proof.
  intros Hrun.
  pose proof (process_transactions_stages _ _ _ _ _ _ Hrun) as [st stv Hst Hstv Hf _ _].
  pose proof (risk_checks_frame _ _ _ _ _ Hst) as (df1 & H1 & Fc & _).
  pose proof (timestamp_handling_column _ _ _ H1) as C1.
  pose proof (timestamp_handling_Some _ _ _ _ H1) as [_ Ht].
  pose proof (velocity_simulation_Some _ _ _ _ Hstv) as (_ & Cv & _).
  pose proof (velocity_simulation_perm _ _ _ _ Hstv) as Pv.
  apply final_verdict_Some in Hf as (_ & Ff & _).
  split.
  - unfold derived_columns.
    apply (cols_step_trans ["hour"] _ _ _ _ C1).
    apply (cols_step_trans check_columns _ _ _ _ (proj1 Fc)).
    apply (cols_step_trans velocity_columns _ _ _ _ Cv). apply Ff.
  - set (b := bool_decide ("timestamp" ∈ resolve_features df af)) in *.
    assert (rows_perm (λ r r1, cells_step ["timestamp"; "hour"] r r1 ∧ stamp_handled to_datetime b r r1)
              (rows df) (rows df1)) as P1.
    { unfold stamp_handled. destruct b.
      - destruct Ht as [Ht _]. eapply rows_perm_impl; [|exact Ht].
        intros r r1 [[_ Hs] (t & Hp & Hc & _)]. split; [done|]. eauto.
      - rewrite Ht. apply rows_perm_Forall2. apply Forall2_fmap_r.
        apply Forall_Forall2_diag, Forall_forall. intros r _. split.
        + apply (cells_step_mono ["hour"]); [set_solver|apply cells_step_set_cell].
        + by cells_simpl. }
    assert (rows_perm (cells_step (check_columns ++ velocity_columns ++ final_columns))
              (rows df1) (rows (out_frame out))) as P2.
    { eapply rows_perm_trans; [|apply rows_perm_Forall2, (proj2 Fc)|].
      2:{ eapply rows_perm_trans; [|exact Pv|apply rows_perm_Forall2, (proj2 Ff)].
          intros r1 r2 r3 H12 [_ H23]. exact (cells_step_trans _ _ _ _ _ H12 H23). }
      intros r1 r2 r3 [_ H12] H23. exact (cells_step_trans _ _ _ _ _ H12 H23). }
    eapply rows_perm_trans; [|exact P1|exact P2].
    intros r r1 r' [Hs1 Hst1] Hs2. split.
    + intros c Hc Hne. rewrite Hs2, Hs1; [done|..].
      * intros [->|[->|[]%elem_of_nil]%elem_of_cons]%elem_of_cons; [done|].
        apply Hc. by left.
      * intros Hin. apply Hc. by right.
    + unfold stamp_handled in *. rewrite Hs2 by notin. done.
Qed.
End claims_frame.


(** ** Groups, seen from a row *)

(** the last position before [i] at which [P] holds *)
Lemma last_filter_seq_Some (P : nat → Prop) `{∀ j, Decision (P j)} (i j : nat) :
  last (filter P (seq 0 i)) = Some j ↔
  (j < i)%nat ∧ P j ∧ ∀ j', (j < j' < i)%nat → ¬ P j'.
Proof.
  induction i as [|i IH].
  { simpl. split; [done|]. intros [? _]. lia. }
  rewrite seq_S, filter_app, filter_cons, filter_nil. simpl.
  destruct (decide (P i)) as [Hi|Hi].
  - rewrite last_snoc. split.
    + intros [= <-]. split_and!; [lia|done|]. intros j' ?. lia.
    + intros (Hj & HP & Hlast). f_equal.
      destruct (decide (j = i)) as [->|Hne]; [done|].
      destruct (Hlast i); [lia|done].
  - rewrite app_nil_r, IH. split.
    + intros (Hj & HP & Hlast). split_and!; [lia|done|].
      intros j' Hj'. destruct (decide (j' = i)) as [->|Hne]; [done|].
      apply Hlast. lia.
    + intros (Hj & HP & Hlast). split_and!; [|done|].
      * destruct (decide (j = i)) as [->|Hne]; [done|lia].
      * intros j' Hj'. apply Hlast. lia.
Qed.

Lemma last_filter_seq_None (P : nat → Prop) `{∀ j, Decision (P j)} (i : nat) :
  last (filter P (seq 0 i)) = None ↔ ∀ j, (j < i)%nat → ¬ P j.
Proof.
  induction i as [|i IH].
  { simpl. split; [|done]. intros _ j ?. lia. }
  rewrite seq_S, filter_app, filter_cons, filter_nil. simpl.
  destruct (decide (P i)) as [Hi|Hi].
  - rewrite last_snoc. split; [done|]. intros Hno. destruct (Hno i); [lia|done].
  - rewrite app_nil_r, IH. split.
    + intros Hno j Hj. destruct (decide (j = i)) as [->|Hne]; [done|].
      apply Hno. lia.
    + intros Hno j Hj. apply Hno. lia.
Qed.

Section groups.
Context {K : Type} `{EqDecision K} {A : Type}.

Lemma group_before_S (keys : list K) (xs : list A) k i k' x :
  keys !! i = Some k' → xs !! i = Some x →
  group_before keys xs k (S i) =
  group_before keys xs k i ++ (if decide (k' = k) then [(k', x)] else []).
Proof.
  intros Hk Hx. unfold group_before.
  rewrite (take_S_r _ _ (k', x)) by (by apply lookup_zip_Some).
  rewrite filter_app, filter_cons, filter_nil. simpl. by destruct (decide (k' = k)).
Qed.

Lemma rank_in_group_S (keys : list K) k i k' :
  keys !! i = Some k' →
  rank_in_group keys (S i) k =
  (rank_in_group keys i k + (if decide (k' = k) then 1 else 0))%nat.
Proof.
  intros Hk. unfold rank_in_group. rewrite (take_S_r _ _ k') by done.
  rewrite filter_app, length_app, filter_cons, filter_nil. simpl.
  destruct (decide (k = k')), (decide (k' = k)); try done; congruence.
Qed.

(** the rank of a row in its group is the number of the members of the
    group that come before it *)
Lemma rank_in_group_before (keys : list K) (xs : list A) k i :
  length keys = length xs → (i ≤ length keys)%nat →
  rank_in_group keys i k = length (group_before keys xs k i).
Proof.
  intros Hlen. induction i as [|i IH]; intros Hi; [done|].
  destruct (lookup_lt_is_Some_2 keys i) as [k' Hk]; [lia|].
  destruct (lookup_lt_is_Some_2 xs i) as [x Hx]; [lia|].
  rewrite (rank_in_group_S _ _ _ _ Hk), (group_before_S _ _ _ _ _ _ Hk Hx), length_app.
  rewrite IH by lia. by destruct (decide (k' = k)).
Qed.

(** the group of a row: the members before it, the row itself, and the
    members after it *)
Lemma group_of_split (keys : list K) (xs : list A) k i x :
  keys !! i = Some k → xs !! i = Some x →
  group_of keys xs k =
  (group_before keys xs k i).*2 ++ x ::
  (filter (λ p, p.1 = k) (drop (S i) (zip keys xs))).*2.
Proof.
  intros Hk Hx. unfold group_of, group_before.
  rewrite <-(take_drop i (zip keys xs)) at 1.
  rewrite (drop_S _ (k, x) i) by (by apply lookup_zip_Some).
  rewrite filter_app, filter_cons. simpl. rewrite decide_True by done.
  by rewrite fmap_app.
Qed.

(** a row stands in its group at its rank *)
Lemma group_of_rank (keys : list K) (xs : list A) k i x :
  length keys = length xs →
  keys !! i = Some k → xs !! i = Some x →
  group_of keys xs k !! rank_in_group keys i k = Some x.
Proof.
  intros Hlen Hk Hx. rewrite (group_of_split _ _ _ _ _ Hk Hx).
  apply list_lookup_middle. rewrite length_fmap.
  apply rank_in_group_before; [done|]. apply lookup_lt_Some in Hk. lia.
Qed.

Lemma rank_in_group_lt (keys : list K) (xs : list A) k i :
  length keys = length xs → keys !! i = Some k →
  (rank_in_group keys i k < length (group_of keys xs k))%nat.
Proof.
  intros Hlen Hk.
  destruct (lookup_lt_is_Some_2 xs i) as [x Hx];
    [rewrite <-Hlen; by eapply lookup_lt_Some|].
  eapply lookup_lt_Some. by apply group_of_rank.
Qed.

(** the last member of the group before row [i] is the record at the
    position [previous_in_group] *)
Lemma last_group_before (keys : list K) (xs : list A) k i :
  length keys = length xs → (i ≤ length keys)%nat →
  last (group_before keys xs k i).*2 =
  last (filter (λ j, keys !! j = Some k) (seq 0 i)) ≫= (xs !!.).
Proof.
  intros Hlen. induction i as [|i IH]; intros Hi; [done|].
  destruct (lookup_lt_is_Some_2 keys i) as [k' Hk]; [lia|].
  destruct (lookup_lt_is_Some_2 xs i) as [x Hx]; [lia|].
  rewrite (group_before_S _ _ _ _ _ _ Hk Hx), seq_S, filter_app, filter_cons, filter_nil.
  simpl. rewrite Hk. destruct (decide (k' = k)) as [->|Hne].
  - rewrite decide_True by done. rewrite fmap_app, !last_snoc. simpl. by rewrite last_snoc.
  - rewrite decide_False by congruence. rewrite !app_nil_r. apply IH. lia.
Qed.
End groups.

(** [groupby(keys)[xs].shift(1)] at row [i]: the value of the previous
    record of the group, the missing value when there is none *)
Lemma groupby_shift1_lookup {K} `{EqDecision K} {A} (keys : list K)
    (xs : list (option A)) i k :
  length keys = length xs → keys !! i = Some k →
  groupby_transform shift1 None keys xs !! i =
  Some (default None (previous_in_group keys i ≫= (xs !!.))).
Proof.
  intros Hlen Hk. unfold groupby_transform, previous_in_group.
  rewrite list_lookup_imap, Hk. simpl. f_equal.
  pose proof (lookup_lt_Some _ _ _ Hk) as Hi%Nat.lt_le_incl.
  rewrite <-(last_group_before keys xs k i Hlen Hi).
  pose proof (rank_in_group_lt keys xs k i Hlen Hk) as Hlt.
  unfold shift1. rewrite lookup_take_lt by done.
  destruct (lookup_lt_is_Some_2 xs i) as [x Hx];
    [rewrite <-Hlen; by eapply lookup_lt_Some|].
  rewrite (group_of_split _ _ _ _ _ Hk Hx).
  rewrite (rank_in_group_before keys xs k i Hlen Hi).
  rewrite last_lookup, length_fmap.
  destruct (length (group_before keys xs k i)) as [|m] eqn:Hm.
  - apply nil_length_inv in Hm. rewrite Hm. done.
  - simpl. rewrite lookup_app_l by (rewrite length_fmap; lia). done.
Qed.

(** ** The checks, on the working batch *)

Section working_batch_rows.
Variable to_datetime : string → option Z.
Variable fsum : list float → float.

Lemma working_batch_amount df feats st :
  risk_checks to_datetime fsum df feats = Some st →
  "amount" ∈ feats →
  ∃ ks xs,
    Forall2 (λ r k, acct_of r = Some k) (rows (frame st)) ks ∧
    Forall2 (λ r x, cells r !! "amount" ≫= as_float = Some x) (rows (frame st)) xs ∧
    ∀ i r, rows (frame st) !! i = Some r → amount_row fsum ks xs i r.
Proof.
  intros [df1 s2 s3 s4 s5 s6 H1 H2 H3 H4 H5 H6 H7]%risk_checks_stages Hin.
  rewrite (bool_decide_eq_true_2 _ Hin) in H2.
  apply amount_check_Some in H2 as (Fa & _ & ks & xs & Hks & Hxs & Ra).
  apply first_seen_check_Some in H3 as (Fd & _); [|done].
  apply first_seen_check_Some in H4 as (Fi & _); [|done].
  apply location_check_Some in H5 as (Fl & _).
  apply off_hour_check_Some in H6 as (Fo & _).
  apply risk_aggregation_Some in H7 as (Fb & _).
  simpl in *.
  pose proof (frame_step_trans _ _ _ _ _ Fo Fb) as T5.
  pose proof (frame_step_trans _ _ _ _ _ Fl T5) as T4.
  pose proof (frame_step_trans _ _ _ _ _ Fi T4) as T3.
  pose proof (frame_step_trans _ _ _ _ _ Fd T3) as T2.
  pose proof (frame_step_trans _ _ _ _ _ Fa T2) as T1.
  simpl in T1, T2.
  exists ks, xs. split_and!.
  - apply account_keys_Some in Hks.
    apply (Forall2_frame_step (λ o k, o ≫= as_key = Some k) _ _ _ _ _ T1); [notin|done].
  - eapply col_mapM_frame_step; [exact T1|notin|done].
  - intros i r Hr. destruct (frame_step_row _ _ _ _ _ T2 Hr) as (r2 & Hr2 & Hs).
    eapply amount_row_step; [exact Hs|notin..|by apply Ra].
Qed.

Lemma working_batch_location df feats st :
  risk_checks to_datetime fsum df feats = Some st →
  "location" ∈ feats →
  ∃ ks xs,
    Forall2 (λ r k, acct_of r = Some k) (rows (frame st)) ks ∧
    Forall2 (λ r x, cells r !! "location" ≫= as_ident = Some x) (rows (frame st)) xs ∧
    ∀ i r, rows (frame st) !! i = Some r → location_row ks xs i r.
Proof.
  intros [df1 s2 s3 s4 s5 s6 H1 H2 H3 H4 H5 H6 H7]%risk_checks_stages Hin.
  rewrite (bool_decide_eq_true_2 _ Hin) in H5.
  apply location_check_Some in H5 as (Fl & _ & ks & xs & Hks & Hxs & Rl).
  apply off_hour_check_Some in H6 as (Fo & _).
  apply risk_aggregation_Some in H7 as (Fb & _).
  simpl in *.
  pose proof (frame_step_trans _ _ _ _ _ Fo Fb) as T5.
  pose proof (frame_step_trans _ _ _ _ _ Fl T5) as T4.
  simpl in T4, T5.
  exists ks, xs. split_and!.
  - apply account_keys_Some in Hks.
    apply (Forall2_frame_step (λ o k, o ≫= as_key = Some k) _ _ _ _ _ T4); [notin|done].
  - eapply col_mapM_frame_step; [exact T4|notin|done].
  - intros i r Hr. destruct (frame_step_row _ _ _ _ _ T5 Hr) as (r2 & Hr2 & Hs).
    eapply location_row_step; [exact Hs|notin..|by apply Rl].
Qed.

Lemma working_batch_off_hour df feats st :
  risk_checks to_datetime fsum df feats = Some st →
  "timestamp" ∈ feats →
  ∃ ks hs,
    Forall2 (λ r k, acct_of r = Some k) (rows (frame st)) ks ∧
    Forall2 (λ r h, cells r !! "hour" ≫= as_int = Some h) (rows (frame st)) hs ∧
    ∀ i r, rows (frame st) !! i = Some r → off_hour_row ks hs i r.
Proof.
  intros [df1 s2 s3 s4 s5 s6 H1 H2 H3 H4 H5 H6 H7]%risk_checks_stages Hin.
  rewrite (bool_decide_eq_true_2 _ Hin) in H6.
  apply off_hour_check_Some in H6 as (Fo & _ & ks & hs & Hks & Hhs & Ro).
  apply risk_aggregation_Some in H7 as (Fb & _).
  simpl in *.
  pose proof (frame_step_trans _ _ _ _ _ Fo Fb) as T5.
  simpl in T5.
  exists ks, hs. split_and!.
  - apply account_keys_Some in Hks.
    apply (Forall2_frame_step (λ o k, o ≫= as_key = Some k) _ _ _ _ _ T5); [notin|done].
  - eapply col_mapM_frame_step; [exact T5|notin|done].
  - intros i r Hr. destruct (frame_step_row _ _ _ _ _ Fb Hr) as (r2 & Hr2 & Hs).
    eapply off_hour_row_step; [exact Hs|notin..|by apply Ro].
Qed.

(** The records of the output are those of the working batch, in some
    order, with the columns of the simulator and of the verdict assigned. *)
Lemma output_of_working_batch df sim af out st :
  process_transactions to_datetime fsum df sim af = Some out →
  risk_checks to_datetime fsum df (resolve_features df af) = Some st →
  rows_perm (cells_step (velocity_columns ++ final_columns))
            (rows (frame st)) (rows (out_frame out)).
Proof.
  intros [st' stv Hst Hstv Hf _ _]%process_transactions_stages Hst'.
  assert (st' = st) as -> by congruence.
  pose proof (velocity_simulation_perm _ _ _ _ Hstv) as Pv.
  apply final_verdict_Some in Hf as (_ & Ff & _).
  eapply rows_perm_trans; [|exact Pv|apply rows_perm_Forall2, (proj2 Ff)].
  intros r1 r2 r3 H12 [_ H23]. exact (cells_step_trans _ _ _ _ _ H12 H23).
Qed.
End working_batch_rows.


(** ** The location-change check *)

Section claims_location.
Variable to_datetime : string → option Z.
Variable fsum : list float → float.

(** C4, as the engine has it: with the location feature present, the
    location-change check is active and fires on a record of the working
    batch (sorted by account and temporal stamp when the stamps are
    present) exactly when the record has no earlier record of the same
    account, or its location differs from the location of the immediately
    preceding record of the same account, a missing location differing
    from every location; so the first record of each account always
    fires. *)
Theorem location_change_fires_on_first_and_changed df sim af out :
  process_transactions to_datetime fsum df sim af = Some out →
  "location" ∈ resolve_features df af →
  ∃ st ks xs,
    risk_checks to_datetime fsum df (resolve_features df af) = Some st ∧
    Forall2 (λ r k, acct_of r = Some k) (rows (frame st)) ks ∧
    Forall2 (λ r x, cells r !! "location" ≫= as_ident = Some x) (rows (frame st)) xs ∧
    ("timestamp" ∈ resolve_features df af →
     ∃ keys, Forall2 keyed_row (rows (frame st)) keys ∧
             StronglySorted (λ a b, account_time_leb a b = true) keys) ∧
    rows_perm (cells_step (velocity_columns ++ final_columns))
              (rows (frame st)) (rows (out_frame out)) ∧
    ("risk_location_change", "Transaction location changed") ∈ attrs_active_risks out ∧
    ∀ i r x, rows (frame st) !! i = Some r → xs !! i = Some x →
      ∃ b, cells r !! "risk_location_change" = Some (CBool b) ∧
        ((∀ j, (j < i)%nat → ks !! j ≠ ks !! i) → b = true) ∧
        (∀ j y, (j < i)%nat → ks !! j = ks !! i →
                (∀ j', (j < j' < i)%nat → ks !! j' ≠ ks !! i) →
                xs !! j = Some y → b = ident_ne x y).
Proof.
  intros Hrun Hloc.
  pose proof (process_transactions_stages _ _ _ _ _ _ Hrun) as [st stv Hst _ _ _ _].
  destruct (working_batch_location _ _ _ _ _ Hst Hloc) as (ks & xs & Hks & Hxs & Hrow).
  exists st, ks, xs. split_and!; [done..| | | |].
  - intros Hts. by eapply working_batch_sorted.
  - by eapply output_of_working_batch.
  - destruct (process_transactions_active _ _ _ _ _ _ Hrun) as [-> _].
    unfold active_checks, base_checks. rewrite (bool_decide_eq_true_2 _ Hloc).
    rewrite !elem_of_app. left. do 3 right. left. by left.
  - intros i r x Hr Hx.
    destruct (Hrow i r Hr) as (x' & p & Hx' & Hp & _ & Hb).
    assert (x' = x) as -> by congruence.
    destruct (Forall2_lookup_l _ _ _ _ _ Hks Hr) as (k & Hk & _).
    assert (length ks = length xs) as Hlen.
    { rewrite <-(Forall2_length _ _ _ Hks). by eapply Forall2_length. }
    rewrite (groupby_shift1_lookup ks xs i k Hlen Hk) in Hp.
    apply (inj Some) in Hp. exists (ident_ne x p). split; [done|].
    unfold previous_in_group in Hp. rewrite Hk in Hp. simpl in Hp. split.
    + intros Hfirst.
      assert (last (filter (λ j, ks !! j = Some k) (seq 0 i)) = None) as Hnone.
      { apply last_filter_seq_None. intros j Hj Hjk. apply (Hfirst j Hj). congruence. }
      rewrite Hnone in Hp. subst p. by destruct x.
    + intros j y Hj Hjk Hbetween Hy.
      assert (last (filter (λ j, ks !! j = Some k) (seq 0 i)) = Some j) as Hsome.
      { apply last_filter_seq_Some. split_and!; [done|congruence|].
        intros j' Hj' Hjk'. apply (Hbetween j' Hj'). congruence. }
      rewrite Hsome in Hp. simpl in Hp. rewrite Hy in Hp. by subst p.
Qed.
End claims_location.


(** ** The amount check *)

Lemma zscore_lookup fsum (g : list float) j x :
  g !! j = Some x →
  zscore fsum g !! j =
  Some (if (0 <? std fsum g)%float then ((x - mean fsum g) / std fsum g)%float
        else 0%float).
Proof.
  intros Hj. unfold zscore. destruct (0 <? std fsum g)%float.
  - by rewrite list_lookup_fmap, Hj.
  - apply lookup_replicate_2. by eapply lookup_lt_Some.
Qed.

(** the deviation of at most one value is undefined, hence not positive *)
Lemma std_single fsum (g : list float) :
  (length g ≤ 1)%nat → (0 <? std fsum g)%float = false.
Proof.
  intros Hg. unfold std.
  pose proof (length_filter (λ x, PrimFloat.is_nan x = false) g) as Hle.
  unfold notna. rewrite bool_decide_eq_true_2 by lia. reflexivity.
Qed.

Section claims_amount.
Variable to_datetime : string → option Z.
Variable fsum : list float → float.

(** C7, as the engine has it: with the amount feature present, the amount
    check is active; the z-score of a record is its amount minus the mean
    of the amounts of its account, divided by their sample standard
    deviation, when that deviation as computed in binary64 is greater
    than 0, and is 0 otherwise, as for an account with a single record;
    the check fires exactly when the z-score is at least 1.  With sums
    taken left to right, the amounts [100, 100, 100] have z-score 0
    throughout, and the last of the amounts [10, 10, 1000] has a z-score
    greater than 1. *)
Theorem amount_zscore_of_account_group df sim af out :
  process_transactions to_datetime fsum df sim af = Some out →
  "amount" ∈ resolve_features df af →
  ∃ st ks xs,
    risk_checks to_datetime fsum df (resolve_features df af) = Some st ∧
    Forall2 (λ r k, acct_of r = Some k) (rows (frame st)) ks ∧
    Forall2 (λ r x, cells r !! "amount" ≫= as_float = Some x) (rows (frame st)) xs ∧
    rows_perm (cells_step (velocity_columns ++ final_columns))
              (rows (frame st)) (rows (out_frame out)) ∧
    ("risk_amount", "Unusual transaction amount") ∈ attrs_active_risks out ∧
    (∀ i r k x, rows (frame st) !! i = Some r → ks !! i = Some k → xs !! i = Some x →
       let g := group_of ks xs k in
       ∃ z, cells r !! "amount_zscore" = Some (CFloat z) ∧
            zscore fsum g !! rank_in_group ks i k = Some z ∧
            z = (if (0 <? std fsum g)%float
                 then ((x - mean fsum g) / std fsum g)%float else 0%float) ∧
            cells r !! "risk_amount" = Some (CBool (1 <=? z)%float) ∧
            ((length g ≤ 1)%nat →
             z = 0%float ∧ cells r !! "risk_amount" = Some (CBool false))) ∧
    zscore seq_sum [100%float; 100%float; 100%float] = [0%float; 0%float; 0%float] ∧
    (∃ z, zscore seq_sum [10%float; 10%float; 1000%float] !! 2%nat = Some z ∧
          (1 <? z)%float = true).
Proof.
  intros Hrun Ham.
  pose proof (process_transactions_stages _ _ _ _ _ _ Hrun) as [st stv Hst _ _ _ _].
  destruct (working_batch_amount _ _ _ _ _ Hst Ham) as (ks & xs & Hks & Hxs & Hrow).
  exists st, ks, xs. split_and!; [done..| | | | |].
  - by eapply output_of_working_batch.
  - destruct (process_transactions_active _ _ _ _ _ _ Hrun) as [-> _].
    unfold active_checks, base_checks. rewrite (bool_decide_eq_true_2 _ Ham).
    rewrite !elem_of_app. left. left. by left.
  - intros i r k x Hr Hk Hx g.
    destruct (Hrow i r Hr) as (z & Hz & Hcz & Hcr).
    assert (length ks = length xs) as Hlen.
    { rewrite <-(Forall2_length _ _ _ Hks). by eapply Forall2_length. }
    pose proof (group_of_rank ks xs k i x Hlen Hk Hx) as Hg.
    pose proof (zscore_lookup fsum _ _ _ Hg) as Hzs. fold g in Hzs.
    unfold groupby_transform in Hz. rewrite list_lookup_imap, Hk in Hz.
    simpl in Hz. fold g in Hz. rewrite Hzs in Hz. simpl in Hz.
    apply (inj Some) in Hz.
    exists z. split_and!; [done|by rewrite Hzs, Hz|done|done|].
    intros Hone. rewrite (std_single fsum g Hone) in Hz. subst z. done.
  - by vm_compute.
  - eexists. split; by vm_compute.
Qed.
End claims_amount.


(** ** The dominant hour *)

Lemma elem_of_group_sizes ks hs x :
  x ∈ group_sizes ks hs ↔
  x.1 ∈ zip ks hs ∧ x.2 = hour_count ks hs x.1.1 x.1.2.
Proof.
  unfold group_sizes. rewrite list_elem_of_fmap. split.
  - intros (p & -> & Hp). rewrite isort_Permutation in Hp.
    rewrite elem_of_remove_dups in Hp. by destruct p as [a h].
  - intros [Hin Hc]. exists x.1. destruct x as [[a h] c]. simpl in *. subst.
    split; [done|]. rewrite isort_Permutation. by apply elem_of_remove_dups.
Qed.

Lemma group_sizes_sorted ks hs :
  StronglySorted (λ x y, account_hour_leb x.1 y.1 = true) (group_sizes ks hs).
Proof.
  unfold group_sizes.
  eapply StronglySorted_fmap; [|apply (isort_sorted account_hour_leb)].
  - intros x y Hxy. exact Hxy.
  - apply account_time_leb_total.
  - apply account_time_leb_trans.
Qed.

(** The dominant hour of an account that has a record: an hour of the
    account whose count no other hour of the account exceeds, and the
    least of the hours of that count. *)
Lemma dominant_hour_spec ks hs a h0 :
  (a, h0) ∈ zip ks hs →
  ∃ d, dominant_hour (dominant_hour_table ks hs) a = Some d ∧
       (a, d) ∈ zip ks hs ∧
       ∀ h, (a, h) ∈ zip ks hs →
         (hour_count ks hs a h ≤ hour_count ks hs a d)%nat ∧
         (hour_count ks hs a h = hour_count ks hs a d → d ≤ h).
Proof.
  intros Hin. unfold dominant_hour.
  set (tbl := dominant_hour_table ks hs).
  assert (∀ x, x ∈ tbl ↔ x.1 ∈ zip ks hs ∧ x.2 = hour_count ks hs x.1.1 x.1.2) as Hmem.
  { intros x. unfold tbl, dominant_hour_table.
    rewrite isort_Permutation. apply elem_of_group_sizes. }
  assert (StronglySorted
            (stable_le account_count_leb (λ x y, account_hour_leb x.1 y.1 = true)) tbl)
    as Hsorted.
  { apply isort_stable.
    - apply account_count_leb_total.
    - apply account_count_leb_trans.
    - apply group_sizes_sorted. }
  destruct (list_find_elem_of (λ x : akey * Z * nat, x.1.1 = a) tbl
              ((a, h0), hour_count ks hs a h0)) as [[i x] Hfind];
    [by apply Hmem|done|].
  rewrite Hfind. simpl.
  apply list_find_Some in Hfind as (Hi & Hxa & Hfirst).
  destruct x as [[a' d] c]. simpl in Hxa. subst a'. simpl.
  destruct (proj1 (Hmem _) (list_elem_of_lookup_2 _ _ _ Hi)) as [Hd Hc].
  simpl in Hd, Hc. subst c.
  exists d. split_and!; [done..|]. intros h Hh.
  assert (((a, h), hour_count ks hs a h) ∈ tbl) as [j Hj]%list_elem_of_lookup
    by (by apply Hmem).
  destruct (lt_eq_lt_dec j i) as [[Hlt| ->]|Hgt].
  - destruct (Hfirst j _ Hj Hlt). done.
  - rewrite Hi in Hj. injection Hj as ->. split; [lia|]. intros _. lia.
  - destruct (StronglySorted_lookup _ _ _ _ _ _ Hsorted Hgt Hi Hj) as [Hle Hst].
    unfold account_count_leb, account_hour_leb, account_time_leb in Hle, Hst.
    simpl in Hle, Hst. rewrite !(bool_decide_eq_true_2 (a = a)) in Hle, Hst by done.
    apply bool_decide_eq_true in Hle. split; [done|]. intros Heq.
    rewrite !bool_decide_eq_true in Hst. apply Hst. lia.
Qed.

Lemma hour_of_range t : 0 ≤ hour_of t < 24.
Proof. unfold hour_of. apply Z.mod_pos_bound. lia. Qed.

Lemma dominant_hour_9_9_9_14 (a : akey) :
  dominant_hour (dominant_hour_table [a; a; a; a] [9; 9; 9; 14]) a = Some 9.
Proof.
  destruct (dominant_hour_spec [a; a; a; a] [9; 9; 9; 14] a 9) as (d & -> & Hd & Hmax);
    [by left|].
  f_equal. simpl in Hd.
  assert (hour_count [a; a; a; a] [9; 9; 9; 14] a 9 = 3%nat) as H9.
  { unfold hour_count. simpl. rewrite !filter_cons, filter_nil.
    repeat case_decide; simplify_eq; done. }
  assert (hour_count [a; a; a; a] [9; 9; 9; 14] a 14 = 1%nat) as H14.
  { unfold hour_count. simpl. rewrite !filter_cons, filter_nil.
    repeat case_decide; simplify_eq; done. }
  rewrite !elem_of_cons, elem_of_nil in Hd.
  destruct Hd as [Hd|[Hd|[Hd|[Hd|[]]]]]; simplify_eq; try done.
  destruct (Hmax 9) as [Hle _]; [by left|]. rewrite H9, H14 in Hle. lia.
Qed.

Lemma rows_perm_elem (R : Row → Row → Prop) rs rs' r' :
  rows_perm R rs rs' → r' ∈ rs' → ∃ r, r ∈ rs ∧ R r r'.
Proof.
  intros (l & Hl & HR) [i Hi]%list_elem_of_lookup.
  destruct (Forall2_lookup_r _ _ _ _ _ HR Hi) as (r & Hr & HRr).
  exists r. split; [|done]. rewrite <-Hl. by eapply list_elem_of_lookup_2.
Qed.

Section claims_off_hour.
Variable to_datetime : string → option Z.
Variable fsum : list float → float.

(** with the stamps, the hour of a record of the working batch is the hour
    of the day of its instant *)
Lemma working_batch_hours df feats st :
  risk_checks to_datetime fsum df feats = Some st →
  "timestamp" ∈ feats →
  Forall (λ r, ∃ t, cells r !! "timestamp" = Some (CTime t) ∧
                    cells r !! "hour" = Some (CInt (hour_of t))) (rows (frame st)).
Proof.
  intros (df1 & H1 & Fc & _)%risk_checks_frame Hts.
  apply timestamp_handling_Some in H1 as [_ H1].
  rewrite (bool_decide_eq_true_2 _ Hts) in H1. destruct H1 as [Hp _].
  apply Forall_forall. intros r [i Hi]%list_elem_of_lookup.
  destruct (frame_step_row _ _ _ _ _ Fc Hi) as (r1 & Hr1 & _ & Hs).
  destruct (rows_perm_elem _ _ _ r1 Hp) as (r0 & _ & _ & t & _ & Ht & Hh);
    [by eapply list_elem_of_lookup_2|].
  exists t. rewrite !Hs by notin. done.
Qed.

(** without the stamps, the hour is 12 and the off-hour column is false *)
Lemma working_batch_no_stamps df feats st :
  risk_checks to_datetime fsum df feats = Some st →
  "timestamp" ∉ feats →
  Forall (λ r, cells r !! "hour" = Some (CInt 12) ∧
               cells r !! "risk_off_hour" = Some (CBool false)) (rows (frame st)).
Proof.
  intros Hst Hts.
  pose proof (risk_checks_frame _ _ _ _ _ Hst) as (df1 & H1 & Fc & _).
  apply risk_checks_stages in Hst as [df1' s2 s3 s4 s5 s6 _ _ _ _ _ H6 H7].
  rewrite (bool_decide_eq_false_2 _ Hts) in H1, H6.
  apply timestamp_handling_Some in H1 as [_ H1].
  apply off_hour_check_Some in H6 as (_ & _ & Ro).
  apply risk_aggregation_Some in H7 as (Fb & _).
  apply Forall_forall. intros r [i Hi]%list_elem_of_lookup. split.
  - destruct (frame_step_row _ _ _ _ _ Fc Hi) as (r1 & Hr1 & _ & Hs).
    rewrite Hs by notin. rewrite H1, list_lookup_fmap in Hr1.
    apply fmap_Some in Hr1 as (r0 & _ & ->). by cells_simpl.
  - destruct (frame_step_row _ _ _ _ _ Fb Hi) as (r6 & Hr6 & _ & Hs).
    rewrite Hs by notin. rewrite Forall_forall in Ro.
    apply Ro. by eapply list_elem_of_lookup_2.
Qed.

(** C8: with temporal stamps, the hour of a record is the hour of the day
    of its instant (0 to 23); the dominant hour of its account is an hour
    of the account whose count of records no other hour of the account
    exceeds, the least such hour on a tie (the first in a stable sort by
    descending count of the table ordered by account and hour); the
    off-hour check is active and fires exactly when the hour of the record
    differs from the dominant hour of its account.  An account with the
    hours [9, 9, 9, 14] has the dominant hour 9.  Without temporal stamps
    every record has the hour 12, and the check is inactive, its column
    false throughout. *)
Theorem dominant_hour_and_off_hour df sim af out :
  process_transactions to_datetime fsum df sim af = Some out →
  ("timestamp" ∈ resolve_features df af →
   ∃ st ks hs,
     risk_checks to_datetime fsum df (resolve_features df af) = Some st ∧
     Forall2 (λ r k, acct_of r = Some k) (rows (frame st)) ks ∧
     Forall2 (λ r h, cells r !! "hour" ≫= as_int = Some h) (rows (frame st)) hs ∧
     rows_perm (cells_step (velocity_columns ++ final_columns))
               (rows (frame st)) (rows (out_frame out)) ∧
     ("risk_off_hour", "Transaction at unusual time") ∈ attrs_active_risks out ∧
     ∀ i r a h, rows (frame st) !! i = Some r → ks !! i = Some a → hs !! i = Some h →
       (∃ t, cells r !! "timestamp" = Some (CTime t) ∧ h = hour_of t) ∧
       0 ≤ h < 24 ∧
       ∃ d, cells r !! "dominant_hour" = Some (CInt d) ∧
            (a, d) ∈ zip ks hs ∧
            (∀ h', (a, h') ∈ zip ks hs →
               (hour_count ks hs a h' ≤ hour_count ks hs a d)%nat ∧
               (hour_count ks hs a h' = hour_count ks hs a d → d ≤ h')) ∧
            cells r !! "risk_off_hour" = Some (CBool (bool_decide (h ≠ d)))) ∧
  ("timestamp" ∉ resolve_features df af →
   "risk_off_hour" ∉ (attrs_active_risks out).*1 ∧
   ∀ r, r ∈ rows (out_frame out) →
     cells r !! "hour" = Some (CInt 12) ∧
     cells r !! "risk_off_hour" = Some (CBool false)) ∧
  (∀ a, dominant_hour (dominant_hour_table [a; a; a; a] [9; 9; 9; 14]) a = Some 9).
Proof.
  intros Hrun.
  pose proof (process_transactions_stages _ _ _ _ _ _ Hrun) as [st stv Hst _ _ _ _].
  pose proof (output_of_working_batch _ _ _ _ _ _ _ Hrun Hst) as Hout.
  destruct (process_transactions_active _ _ _ _ _ _ Hrun) as [Hact _].
  split_and!; [| |apply dominant_hour_9_9_9_14].
  - intros Hts.
    destruct (working_batch_off_hour _ _ _ _ _ Hst Hts) as (ks & hs & Hks & Hhs & Hrow).
    pose proof (working_batch_hours _ _ _ Hst Hts) as Hhours.
    exists st, ks, hs. split_and!; [done..| |].
    { rewrite Hact. unfold active_checks, base_checks.
      rewrite (bool_decide_eq_true_2 _ Hts).
      rewrite !elem_of_app. left. do 4 right. by left. }
    intros i r a h Hr Ha Hh.
    rewrite Forall_forall in Hhours.
    destruct (Hhours r) as (t & Ht & Hht); [by eapply list_elem_of_lookup_2|].
    pose proof (Forall2_lookup_lr _ _ _ _ _ _ Hhs Hr Hh) as Hcell.
    simpl in Hcell. rewrite Hht in Hcell. simpl in Hcell. injection Hcell as <-.
    split; [by exists t|]. split; [apply hour_of_range|].
    destruct (Hrow i r Hr) as (a' & h' & Ha' & Hh' & Hdom & Hoff).
    assert (a' = a) as -> by congruence. assert (h' = hour_of t) as -> by congruence.
    destruct (dominant_hour_spec ks hs a (hour_of t)) as (d & Hd & Hobs & Hmax).
    { apply list_elem_of_lookup. exists i. by apply lookup_zip_Some. }
    rewrite Hd in Hdom, Hoff. simpl in Hdom.
    exists d. split_and!; done.
  - intros Hts. split.
    + rewrite Hact. unfold active_checks.
      rewrite (bool_decide_eq_false_2 _ Hts), andb_false_r, app_nil_r.
      unfold base_checks. rewrite (bool_decide_eq_false_2 _ Hts), app_nil_r.
      repeat case_bool_decide; simpl; notin.
    + intros r' Hr'.
      destruct (rows_perm_elem _ _ _ _ Hout Hr') as (r & Hr & Hs).
      pose proof (working_batch_no_stamps _ _ _ Hst Hts) as Hno.
      rewrite Forall_forall in Hno. destruct (Hno r Hr) as [H12 Hf].
      rewrite !Hs by notin. done.
Qed.
End claims_off_hour.


(** ** The theorems, at the concrete batches *)

(** The score and the verdict of the three accounts. *)
Lemma final_score_counts_fired_checks_accounts :
  process_transactions iso8601 seq_sum accounts true None = Some accounts_out ∧
  (attrs_active_risks accounts_out = active_checks (resolve_features accounts None) true ∧
  attrs_threshold accounts_out = select_threshold (length (attrs_active_risks accounts_out)) ∧
  ∀ r, r ∈ rows (out_frame accounts_out) →
    cells r !! "final_risk_score" = Some (CInt (count_fired (attrs_active_risks accounts_out) r)) ∧
    cells r !! "final_is_anomalous" =
      Some (CBool (bool_decide (attrs_threshold accounts_out
                                ≤ count_fired (attrs_active_risks accounts_out) r)))).
Proof.
  split; [vm_compute; reflexivity|].
  apply (final_score_counts_fired_checks iso8601 seq_sum accounts true None accounts_out); vm_compute; reflexivity.
Defined.

(** The batch without features: no active check, threshold 1. *)
Lemma threshold_table_and_safe_degrade_bare :
  process_transactions iso8601 seq_sum bare true None = Some bare_out ∧
  ((select_threshold 0 = 1 ∧ select_threshold 1 = 1 ∧ select_threshold 2 = 2 ∧
   select_threshold 3 = 3 ∧ select_threshold 4 = 3 ∧ select_threshold 5 = 4 ∧
   ∀ n, (6 ≤ n)%nat → select_threshold n = 5) ∧
  attrs_threshold bare_out = select_threshold (length (attrs_active_risks bare_out)) ∧
  (attrs_active_risks bare_out = [] →
   attrs_threshold bare_out = 1 ∧
   ∀ r, r ∈ rows (out_frame bare_out) →
     cells r !! "final_risk_score" = Some (CInt 0) ∧
     cells r !! "final_is_anomalous" = Some (CBool false))).
Proof.
  split; [vm_compute; reflexivity|].
  apply (threshold_table_and_safe_degrade iso8601 seq_sum bare true None bare_out); vm_compute; reflexivity.
Defined.

(** Three stamped records: the velocity check is registered and fires on none. *)
Lemma velocity_check_registered_by_mode_three :
  process_transactions iso8601 seq_sum three_stamped true None = Some three_stamped_out ∧
  ((velocity_check ∈ attrs_active_risks three_stamped_out ↔
   true = true ∧ "timestamp" ∈ resolve_features three_stamped None) ∧
  ("risk_velocity_sim" ∈ (attrs_active_risks three_stamped_out).*1 ↔
   true = true ∧ "timestamp" ∈ resolve_features three_stamped None) ∧
  attrs_threshold three_stamped_out = select_threshold (length (attrs_active_risks three_stamped_out)) ∧
  ((length (rows three_stamped) < 5)%nat →
   ∀ r, r ∈ rows (out_frame three_stamped_out) →
     cells r !! "risk_velocity_sim" = Some (CBool false))).
Proof.
  split; [vm_compute; reflexivity|].
  apply (velocity_check_registered_by_mode iso8601 seq_sum three_stamped true None three_stamped_out); vm_compute; reflexivity.
Defined.

(** The location-change check on the three accounts. *)
Lemma location_change_fires_on_first_and_changed_accounts :
  process_transactions iso8601 seq_sum accounts true None = Some accounts_out ∧
  "location" ∈ resolve_features accounts None ∧
  (∃ st ks xs,
    risk_checks iso8601 seq_sum accounts (resolve_features accounts None) = Some st ∧
    Forall2 (λ r k, acct_of r = Some k) (rows (frame st)) ks ∧
    Forall2 (λ r x, cells r !! "location" ≫= as_ident = Some x) (rows (frame st)) xs ∧
    ("timestamp" ∈ resolve_features accounts None →
     ∃ keys, Forall2 keyed_row (rows (frame st)) keys ∧
             StronglySorted (λ a b, account_time_leb a b = true) keys) ∧
    rows_perm (cells_step (velocity_columns ++ final_columns))
              (rows (frame st)) (rows (out_frame accounts_out)) ∧
    ("risk_location_change", "Transaction location changed") ∈ attrs_active_risks accounts_out ∧
    ∀ i r x, rows (frame st) !! i = Some r → xs !! i = Some x →
      ∃ b, cells r !! "risk_location_change" = Some (CBool b) ∧
        ((∀ j, (j < i)%nat → ks !! j ≠ ks !! i) → b = true) ∧
        (∀ j y, (j < i)%nat → ks !! j = ks !! i →
                (∀ j', (j < j' < i)%nat → ks !! j' ≠ ks !! i) →
                xs !! j = Some y → b = ident_ne x y)).
Proof.
  split; [vm_compute; reflexivity|]. split; [vm_compute; reflexivity|].
  apply (location_change_fires_on_first_and_changed iso8601 seq_sum accounts true None accounts_out); vm_compute; reflexivity.
Defined.

(** The sessions of the seventeen records. *)
Lemma session_simulation_slices_seventeen :
  process_transactions iso8601 seq_sum seventeen true None = Some seventeen_out ∧
  "timestamp" ∈ resolve_features seventeen None ∧
  (∃ st, risk_checks iso8601 seq_sum seventeen (resolve_features seventeen None) = Some st ∧
    let w := rows (frame st) in
    let ns := (100 `min` (length w `div` 5))%nat in
    length w = length (rows seventeen) ∧
    (∃ keys, Forall2 keyed_row w keys ∧
             StronglySorted (λ a b, account_time_leb a b = true) keys) ∧
    label <$> rows (out_frame seventeen_out) ≡ₚ seq 0 (length w) ∧
    (∀ r, r ∈ rows (out_frame seventeen_out) →
       let p := label r in
       ∃ rw, w !! p = Some rw ∧
         cells_step (velocity_columns ++ final_columns) rw r ∧
         if decide (p < 5 * ns)%nat then
           ∃ t0, time_at w (5 * (p `div` 5)) = Some t0 ∧
             cells r !! "session_id" = Some (CStr (session_name (p `div` 5))) ∧
             cells r !! "sim_timestamp" =
               Some (CTime (t0 + timedelta_seconds (10 * Z.of_nat (p `mod` 5)))) ∧
             cells r !! "txn_count_sim" = Some (CInt (Z.of_nat (p `mod` 5) + 1)) ∧
             cells r !! "risk_velocity_sim" =
               Some (CBool (bool_decide (3 ≤ Z.of_nat (p `mod` 5) + 1)))
         else
           cells r !! "session_id" = Some CNA ∧
           cells r !! "sim_timestamp" = cells r !! "timestamp" ∧
           cells r !! "txn_count_sim" = Some CNA ∧
           cells r !! "risk_velocity_sim" = Some (CBool false)) ∧
    (length (rows seventeen) = 17%nat → ns = 3%nat ∧ (length w - 5 * ns = 2)%nat)).
Proof.
  split; [vm_compute; reflexivity|]. split; [vm_compute; reflexivity|].
  apply (session_simulation_slices iso8601 seq_sum seventeen None seventeen_out); vm_compute; reflexivity.
Defined.

(** The fields of the three accounts in the output. *)
Lemma input_fields_kept_but_timestamp_accounts :
  process_transactions iso8601 seq_sum accounts true None = Some accounts_out ∧
  (cols_step derived_columns accounts (out_frame accounts_out) ∧
  rows_perm (λ r r',
      (∀ c, c ∉ derived_columns → c ≠ "timestamp" → cells r' !! c = cells r !! c) ∧
      stamp_handled iso8601 (bool_decide ("timestamp" ∈ resolve_features accounts None)) r r')
    (rows accounts) (rows (out_frame accounts_out))).
Proof.
  split; [vm_compute; reflexivity|].
  apply (input_fields_kept_but_timestamp iso8601 seq_sum accounts true None accounts_out); vm_compute; reflexivity.
Defined.

(** The amount check on the three accounts. *)
Lemma amount_zscore_of_account_group_accounts :
  process_transactions iso8601 seq_sum accounts true None = Some accounts_out ∧
  "amount" ∈ resolve_features accounts None ∧
  (∃ st ks xs,
    risk_checks iso8601 seq_sum accounts (resolve_features accounts None) = Some st ∧
    Forall2 (λ r k, acct_of r = Some k) (rows (frame st)) ks ∧
    Forall2 (λ r x, cells r !! "amount" ≫= as_float = Some x) (rows (frame st)) xs ∧
    rows_perm (cells_step (velocity_columns ++ final_columns))
              (rows (frame st)) (rows (out_frame accounts_out)) ∧
    ("risk_amount", "Unusual transaction amount") ∈ attrs_active_risks accounts_out ∧
    (∀ i r k x, rows (frame st) !! i = Some r → ks !! i = Some k → xs !! i = Some x →
       let g := group_of ks xs k in
       ∃ z, cells r !! "amount_zscore" = Some (CFloat z) ∧
            zscore seq_sum g !! rank_in_group ks i k = Some z ∧
            z = (if (0 <? std seq_sum g)%float
                 then ((x - mean seq_sum g) / std seq_sum g)%float else 0%float) ∧
            cells r !! "risk_amount" = Some (CBool (1 <=? z)%float) ∧
            ((length g ≤ 1)%nat →
             z = 0%float ∧ cells r !! "risk_amount" = Some (CBool false))) ∧
    zscore seq_sum [100%float; 100%float; 100%float] = [0%float; 0%float; 0%float] ∧
    (∃ z, zscore seq_sum [10%float; 10%float; 1000%float] !! 2%nat = Some z ∧
          (1 <? z)%float = true)).
Proof.
  split; [vm_compute; reflexivity|]. split; [vm_compute; reflexivity|].
  apply (amount_zscore_of_account_group iso8601 seq_sum accounts true None accounts_out); vm_compute; reflexivity.
Defined.

(** The off-hour check on the three accounts. *)
Lemma dominant_hour_and_off_hour_accounts :
  process_transactions iso8601 seq_sum accounts true None = Some accounts_out ∧
  (("timestamp" ∈ resolve_features accounts None →
   ∃ st ks hs,
     risk_checks iso8601 seq_sum accounts (resolve_features accounts None) = Some st ∧
     Forall2 (λ r k, acct_of r = Some k) (rows (frame st)) ks ∧
     Forall2 (λ r h, cells r !! "hour" ≫= as_int = Some h) (rows (frame st)) hs ∧
     rows_perm (cells_step (velocity_columns ++ final_columns))
               (rows (frame st)) (rows (out_frame accounts_out)) ∧
     ("risk_off_hour", "Transaction at unusual time") ∈ attrs_active_risks accounts_out ∧
     ∀ i r a h, rows (frame st) !! i = Some r → ks !! i = Some a → hs !! i = Some h →
       (∃ t, cells r !! "timestamp" = Some (CTime t) ∧ h = hour_of t) ∧
       0 ≤ h < 24 ∧
       ∃ d, cells r !! "dominant_hour" = Some (CInt d) ∧
            (a, d) ∈ zip ks hs ∧
            (∀ h', (a, h') ∈ zip ks hs →
               (hour_count ks hs a h' ≤ hour_count ks hs a d)%nat ∧
               (hour_count ks hs a h' = hour_count ks hs a d → d ≤ h')) ∧
            cells r !! "risk_off_hour" = Some (CBool (bool_decide (h ≠ d)))) ∧
  ("timestamp" ∉ resolve_features accounts None →
   "risk_off_hour" ∉ (attrs_active_risks accounts_out).*1 ∧
   ∀ r, r ∈ rows (out_frame accounts_out) →
     cells r !! "hour" = Some (CInt 12) ∧
     cells r !! "risk_off_hour" = Some (CBool false)) ∧
  (∀ a, dominant_hour (dominant_hour_table [a; a; a; a] [9; 9; 9; 14]) a = Some 9)).
Proof.
  split; [vm_compute; reflexivity|].
  apply (dominant_hour_and_off_hour iso8601 seq_sum accounts true None accounts_out); vm_compute; reflexivity.
Defined.

(** ** Where the engine departs from the specification *)

(** Three stamped records with the simulation mode on: no record fires the
    velocity check, and the check is registered as active all the same,
    counting for the threshold. *)
Lemma velocity_check_registered_without_firing :
  column_values "risk_velocity_sim" <$> run three_stamped true None =
    Some [Some (CBool false); Some (CBool false); Some (CBool false)] ∧
  attrs_active_risks <$> run three_stamped true None =
    Some [("risk_off_hour", "Transaction at unusual time");
          ("risk_velocity_sim", "Multiple transactions in short time")] ∧
  attrs_threshold <$> run three_stamped true None = Some 2.
Proof. vm_compute. done. Qed.

(** A single record, the first and only one of its account, fires the
    location-change check. *)
Lemma first_record_fires_location_change :
  (λ r, cells r !! "location") <$> rows one_located = [Some (CStr "Pune")] ∧
  column_values "risk_location_change" <$> run one_located true None =
    Some [Some (CBool true)].
Proof. vm_compute. done. Qed.

(** The stamp of the input, a string, is the parsed instant in the output:
    09:30 at the offset +05:30 is 04:00 UTC. *)
Lemma timestamp_column_is_replaced :
  (λ r, cells r !! "timestamp") <$> rows one_stamped =
    [Some (CStr "2024-01-15T09:30:00+05:30")] ∧
  column_values "timestamp" <$> run one_stamped true None =
    Some [Some (CTime 1705291200000000000)].
Proof. vm_compute. done. Qed.

(** Three records of one account with the same amount, one tenth: the mean
    computed in binary64 is not one tenth, the deviation is positive, and
    the z-score is not 0. *)
Lemma constant_amounts_nonzero_zscore :
  (λ r, cells r !! "amount") <$> rows constant_amounts =
    [Some (CFloat tenth); Some (CFloat tenth); Some (CFloat tenth)] ∧
  column_values "amount_zscore" <$> run constant_amounts true None =
    Some [Some (CFloat (-0x1.a20bd700c2c3fp-1)); Some (CFloat (-0x1.a20bd700c2c3fp-1));
          Some (CFloat (-0x1.a20bd700c2c3fp-1))] ∧
  (0 <? std seq_sum [tenth; tenth; tenth])%float = true.
Proof. vm_compute. done. Qed.


(** * Further properties of the engine *)

(** ** The first-seen checks *)

Lemma elem_of_group_before {K} `{EqDecision K} {A} (keys : list K) (xs : list A) k i x :
  x ∈ (group_before keys xs k i).*2 ↔
  ∃ j, (j < i)%nat ∧ keys !! j = Some k ∧ xs !! j = Some x.
Proof.
  unfold group_before. rewrite list_elem_of_fmap. split.
  - intros ([k' x'] & -> & Hin). apply list_elem_of_filter in Hin as [Hk Hin].
    simpl in Hk. subst k'. apply list_elem_of_lookup in Hin as [j Hj].
    apply lookup_take_Some in Hj as [Hj Hlt].
    apply lookup_zip_Some in Hj as [Hjk Hjx]. by exists j.
  - intros (j & Hlt & Hjk & Hjx). exists (k, x). split; [done|].
    apply list_elem_of_filter. split; [done|].
    apply list_elem_of_lookup. exists j. apply lookup_take_Some. split; [|done].
    by apply lookup_zip_Some.
Qed.

(** [groupby(keys)[xs].transform(lambda x: ~x.duplicated())] at row [i]:
    whether the value of the row occurs at no earlier row of its group *)
Lemma groupby_first_seen_lookup {K} `{EqDecision K} {A} `{EqDecision A}
    (keys : list K) (xs : list A) i k x :
  length keys = length xs → keys !! i = Some k → xs !! i = Some x →
  groupby_transform (λ g, negb <$> duplicated g) false keys xs !! i =
  Some (bool_decide (x ∉ (group_before keys xs k i).*2)).
Proof.
  intros Hlen Hk Hx. unfold groupby_transform.
  rewrite list_lookup_imap, Hk. simpl. f_equal.
  pose proof (lookup_lt_Some _ _ _ Hk) as Hi%Nat.lt_le_incl.
  pose proof (group_of_rank keys xs k i x Hlen Hk Hx) as Hg.
  unfold duplicated. rewrite list_lookup_fmap, list_lookup_imap, Hg. simpl.
  rewrite (group_of_split _ _ _ _ _ Hk Hx).
  rewrite (rank_in_group_before keys xs k i Hlen Hi).
  rewrite <-(length_fmap snd (group_before keys xs k i)), take_app_length.
  by rewrite bool_decide_not.
Qed.

Section first_seen.
Variable to_datetime : string → option Z.
Variable fsum : list float → float.

Lemma working_batch_new_device df feats st :
  risk_checks to_datetime fsum df feats = Some st →
  "device_hash" ∈ feats →
  ∃ ks xs,
    Forall2 (λ r k, acct_of r = Some k) (rows (frame st)) ks ∧
    Forall2 (λ r x, cells r !! "device_hash" ≫= as_ident = Some x) (rows (frame st)) xs ∧
    ∀ i r, rows (frame st) !! i = Some r → first_seen_row "risk_new_device" ks xs i r.
Proof.
  intros [df1 s2 s3 s4 s5 s6 H1 H2 H3 H4 H5 H6 H7]%risk_checks_stages Hin.
  rewrite (bool_decide_eq_true_2 _ Hin) in H3.
  apply first_seen_check_Some in H3 as (Fd & _ & ks & xs & Hks & Hxs & Rd); [|done].
  apply first_seen_check_Some in H4 as (Fi & _); [|done].
  apply location_check_Some in H5 as (Fl & _).
  apply off_hour_check_Some in H6 as (Fo & _).
  apply risk_aggregation_Some in H7 as (Fb & _).
  simpl in *.
  pose proof (frame_step_trans _ _ _ _ _ Fo Fb) as T5.
  pose proof (frame_step_trans _ _ _ _ _ Fl T5) as T4.
  pose proof (frame_step_trans _ _ _ _ _ Fi T4) as T3.
  pose proof (frame_step_trans _ _ _ _ _ Fd T3) as T2.
  simpl in T2, T3.
  exists ks, xs. split_and!.
  - apply account_keys_Some in Hks.
    apply (Forall2_frame_step (λ o k, o ≫= as_key = Some k) _ _ _ _ _ T2); [notin|done].
  - eapply col_mapM_frame_step; [exact T2|notin|done].
  - intros i r Hr. destruct (frame_step_row _ _ _ _ _ T3 Hr) as (r2 & Hr2 & _ & Hs).
    destruct (Rd i r2 Hr2) as (b & Hb & Hc). exists b. split; [done|].
    rewrite Hs; [done|notin].
Qed.

Lemma working_batch_new_ip df feats st :
  risk_checks to_datetime fsum df feats = Some st →
  "ip_address" ∈ feats →
  ∃ ks xs,
    Forall2 (λ r k, acct_of r = Some k) (rows (frame st)) ks ∧
    Forall2 (λ r x, cells r !! "ip_address" ≫= as_ident = Some x) (rows (frame st)) xs ∧
    ∀ i r, rows (frame st) !! i = Some r → first_seen_row "risk_new_ip" ks xs i r.
Proof.
  intros [df1 s2 s3 s4 s5 s6 H1 H2 H3 H4 H5 H6 H7]%risk_checks_stages Hin.
  rewrite (bool_decide_eq_true_2 _ Hin) in H4.
  apply first_seen_check_Some in H4 as (Fi & _ & ks & xs & Hks & Hxs & Ri); [|done].
  apply location_check_Some in H5 as (Fl & _).
  apply off_hour_check_Some in H6 as (Fo & _).
  apply risk_aggregation_Some in H7 as (Fb & _).
  simpl in *.
  pose proof (frame_step_trans _ _ _ _ _ Fo Fb) as T5.
  pose proof (frame_step_trans _ _ _ _ _ Fl T5) as T4.
  pose proof (frame_step_trans _ _ _ _ _ Fi T4) as T3.
  simpl in T3, T4.
  exists ks, xs. split_and!.
  - apply account_keys_Some in Hks.
    apply (Forall2_frame_step (λ o k, o ≫= as_key = Some k) _ _ _ _ _ T3); [notin|done].
  - eapply col_mapM_frame_step; [exact T3|notin|done].
  - intros i r Hr. destruct (frame_step_row _ _ _ _ _ T4 Hr) as (r2 & Hr2 & _ & Hs).
    destruct (Ri i r2 Hr2) as (b & Hb & Hc). exists b. split; [done|].
    rewrite Hs; [done|notin].
Qed.

(** what a first-seen column holds, in terms of the earlier records *)
Lemma first_seen_row_spec risk ks (xs : list (option string)) i r k x :
  length ks = length xs → ks !! i = Some k → xs !! i = Some x →
  first_seen_row risk ks xs i r →
  ∃ b, cells r !! risk = Some (CBool b) ∧
       (b = true ↔ ∀ j, (j < i)%nat → ks !! j = Some k → xs !! j ≠ Some x).
Proof.
  intros Hlen Hk Hx (b & Hb & Hc). exists b. split; [done|].
  rewrite (groupby_first_seen_lookup ks xs i k x Hlen Hk Hx) in Hb.
  apply (inj Some) in Hb. rewrite <-Hb, bool_decide_eq_true, elem_of_group_before.
  split.
  - intros Hno j Hj Hjk Hjx. apply Hno. by exists j.
  - intros Hno (j & Hj & Hjk & Hjx). by apply (Hno j).
Qed.

(** X1: the new-device check (lines 40-49): with the device feature present
    the check is active, and it fires on a record of the working batch
    exactly when no earlier record of the same account has the same device
    (two missing devices counting as the same); so it fires on the first
    record of every account. *)
Theorem new_device_fires_on_first_occurrence df sim af out :
  process_transactions to_datetime fsum df sim af = Some out →
  "device_hash" ∈ resolve_features df af →
  ∃ st ks xs,
    risk_checks to_datetime fsum df (resolve_features df af) = Some st ∧
    Forall2 (λ r k, acct_of r = Some k) (rows (frame st)) ks ∧
    Forall2 (λ r x, cells r !! "device_hash" ≫= as_ident = Some x) (rows (frame st)) xs ∧
    rows_perm (cells_step (velocity_columns ++ final_columns))
              (rows (frame st)) (rows (out_frame out)) ∧
    ("risk_new_device", "New device detected") ∈ attrs_active_risks out ∧
    ∀ i r k x, rows (frame st) !! i = Some r → ks !! i = Some k → xs !! i = Some x →
      ∃ b, cells r !! "risk_new_device" = Some (CBool b) ∧
           (b = true ↔ ∀ j, (j < i)%nat → ks !! j = Some k → xs !! j ≠ Some x) ∧
           ((∀ j, (j < i)%nat → ks !! j ≠ Some k) → b = true).
Proof.
  intros Hrun Hin.
  pose proof (process_transactions_stages _ _ _ _ _ _ Hrun) as [st stv Hst _ _ _ _].
  destruct (working_batch_new_device _ _ _ Hst Hin) as (ks & xs & Hks & Hxs & Hrow).
  exists st, ks, xs. split_and!; [done..| | |].
  - by eapply output_of_working_batch.
  - destruct (process_transactions_active _ _ _ _ _ _ Hrun) as [-> _].
    unfold active_checks, base_checks. rewrite (bool_decide_eq_true_2 _ Hin).
    rewrite !elem_of_app. left. right. left. by left.
  - intros i r k x Hr Hk Hx.
    assert (length ks = length xs) as Hlen.
    { rewrite <-(Forall2_length _ _ _ Hks). by eapply Forall2_length. }
    destruct (first_seen_row_spec _ _ _ _ _ _ _ Hlen Hk Hx (Hrow i r Hr)) as (b & Hc & Hb).
    exists b. split_and!; [done..|]. intros Hfirst. apply Hb.
    intros j Hj Hjk. by destruct (Hfirst j Hj).
Qed.

(** X2: the new-IP check (lines 51-60): with the network-address feature
    present the check is active, and it fires on a record of the working
    batch exactly when no earlier record of the same account has the same
    address; so it fires on the first record of every account. *)
Theorem new_ip_fires_on_first_occurrence df sim af out :
  process_transactions to_datetime fsum df sim af = Some out →
  "ip_address" ∈ resolve_features df af →
  ∃ st ks xs,
    risk_checks to_datetime fsum df (resolve_features df af) = Some st ∧
    Forall2 (λ r k, acct_of r = Some k) (rows (frame st)) ks ∧
    Forall2 (λ r x, cells r !! "ip_address" ≫= as_ident = Some x) (rows (frame st)) xs ∧
    rows_perm (cells_step (velocity_columns ++ final_columns))
              (rows (frame st)) (rows (out_frame out)) ∧
    ("risk_new_ip", "New IP address detected") ∈ attrs_active_risks out ∧
    ∀ i r k x, rows (frame st) !! i = Some r → ks !! i = Some k → xs !! i = Some x →
      ∃ b, cells r !! "risk_new_ip" = Some (CBool b) ∧
           (b = true ↔ ∀ j, (j < i)%nat → ks !! j = Some k → xs !! j ≠ Some x) ∧
           ((∀ j, (j < i)%nat → ks !! j ≠ Some k) → b = true).
Proof.
  intros Hrun Hin.
  pose proof (process_transactions_stages _ _ _ _ _ _ Hrun) as [st stv Hst _ _ _ _].
  destruct (working_batch_new_ip _ _ _ Hst Hin) as (ks & xs & Hks & Hxs & Hrow).
  exists st, ks, xs. split_and!; [done..| | |].
  - by eapply output_of_working_batch.
  - destruct (process_transactions_active _ _ _ _ _ _ Hrun) as [-> _].
    unfold active_checks, base_checks. rewrite (bool_decide_eq_true_2 _ Hin).
    rewrite !elem_of_app. left. do 2 right. left. by left.
  - intros i r k x Hr Hk Hx.
    assert (length ks = length xs) as Hlen.
    { rewrite <-(Forall2_length _ _ _ Hks). by eapply Forall2_length. }
    destruct (first_seen_row_spec _ _ _ _ _ _ _ Hlen Hk Hx (Hrow i r Hr)) as (b & Hc & Hb).
    exists b. split_and!; [done..|]. intros Hfirst. apply Hb.
    intros j Hj Hjk. by destruct (Hfirst j Hj).
Qed.
End first_seen.


(** ** The score, the reasons and the verdict together *)

Lemma count_fired_bounds active r : 0 ≤ count_fired active r ≤ Z.of_nat (length active).
Proof.
  unfold count_fired.
  pose proof (length_filter (λ a : string * string, fired r a.1 = true) active). lia.
Qed.

Lemma active_checks_length feats sim : (length (active_checks feats sim) ≤ 6)%nat.
Proof.
  rewrite active_checks_filter, length_fmap.
  etrans; [apply length_filter|]. done.
Qed.

Section score_extras.
Variable to_datetime : string → option Z.
Variable fsum : list float → float.



(** X4: the verdict in terms of the active checks that did not fire (lines
    143-162): there are at most 6 active checks; with 1, 2 or 3 of them a
    record is flagged exactly when all of them fired; with 4, 5 or 6 it is
    flagged exactly when at most one did not fire; with none it is never
    flagged. *)
Theorem verdict_tolerates_at_most_one_miss df sim af out :
  process_transactions to_datetime fsum df sim af = Some out →
  let n := length (attrs_active_risks out) in
  (n ≤ 6)%nat ∧
  ∀ r, r ∈ rows (out_frame out) →
    ∃ s b,
      cells r !! "final_risk_score" = Some (CInt s) ∧
      cells r !! "final_is_anomalous" = Some (CBool b) ∧
      0 ≤ s ≤ Z.of_nat n ∧
      (b = true ↔
       (1 ≤ n)%nat ∧ Z.of_nat n - s ≤ (if (n <=? 3)%nat then 0 else 1)).
Proof.
  intros Hrun n.
  destruct (process_transactions_active _ _ _ _ _ _ Hrun) as [Hact _].
  assert (n ≤ 6)%nat as Hn.
  { unfold n. rewrite Hact. apply active_checks_length. }
  split; [done|]. intros r Hr.
  destruct (output_row_score _ _ _ _ _ _ _ Hrun Hr) as (s & Hs & -> & Ha & _).
  pose proof (count_fired_bounds (attrs_active_risks out) r) as Hb. fold n in Hb, Ha.
  eexists _, _. split_and!; [done|done|lia|lia|].
  rewrite bool_decide_eq_true.
  destruct n as [|[|[|[|[|[|[|n]]]]]]]; simpl; lia.
Qed.
End score_extras.


(** ** Checks whose feature is not available *)

Lemma Forall_cell_frame_step cs df df' c v :
  frame_step cs df df' → c ∉ cs →
  Forall (λ r, cells r !! c = Some v) (rows df) →
  Forall (λ r, cells r !! c = Some v) (rows df').
Proof.
  intros Hs Hc H. apply Forall_forall. intros r' [i Hi]%list_elem_of_lookup.
  destruct (frame_step_row _ _ _ _ _ Hs Hi) as (r & Hr & _ & Hcs).
  rewrite Forall_forall in H. rewrite Hcs by done.
  apply H. by eapply list_elem_of_lookup_2.
Qed.

Lemma rows_perm_elem_l (R : Row → Row → Prop) rs rs' r :
  rows_perm R rs rs' → r ∈ rs → ∃ r', r' ∈ rs' ∧ R r r'.
Proof.
  intros (l & Hl & HR) Hr. rewrite <-Hl in Hr.
  apply list_elem_of_lookup in Hr as [i Hi].
  destruct (Forall2_lookup_l _ _ _ _ _ HR Hi) as (r' & Hr' & HRr).
  exists r'. split; [|done]. by eapply list_elem_of_lookup_2.
Qed.

Section inactive.
Variable to_datetime : string → option Z.
Variable fsum : list float → float.

(** the column of a per-account check whose feature is not available is
    false throughout the working batch *)
Lemma working_batch_inactive df feats st :
  risk_checks to_datetime fsum df feats = Some st →
  ("amount" ∉ feats →
   Forall (λ r, cells r !! "risk_amount" = Some (CBool false)) (rows (frame st))) ∧
  ("device_hash" ∉ feats →
   Forall (λ r, cells r !! "risk_new_device" = Some (CBool false)) (rows (frame st))) ∧
  ("ip_address" ∉ feats →
   Forall (λ r, cells r !! "risk_new_ip" = Some (CBool false)) (rows (frame st))) ∧
  ("location" ∉ feats →
   Forall (λ r, cells r !! "risk_location_change" = Some (CBool false)) (rows (frame st))) ∧
  ("timestamp" ∉ feats →
   Forall (λ r, cells r !! "risk_off_hour" = Some (CBool false)) (rows (frame st))).
Proof.
  intros [df1 s2 s3 s4 s5 s6 H1 H2 H3 H4 H5 H6 H7]%risk_checks_stages.
  apply amount_check_Some in H2 as (Fa & _ & Ra).
  apply first_seen_check_Some in H3 as (Fd & _ & Rd); [|done].
  apply first_seen_check_Some in H4 as (Fi & _ & Ri); [|done].
  apply location_check_Some in H5 as (Fl & _ & Rl).
  apply off_hour_check_Some in H6 as (Fo & _ & Ro).
  apply risk_aggregation_Some in H7 as (Fb & _).
  simpl in *.
  pose proof (frame_step_trans _ _ _ _ _ Fo Fb) as T5.
  pose proof (frame_step_trans _ _ _ _ _ Fl T5) as T4.
  pose proof (frame_step_trans _ _ _ _ _ Fi T4) as T3.
  pose proof (frame_step_trans _ _ _ _ _ Fd T3) as T2.
  simpl in T2, T3, T4, T5.
  split_and!; intros Hno.
  - rewrite (bool_decide_eq_false_2 _ Hno) in Ra.
    eapply Forall_cell_frame_step; [exact T2|notin|done].
  - rewrite (bool_decide_eq_false_2 _ Hno) in Rd.
    eapply Forall_cell_frame_step; [exact T3|notin|done].
  - rewrite (bool_decide_eq_false_2 _ Hno) in Ri.
    eapply Forall_cell_frame_step; [exact T4|notin|done].
  - rewrite (bool_decide_eq_false_2 _ Hno) in Rl.
    eapply Forall_cell_frame_step; [exact T5|notin|done].
  - rewrite (bool_decide_eq_false_2 _ Hno) in Ro.
    eapply Forall_cell_frame_step; [exact Fb|notin|].
    eapply Forall_impl; [exact Ro|]. by intros r [? _].
Qed.

(** X5: a check that is not active never fires and gives no reason: for each
    of the six checks, when its feature is not available (or, for the
    velocity check, the simulation mode is off), its boolean column is
    false for every record of the output, and neither its column nor its
    description is among the active checks. *)
Theorem inactive_checks_never_fire df sim af out :
  process_transactions to_datetime fsum df sim af = Some out →
  ∀ c, c ∈ all_checks →
    check_active (resolve_features df af) sim c = false →
    column c ∉ (attrs_active_risks out).*1 ∧
    description c ∉ (attrs_active_risks out).*2 ∧
    ∀ r, r ∈ rows (out_frame out) → cells r !! column c = Some (CBool false).
Proof.
  intros Hrun c Hc Hoff.
  pose proof (process_transactions_stages _ _ _ _ _ _ Hrun) as [st stv Hst _ _ _ _].
  pose proof (output_of_working_batch _ _ _ _ _ _ _ Hrun Hst) as Hout.
  destruct (process_transactions_active _ _ _ _ _ _ Hrun) as [Hact _].
  destruct (working_batch_inactive _ _ _ Hst) as (Wa & Wd & Wi & Wl & Wo).
  assert (∀ col, col ∉ velocity_columns ++ final_columns →
            Forall (λ r, cells r !! col = Some (CBool false)) (rows (frame st)) →
            ∀ r, r ∈ rows (out_frame out) → cells r !! col = Some (CBool false)) as Hbase.
  { intros col Hcol HF r Hr.
    destruct (rows_perm_elem _ _ _ _ Hout Hr) as (rw & Hrw & Hs).
    rewrite Hs by done. rewrite Forall_forall in HF. by apply HF. }
  unfold all_checks in Hc. rewrite Hact. unfold active_checks, base_checks.
  repeat (apply elem_of_cons in Hc as [->|Hc]);
    [..|by apply elem_of_nil in Hc];
    unfold check_active in Hoff; cbn [feature needs_simulation column description] in *.
  - rewrite andb_true_r in Hoff. apply bool_decide_eq_false in Hoff.
    rewrite (bool_decide_eq_false_2 _ Hoff).
    split_and!; [repeat case_bool_decide; destruct sim; simpl; notin..|].
    apply Hbase; [notin|auto].
  - rewrite andb_true_r in Hoff. apply bool_decide_eq_false in Hoff.
    rewrite (bool_decide_eq_false_2 _ Hoff).
    split_and!; [repeat case_bool_decide; destruct sim; simpl; notin..|].
    apply Hbase; [notin|auto].
  - rewrite andb_true_r in Hoff. apply bool_decide_eq_false in Hoff.
    rewrite (bool_decide_eq_false_2 _ Hoff).
    split_and!; [repeat case_bool_decide; destruct sim; simpl; notin..|].
    apply Hbase; [notin|auto].
  - rewrite andb_true_r in Hoff. apply bool_decide_eq_false in Hoff.
    rewrite (bool_decide_eq_false_2 _ Hoff).
    split_and!; [repeat case_bool_decide; destruct sim; simpl; notin..|].
    apply Hbase; [notin|auto].
  - rewrite andb_true_r in Hoff. apply bool_decide_eq_false in Hoff.
    rewrite (bool_decide_eq_false_2 _ Hoff).
    split_and!; [repeat case_bool_decide; simpl; rewrite ?andb_false_r; simpl; notin..|].
    apply Hbase; [notin|auto].
  - assert (sim && bool_decide ("timestamp" ∈ resolve_features df af) = false) as Hmode.
    { destruct sim, (bool_decide ("timestamp" ∈ resolve_features df af)); done. }
    rewrite Hmode.
    split_and!; [repeat case_bool_decide; simpl; notin..|].
    intros r Hr.
    destruct (process_transactions_rows _ _ _ _ _ _ _ Hrun Hst r Hr)
      as (rw & rv & _ & _ & Hsf & _ & _ & Hv).
    rewrite Hsf; [by apply Hv|notin].
Qed.
End inactive.


(** ** The run without the session simulator *)

Lemma velocity_simulation_off (sim has_ts : bool) st st' :
  velocity_simulation sim has_ts st = Some st' →
  sim && has_ts = false →
  Forall2 (velocity_init has_ts) (rows (frame st)) (rows (frame st')).
Proof.
  unfold velocity_simulation. intros H Hmode.
  apply bind_Some in H as (dfv & Hv & H).
  apply velocity_init_Some in Hv as (_ & _ & _ & Hinit).
  rewrite Hmode in H. by simplify_eq/=.
Qed.

Section simulation_off.
Variable to_datetime : string → option Z.
Variable fsum : list float → float.

(** X6: without the simulator (the simulation mode off, or no temporal stamps;
    lines 102-108 and 128): the records of the output are those of the
    working batch in the same order and with the same labels; no record has
    a session, the count is 1, the synthetic stamp is the stamp of the
    record (or missing without stamps), the velocity column is false and
    not registered, and the final score is the base score. *)
Theorem simulation_off_leaves_the_defaults df sim af out :
  process_transactions to_datetime fsum df sim af = Some out →
  sim && bool_decide ("timestamp" ∈ resolve_features df af) = false →
  ∃ st,
    risk_checks to_datetime fsum df (resolve_features df af) = Some st ∧
    "risk_velocity_sim" ∉ (attrs_active_risks out).*1 ∧
    Forall2 (λ rw r,
        label r = label rw ∧
        cells_step (velocity_columns ++ final_columns) rw r ∧
        cells r !! "session_id" = Some CNA ∧
        cells r !! "txn_count_sim" = Some (CInt 1) ∧
        cells r !! "risk_velocity_sim" = Some (CBool false) ∧
        cells r !! "sim_timestamp" =
          (if bool_decide ("timestamp" ∈ resolve_features df af)
           then cells rw !! "timestamp" else Some CNA) ∧
        cells r !! "final_risk_score" = cells rw !! "base_risk_score")
      (rows (frame st)) (rows (out_frame out)).
Proof.
  intros Hrun Hmode.
  pose proof (process_transactions_stages _ _ _ _ _ _ Hrun) as [st stv Hst Hstv Hf _ _].
  destruct (process_transactions_active _ _ _ _ _ _ Hrun) as [Hact _].
  exists st. split; [done|]. split.
  { rewrite Hact. unfold active_checks. rewrite Hmode, app_nil_r.
    intros Hin%base_checks_columns. revert Hin. notin. }
  pose proof (velocity_simulation_off _ _ _ _ Hstv Hmode) as Hinit.
  apply final_verdict_Some in Hf as (_ & Ff & Hfr).
  apply Forall2_same_length_lookup_2.
  { rewrite (Forall2_length _ _ _ Hinit). by eapply Forall2_length. }
  intros i rw r Hrw Hr.
  destruct (Forall2_lookup_l _ _ _ _ _ Hinit Hrw) as (rv & Hrv & v & Hv & ->).
  destruct (frame_step_row _ _ _ _ _ Ff Hr) as (rv' & Hrv' & Hl & Hs).
  rewrite Hrv in Hrv'. injection Hrv' as <-.
  destruct (Forall2_lookup_lr _ _ _ _ _ _ Hfr Hrv Hr) as (b & vb & Hb & Hvb & Hscore & _).
  cells_simpl in Hb. cells_simpl in Hvb. simplify_eq.
  split_and!.
  - by rewrite Hl.
  - intros c Hc. apply not_elem_of_app in Hc as [Hc1 Hc2]. rewrite (Hs c Hc2).
    unfold velocity_columns in Hc1. rewrite !not_elem_of_cons in Hc1.
    destruct Hc1 as (? & ? & ? & ? & _). cbn [cells set_cell].
    by rewrite !lookup_insert_ne.
  - rewrite Hs by notin. by cells_simpl.
  - rewrite Hs by notin. by cells_simpl.
  - rewrite Hs by notin. by cells_simpl.
  - rewrite Hs by notin. cells_simpl. by destruct (bool_decide _); subst.
  - rewrite Hscore, Hb. do 2 f_equal. simpl. lia.
Qed.
End simulation_off.


(** ** Counting the simulated records *)

Lemma length_filter_none {A} (P : A → Prop) `{∀ x, Decision (P x)} (l : list A) :
  Forall (λ x, ¬ P x) l → length (filter P l) = 0%nat.
Proof.
  induction 1 as [|x l Hx _ IH]; [done|].
  rewrite filter_cons. by destruct (decide (P x)).
Qed.

Lemma length_filter_all {A} (P : A → Prop) `{∀ x, Decision (P x)} (l : list A) :
  Forall P l → length (filter P l) = length l.
Proof.
  induction 1 as [|x l Hx _ IH]; [done|].
  rewrite filter_cons. destruct (decide (P x)); [|done]. simpl. by rewrite IH.
Qed.

(** of the positions of [k] slices of 5, three in each slice are at place
    2, 3 or 4 of their slice *)
Lemma count_late_places (k : nat) :
  length (filter (λ p, 2 ≤ p `mod` 5)%nat (seq 0 (5 * k))) = (3 * k)%nat.
Proof.
  induction k as [|k IH]; [done|].
  replace (5 * S k)%nat with (5 * k + 5)%nat by lia.
  rewrite seq_app, filter_app, length_app, IH.
  rewrite (Nat.add_comm 0 (5 * k)).
  rewrite <-(fmap_add_seq (5 * k) 0 5), length_filter_fmap.
  rewrite (filter_ext_in _ (λ j, 2 ≤ j)%nat).
  - change (length (filter (λ j, 2 ≤ j)%nat (seq 0 5))) with 3%nat. lia.
  - intros j Hj. apply elem_of_seq in Hj.
    replace ((5 * k + j) `mod` 5)%nat with j; [done|].
    rewrite Nat.add_comm, Nat.mul_comm, Nat.Div0.mod_add.
    symmetry. apply Nat.mod_small. lia.
Qed.

Lemma count_velocity_positions (ns n : nat) :
  (5 * ns ≤ n)%nat →
  length (filter (λ p, p < 5 * ns ∧ 2 ≤ p `mod` 5)%nat (seq 0 n)) = (3 * ns)%nat.
Proof.
  intros Hn. replace n with (5 * ns + (n - 5 * ns))%nat by lia.
  rewrite seq_app, filter_app, length_app.
  rewrite (filter_ext_in _ (λ p, 2 ≤ p `mod` 5)%nat (seq 0 (5 * ns))).
  2:{ intros p Hp%elem_of_seq. split; [by intros [_ ?]|]. intros ?. split; [lia|done]. }
  rewrite count_late_places, length_filter_none; [lia|].
  apply Forall_forall. intros p Hp%elem_of_seq [Hlt _]. lia.
Qed.

Lemma count_session_positions (ns n : nat) :
  (5 * ns ≤ n)%nat →
  length (filter (λ p, p < 5 * ns)%nat (seq 0 n)) = (5 * ns)%nat.
Proof.
  intros Hn. replace n with (5 * ns + (n - 5 * ns))%nat by lia.
  rewrite seq_app, filter_app, length_app.
  rewrite length_filter_all, length_seq, length_filter_none; [lia| |].
  - apply Forall_forall. intros p Hp%elem_of_seq. lia.
  - apply Forall_forall. intros p Hp%elem_of_seq. lia.
Qed.

Lemma length_filter_label (P : nat → Prop) `{∀ p, Decision (P p)}
    (Q : Row → Prop) `{∀ r, Decision (Q r)} (rs : list Row) :
  (∀ r, r ∈ rs → Q r ↔ P (label r)) →
  length (filter Q rs) = length (filter P (label <$> rs)).
Proof.
  induction rs as [|r rs IH]; intros HPQ; [done|].
  rewrite fmap_cons, !filter_cons.
  assert (Q r ↔ P (label r)) as Hr by (apply HPQ; by left).
  assert (length (filter Q rs) = length (filter P (label <$> rs))) as IH'
    by (apply IH; intros r' Hr'; apply HPQ; by right).
  destruct (decide (Q r)), (decide (P (label r))); simpl; rewrite ?IH'; tauto || done.
Qed.

Section simulated_counts.
Variable to_datetime : string → option Z.
Variable fsum : list float → float.

(** X7: with the simulator (lines 108-124): the output has the records of the
    input, [5 * ns] of them with a session and [3 * ns] of them flagged by
    the velocity check, [ns = min(100, n // 5)] being the number of
    sessions of a batch of [n] records. *)
Theorem velocity_fires_three_times_per_session df af out :
  process_transactions to_datetime fsum df true af = Some out →
  "timestamp" ∈ resolve_features df af →
  let ns := (100 `min` (length (rows df) `div` 5))%nat in
  length (rows (out_frame out)) = length (rows df) ∧
  length (filter (λ r, is_Some (cells r !! "session_id" ≫= as_str))
                 (rows (out_frame out))) = (5 * ns)%nat ∧
  length (filter (λ r, fired r "risk_velocity_sim" = true)
                 (rows (out_frame out))) = (3 * ns)%nat.
Proof.
  intros Hrun Hts ns.
  pose proof (process_transactions_stages _ _ _ _ _ _ Hrun) as [st stv Hst _ _ _ _].
  destruct (process_transactions_simulated _ _ _ _ _ _ Hrun Hts Hst) as [Hlab Hrows].
  pose proof (risk_checks_length _ _ _ _ _ Hst) as Hlen. rewrite Hlen in Hlab, Hrows.
  change (num_sessions (length (rows df))) with ns in Hrows.
  assert (5 * ns ≤ length (rows df))%nat as Hns by apply num_sessions_le.
  split_and!.
  - rewrite <-(length_fmap label), Hlab. apply length_seq.
  - rewrite (length_filter_label (λ p, p < 5 * ns)%nat), Hlab.
    { by apply count_session_positions. }
    intros r Hr. destruct (Hrows r Hr) as (_ & _ & _ & Hrow).
    unfold velocity_row in Hrow. destruct (decide (label r < 5 * ns)%nat).
    + destruct Hrow as (t0 & _ & -> & _). simpl. split; [done|]. by eexists.
    + destruct Hrow as (-> & _). simpl. split; [|done]. by intros [? ?].
  - rewrite (length_filter_label (λ p, p < 5 * ns ∧ 2 ≤ p `mod` 5)%nat), Hlab.
    { by apply count_velocity_positions. }
    intros r Hr. destruct (Hrows r Hr) as (_ & _ & _ & Hrow).
    unfold velocity_row in Hrow. destruct (decide (label r < 5 * ns)%nat).
    + destruct Hrow as (t0 & _ & _ & _ & _ & Hv).
      rewrite (fired_bool _ _ _ Hv), bool_decide_eq_true. naive_solver.
    + destruct Hrow as (_ & _ & _ & Hv). rewrite (fired_bool _ _ _ Hv).
      naive_solver.
Qed.
End simulated_counts.


(** ** The order of the output of the simulator *)

(** the row [r] is sorted under the key [k]: its session and its synthetic
    instant *)
Lemma velocity_simulation_sorted st st' :
  velocity_simulation true true st = Some st' →
  ∃ keys : list (option string * Z),
    Forall2 (λ r k, cells r !! "session_id" ≫= as_ident = Some k.1 ∧
                    cells r !! "sim_timestamp" ≫= as_time = Some k.2)
            (rows (frame st')) keys ∧
    StronglySorted (λ a b, session_time_leb a b = true) keys.
Proof.
  unfold velocity_simulation. intros H.
  apply bind_Some in H as (dfv & Hv & H). simpl in H.
  apply bind_Some in H as (dfl & Hloop & H).
  apply bind_Some in H as (sids & Hsids & H).
  apply bind_Some in H as (sts & Hsts & H).
  apply bind_Some in H as (sids' & Hsids' & H).
  apply bind_Some in H as (dff & Hfin & H). simplify_eq. cbn [frame].
  apply col_mapM_Some in Hsids as [_ Hsids].
  apply col_mapM_Some in Hsts as [_ Hsts].
  destruct (sorted_pairs_spec _ _ _ Hsids Hsts) as (Hperm & Hsorted & Hkeys).
  apply col_mapM_Some in Hsids' as [_ Hsids'].
  unfold sort_values in Hfin, Hsids'. cbn [rows columns] in Hfin, Hsids'.
  set (srt := isort _ _) in *. clearbody srt.
  exists (srt.*1). split.
  - apply Forall2_same_length_lookup_2.
    { apply assign_rows_Some in Hfin as [_ Hfin]. apply Forall2_length in Hfin.
      simpl in Hfin. rewrite length_zip_with, length_fmap in Hfin.
      unfold cumcount in Hfin. rewrite length_imap in Hfin.
      apply Forall2_length in Hsids'.
      rewrite !length_fmap in *. lia. }
    intros q r' k Hq Hk.
    destruct (assign_rows_lookup _ _ _ _ _ _ Hfin Hq) as (r1 & v & Hr1 & _ & ->).
    apply rows_assign_lookup in Hr1 as (c & x2 & _ & Hx2 & ->).
    cbn [rows] in Hx2. rewrite list_lookup_fmap in Hx2. rewrite list_lookup_fmap in Hk.
    destruct (srt !! q) as [x|] eqn:Hx; [|done]. simpl in Hx2, Hk. simplify_eq.
    rewrite Forall_forall in Hkeys.
    destruct (Hkeys x) as [Hk1 Hk2]; [by eapply list_elem_of_lookup_2|].
    cbn [cells set_cell]. by rewrite !lookup_insert_ne.
  - eapply StronglySorted_fmap; [|exact Hsorted]. by intros x y Hxy.
Qed.

Section simulated_order.
Variable to_datetime : string → option Z.
Variable fsum : list float → float.

(** X8: with the simulator, the output is in the order of the sort of line
    122: by session name, compared as strings, then by synthetic instant,
    the records without a session last.  So a record without a session is
    followed by such records only, and within a session the synthetic
    instants ascend. *)
Theorem simulated_output_sorted_by_session df af out :
  process_transactions to_datetime fsum df true af = Some out →
  "timestamp" ∈ resolve_features df af →
  ∃ keys : list (option string * Z),
    Forall2 (λ r k, cells r !! "session_id" ≫= as_ident = Some k.1 ∧
                    cells r !! "sim_timestamp" ≫= as_time = Some k.2)
            (rows (out_frame out)) keys ∧
    StronglySorted (λ a b, session_time_leb a b = true) keys ∧
    ∀ i j a b, (i < j)%nat → keys !! i = Some a → keys !! j = Some b →
      (a.1 = None → b.1 = None) ∧
      (a.1 = b.1 → a.2 ≤ b.2) ∧
      (∀ s t, a.1 = Some s → b.1 = Some t → String.leb s t = true).
Proof.
  intros Hrun Hts.
  pose proof (process_transactions_stages _ _ _ _ _ _ Hrun) as [st stv Hst Hstv Hf _ _].
  rewrite (bool_decide_eq_true_2 _ Hts) in Hstv.
  destruct (velocity_simulation_sorted _ _ Hstv) as (keys & Hkeys & Hsorted).
  apply final_verdict_Some in Hf as (_ & Ff & _).
  exists keys. split_and!; [|done|].
  - apply Forall2_same_length_lookup_2.
    { rewrite <-(Forall2_length _ _ _ Hkeys). destruct Ff as [_ Ff].
      symmetry. by eapply Forall2_length. }
    intros q r k Hr Hk.
    destruct (frame_step_row _ _ _ _ _ Ff Hr) as (rv & Hrv & _ & Hs).
    destruct (Forall2_lookup_lr _ _ _ _ _ _ Hkeys Hrv Hk) as [H1 H2].
    rewrite !Hs by notin. done.
  - intros i j a b Hij Ha Hb.
    pose proof (StronglySorted_lookup _ _ _ _ _ _ Hsorted Hij Ha Hb) as Hle.
    unfold session_time_leb in Hle. destruct a as [a1 a2], b as [b1 b2]. simpl in *.
    case_bool_decide as Heq.
    + subst b1. apply bool_decide_eq_true in Hle. split_and!; [done..|].
      intros s t -> [= ->]. apply string_leb_refl.
    + split_and!; [| done |].
      * intros ->. by destruct b1.
      * intros s t -> ->. done.
Qed.
End simulated_order.


(** ** Every account has a record at its dominant hour *)

Section dominant_hour_extras.
Variable to_datetime : string → option Z.
Variable fsum : list float → float.

End dominant_hour_extras.


(** ** When the engine raises *)

Lemma cols_step_back cs df df' c :
  cols_step cs df df' → c ∈ columns df' → c ∉ cs → c ∈ columns df.
Proof. intros [_ H] Hc Hn. by destruct (H c Hc). Qed.

Lemma account_keys_column df ks :
  account_keys df = Some ks → "sender_account" ∈ columns df.
Proof.
  unfold account_keys. intros H. apply bind_Some in H as (ks' & Hks & _).
  by apply col_mapM_Some in Hks as [? _].
Qed.

Section raises.
Variable to_datetime : string → option Z.
Variable fsum : list float → float.

(** the columns that a run reads, given that it returned *)
Lemma risk_checks_reads df feats st :
  risk_checks to_datetime fsum df feats = Some st →
  (∀ f, f ∈ feature_names → f ∈ feats → f ∈ columns df) ∧
  ((∃ f, f ∈ feature_names ∧ f ∈ feats) → "sender_account" ∈ columns df).
Proof.
  intros Hst.
  pose proof (risk_checks_stages _ _ _ _ _ Hst) as [df1 s2 s3 s4 s5 s6 H1 H2 H3 H4 H5 H6 H7].
  pose proof (timestamp_handling_Some _ _ _ _ H1) as [C1 _].
  apply amount_check_Some in H2 as ([Ca _] & _ & Ra).
  apply first_seen_check_Some in H3 as ([Cd _] & _ & Rd); [|done].
  apply first_seen_check_Some in H4 as ([Ci _] & _ & Ri); [|done].
  apply location_check_Some in H5 as ([Cl _] & _ & Rl).
  simpl in *.
  pose proof (cols_step_trans _ _ _ _ _ C1 Ca) as C2.
  pose proof (cols_step_trans _ _ _ _ _ C2 Cd) as C3.
  pose proof (cols_step_trans _ _ _ _ _ C3 Ci) as C4.
  simpl in C2, C3, C4.
  assert ("timestamp" ∈ feats → "timestamp" ∈ columns df ∧ "sender_account" ∈ columns df)
    as Hts.
  { intros Hin. rewrite (bool_decide_eq_true_2 _ Hin) in H1.
    unfold timestamp_handling in H1.
    apply bind_Some in H1 as (ts & Hts & H1).
    apply bind_Some in H1 as (ks & Hks & _).
    apply col_mapM_Some in Hts as [Hc _]. split; [done|].
    apply account_keys_column in Hks. simpl in Hks.
    apply elem_of_add_column in Hks as [?|?]; done. }
  assert ("amount" ∈ feats → "amount" ∈ columns df ∧ "sender_account" ∈ columns df)
    as Ham.
  { intros Hin. rewrite (bool_decide_eq_true_2 _ Hin) in Ra.
    destruct Ra as (ks & xs & Hks%account_keys_column & [Hc _]%col_mapM_Some & _).
    split; eapply (cols_step_back _ _ _ _ C1); done || notin. }
  assert ("device_hash" ∈ feats →
          "device_hash" ∈ columns df ∧ "sender_account" ∈ columns df) as Hde.
  { intros Hin. rewrite (bool_decide_eq_true_2 _ Hin) in Rd.
    destruct Rd as (ks & xs & Hks%account_keys_column & [Hc _]%col_mapM_Some & _).
    split; eapply (cols_step_back _ _ _ _ C2); done || notin. }
  assert ("ip_address" ∈ feats →
          "ip_address" ∈ columns df ∧ "sender_account" ∈ columns df) as Hip.
  { intros Hin. rewrite (bool_decide_eq_true_2 _ Hin) in Ri.
    destruct Ri as (ks & xs & Hks%account_keys_column & [Hc _]%col_mapM_Some & _).
    split; eapply (cols_step_back _ _ _ _ C3); done || notin. }
  assert ("location" ∈ feats →
          "location" ∈ columns df ∧ "sender_account" ∈ columns df) as Hlo.
  { intros Hin. rewrite (bool_decide_eq_true_2 _ Hin) in Rl.
    destruct Rl as (ks & xs & Hks%account_keys_column & [Hc _]%col_mapM_Some & _).
    split; eapply (cols_step_back _ _ _ _ C4); done || notin. }
  unfold feature_names. split.
  - intros f Hf Hin.
    repeat (apply elem_of_cons in Hf as [->|Hf]); [..|by apply elem_of_nil in Hf];
      naive_solver.
  - intros (f & Hf & Hin).
    repeat (apply elem_of_cons in Hf as [->|Hf]); [..|by apply elem_of_nil in Hf];
      naive_solver.
Qed.

(** X10: the engine raises on a batch that lacks a column it reads: a feature
    declared available that is not a column of the batch (line 21, and the
    column selections of lines 31, 43, 54 and 65), or, with any of the five
    features available, the account column (the sort of line 22 and the
    groupings). *)
Theorem engine_raises_on_missing_column df sim af :
  ((∃ f, f ∈ feature_names ∧ f ∈ resolve_features df af ∧ f ∉ columns df) ∨
   ((∃ f, f ∈ feature_names ∧ f ∈ resolve_features df af) ∧
    "sender_account" ∉ columns df)) →
  process_transactions to_datetime fsum df sim af = None.
Proof.
  intros Hmiss.
  destruct (process_transactions to_datetime fsum df sim af) as [out|] eqn:Hrun; [|done].
  exfalso.
  pose proof (process_transactions_stages _ _ _ _ _ _ Hrun) as [st stv Hst _ _ _ _].
  destruct (risk_checks_reads _ _ _ Hst) as [Hf Ha].
  destruct Hmiss as [(f & Hn & Hin & Hno)|[Hex Hno]]; [|by apply Hno, Ha].
  by apply Hno, Hf.
Qed.

(** X11: the engine raises on a temporal stamp that does not parse (line 21),
    when the stamps are an available feature. *)
Theorem engine_raises_on_unparsable_stamp df sim af r s :
  "timestamp" ∈ resolve_features df af →
  r ∈ rows df → cells r !! "timestamp" = Some (CStr s) → to_datetime s = None →
  process_transactions to_datetime fsum df sim af = None.
Proof.
  intros Hts Hr Hcell Hparse.
  destruct (process_transactions to_datetime fsum df sim af) as [out|] eqn:Hrun; [|done].
  exfalso.
  pose proof (process_transactions_stages _ _ _ _ _ _ Hrun) as [st stv Hst _ _ _ _].
  apply risk_checks_stages in Hst as [df1 s2 s3 s4 s5 s6 H1 _ _ _ _ _ _].
  apply timestamp_handling_Some in H1 as [_ H1].
  rewrite (bool_decide_eq_true_2 _ Hts) in H1. destruct H1 as [Hp _].
  destruct (rows_perm_elem_l _ _ _ r Hp Hr) as (r1 & _ & _ & t & Ht & _).
  rewrite Hcell in Ht. simpl in Ht. congruence.
Qed.
End raises.


(** ** When the engine returns *)






(** *** What the stages keep *)






Section stages_return.
Variable to_datetime : string → option Z.
Variable fsum : list float → float.







End stages_return.


(** *** The session simulator returns *)





(** *** The engine returns on a well-formed batch *)

Section returns.
Variable to_datetime : string → option Z.
Variable fsum : list float → float.




End returns.


(** * The ingestion service *)

(** ** Sorting a set of names *)

Lemma StronglySorted_filter {A} (R : relation A) (P : A → Prop) `{∀ x, Decision (P x)}
    (l : list A) :
  StronglySorted R l → StronglySorted R (filter P l).
Proof.
  induction 1 as [|x l Hl IH Hx]; [constructor|].
  rewrite filter_cons. destruct (decide (P x)); [|done].
  constructor; [done|]. apply Forall_forall. intros y [_ Hy]%list_elem_of_filter.
  rewrite Forall_forall in Hx. auto.
Qed.

(** [sorted] of the part of a sorted list of names that a set selects *)
Lemma sorted_filter (X : gset string) (l : list string) (P : string → Prop)
    `{∀ x, Decision (P x)} :
  StronglySorted (λ a b, String.leb a b = true) l → NoDup l →
  (∀ x, x ∈ X ↔ x ∈ l ∧ P x) →
  sorted X = filter P l.
Proof.
  intros Hs Hnd HX. unfold sorted.
  apply (StronglySorted_unique_strong (λ a b, String.leb a b = true)).
  - intros x y _ _. apply string_leb_antisym.
  - apply isort_sorted.
    + apply string_leb_total.
    + apply string_leb_trans.
  - by apply StronglySorted_filter.
  - rewrite isort_Permutation. apply NoDup_Permutation.
    + apply NoDup_elements.
    + by apply NoDup_filter.
    + intros x. rewrite elem_of_elements, list_elem_of_filter, HX. tauto.
Qed.

Lemma feature_names_sorted :
  StronglySorted (λ a b, String.leb a b = true) feature_names ∧ NoDup feature_names.
Proof.
  split.
  - unfold feature_names. repeat (constructor; [|repeat constructor]). constructor.
  - unfold feature_names. repeat (apply NoDup_cons_2; [notin|]). apply NoDup_nil_2.
Qed.

Lemma elem_of_optional x : x ∈ OPTIONAL_FEATURE_COLS ↔ x ∈ feature_names.
Proof. unfold OPTIONAL_FEATURE_COLS, feature_names. set_solver. Qed.

Lemma sorted_present cols :
  sorted (OPTIONAL_FEATURE_COLS ∩ list_to_set cols) = filter (λ f, f ∈ cols) feature_names.
Proof.
  destruct feature_names_sorted as [Hs Hn]. apply sorted_filter; [done..|].
  intros x. rewrite elem_of_intersection, elem_of_optional, elem_of_list_to_set. tauto.
Qed.

Lemma sorted_missing cols :
  sorted (OPTIONAL_FEATURE_COLS ∖ list_to_set cols) = filter (λ f, f ∉ cols) feature_names.
Proof.
  destruct feature_names_sorted as [Hs Hn]. apply sorted_filter; [done..|].
  intros x. rewrite elem_of_difference, elem_of_optional, elem_of_list_to_set. tauto.
Qed.

Lemma sorted_missing_required cols :
  sorted (MIN_REQUIRED_COLS ∖ list_to_set cols) =
  filter (λ c, c ∉ cols) ["sender_account"; "transaction_id"].
Proof.
  apply sorted_filter.
  - repeat (constructor; [|repeat constructor]). constructor.
  - repeat (apply NoDup_cons_2; [notin|]). apply NoDup_nil_2.
  - intros x. rewrite elem_of_difference, elem_of_list_to_set.
    unfold MIN_REQUIRED_COLS. set_solver.
Qed.

Lemma base_checks_length cols :
  length (base_checks (list_to_set cols)) = length (filter (λ f, f ∈ cols) feature_names).
Proof.
  unfold base_checks, feature_names.
  rewrite !(bool_decide_ext (_ ∈ list_to_set cols) (_ ∈ cols))
    by apply elem_of_list_to_set.
  rewrite !filter_cons, filter_nil.
  destruct (decide ("amount" ∈ cols)), (decide ("device_hash" ∈ cols)),
    (decide ("ip_address" ∈ cols)), (decide ("location" ∈ cols)),
    (decide ("timestamp" ∈ cols));
    repeat first [rewrite bool_decide_eq_true_2 by done
                 |rewrite bool_decide_eq_false_2 by done]; reflexivity.
Qed.

Lemma sorted_empty : sorted ∅ = [].
Proof. unfold sorted. by rewrite elements_empty. Qed.

Section ingestion_facts.
Variable to_datetime : string → option Z.
Variable fsum : list float → float.
Variable Coll : Type.
Variable insert_many : list document → Coll → Coll * bool.

Lemma process_transactions_length df sim af out :
  process_transactions to_datetime fsum df sim af = Some out →
  length (rows (out_frame out)) = length (rows df).
Proof.
  intros Hrun.
  pose proof (process_transactions_stages _ _ _ _ _ _ Hrun) as [st stv Hst _ _ _ _].
  pose proof (output_of_working_batch _ _ _ _ _ _ _ Hrun Hst) as Hp.
  rewrite (rows_perm_length _ _ _ Hp). by eapply risk_checks_length.
Qed.

(** X13: [ingest_dataframe] rejects a batch without storing anything (lines
    17-32): an empty batch and a batch without one of the two required
    columns raise a [ValueError], the former taking precedence, with the
    missing columns listed in alphabetical order; and what the engine
    raises is passed on.  In each case the collection is as it was. *)
Theorem ingest_rejects_without_storing df sim coll :
  df_empty df = true ∨ "transaction_id" ∉ columns df ∨ "sender_account" ∉ columns df ∨
  process_transactions to_datetime fsum df sim (Some (list_to_set (columns df))) = None →
  let missing := filter (λ c, c ∉ columns df) ["sender_account"; "transaction_id"] in
  ∃ e, ingest_dataframe to_datetime fsum Coll insert_many df sim coll = (coll, inl e) ∧
       e ≠ StoreError ∧
       (df_empty df = true → e = ValueError "CSV contains no rows") ∧
       (df_empty df = false → missing ≠ [] →
        e = ValueError ("Missing required columns: " +:+ repr_list missing)) ∧
       (df_empty df = false → missing = [] → e = EngineError).
Proof.
  intros Hbad missing. unfold ingest_dataframe.
  destruct (df_empty df) eqn:Hempty.
  { eexists. split_and!; done. }
  assert (sorted (MIN_REQUIRED_COLS ∖ list_to_set (columns df)) = missing) as Hsorted
    by apply sorted_missing_required.
  case_bool_decide as Hmiss.
  - rewrite Hsorted. eexists. split_and!; [done..|].
    intros _ Hnil. destruct Hmiss. rewrite Hnil in Hsorted.
    apply leibniz_equiv, elements_empty_iff.
    unfold sorted in Hsorted.
    apply (f_equal length) in Hsorted. rewrite isort_length in Hsorted.
    by apply nil_length_inv.
  - rewrite Hmiss, sorted_empty in Hsorted.
    assert ("transaction_id" ∈ columns df ∧ "sender_account" ∈ columns df) as [Ht Ha].
    { symmetry in Hsorted. unfold missing in Hsorted.
      rewrite !filter_cons, filter_nil in Hsorted.
      destruct (decide ("sender_account" ∉ columns df)) as [?|?%dec_stable]; [done|].
      destruct (decide ("transaction_id" ∉ columns df)) as [?|?%dec_stable]; done. }
    destruct Hbad as [?|[?|[?|Hnone]]]; [done..|].
    rewrite Hnone. eexists. split_and!; [done..| |done].
    intros _ Hne. by rewrite <-Hsorted in Hne.
Qed.

(** X14: what [ingest_dataframe] returns when it returns (lines 34-52): the
    engine ran on the batch with its columns as the available features and
    the records of its output were stored in one call; the batch is not
    empty and has the two required columns; the count of the rows is that
    of the batch; the available and the missing features are the five
    feature names that are, and that are not, columns of the batch, each
    in alphabetical order; the active risks are the descriptions of the
    active checks, one for each available feature and one more for the
    velocity check when the simulation mode is on and the stamps are there;
    and the threshold is the one selected for their number. *)
Theorem ingest_success_metadata df sim coll coll' meta :
  ingest_dataframe to_datetime fsum Coll insert_many df sim coll = (coll', inr meta) →
  ∃ out,
    process_transactions to_datetime fsum df sim (Some (list_to_set (columns df)))
      = Some out ∧
    insert_many (to_records (out_frame out)) coll = (coll', true) ∧
    (0 < length (rows df))%nat ∧
    "transaction_id" ∈ columns df ∧ "sender_account" ∈ columns df ∧
    rows_processed meta = length (rows df) ∧
    meta_simulation_mode meta = sim ∧
    meta_available_features meta = filter (λ f, f ∈ columns df) feature_names ∧
    meta_missing_features meta = filter (λ f, f ∉ columns df) feature_names ∧
    meta_active_risks meta =
      description <$>
        filter (λ c, check_active (list_to_set (columns df)) sim c = true) all_checks ∧
    length (meta_active_risks meta) =
      (length (meta_available_features meta) +
       (if sim && bool_decide ("timestamp" ∈ columns df) then 1 else 0))%nat ∧
    meta_threshold meta = select_threshold (length (meta_active_risks meta)).
Proof.
  unfold ingest_dataframe. intros H.
  destruct (df_empty df) eqn:Hempty; [done|].
  case_bool_decide as Hmiss; [done|].
  destruct (process_transactions _ _ _ _ _) as [out|] eqn:Hrun; [|done].
  destruct (insert_many _ _) as [c ok] eqn:Hins. destruct ok; [|done].
  injection H as <- <-. exists out. cbn [rows_processed meta_simulation_mode
    meta_available_features meta_missing_features meta_active_risks meta_threshold].
  destruct (process_transactions_active _ _ _ _ _ _ Hrun) as [Hact Hthr].
  cbn [resolve_features] in Hact.
  split_and!; [done|done| | | | |done| | | | |].
  - unfold df_empty in Hempty. apply bool_decide_eq_false in Hempty.
    destruct (rows df); [|simpl; lia]. destruct Hempty. by left.
  - assert ("transaction_id" ∉ MIN_REQUIRED_COLS ∖ list_to_set (columns df)) as Hn
      by (rewrite Hmiss; set_solver).
    rewrite elem_of_difference, elem_of_list_to_set in Hn.
    destruct (decide ("transaction_id" ∈ columns df)); [done|].
    destruct Hn. split; [unfold MIN_REQUIRED_COLS; set_solver|done].
  - assert ("sender_account" ∉ MIN_REQUIRED_COLS ∖ list_to_set (columns df)) as Hn
      by (rewrite Hmiss; set_solver).
    rewrite elem_of_difference, elem_of_list_to_set in Hn.
    destruct (decide ("sender_account" ∈ columns df)); [done|].
    destruct Hn. split; [unfold MIN_REQUIRED_COLS; set_solver|done].
  - unfold to_records. rewrite length_fmap. by eapply process_transactions_length.
  - apply sorted_present.
  - apply sorted_missing.
  - rewrite Hact, active_checks_filter, <-list_fmap_compose. done.
  - rewrite sorted_present, length_fmap, Hact. unfold active_checks.
    rewrite length_app, base_checks_length. f_equal.
    rewrite (bool_decide_ext (_ ∈ list_to_set (columns df)) (_ ∈ columns df))
      by apply elem_of_list_to_set.
    by destruct (sim && _).
  - by rewrite length_fmap.
Qed.
End ingestion_facts.


(** ** The pages of the flagged transactions *)

Lemma concat_pages {A} (xs : list A) (n k : nat) :
  concat ((λ i, take n (drop (i * n) xs)) <$> seq 0 k) = take (k * n) xs.
Proof.
  induction k as [|k IH]; [done|].
  rewrite seq_S, fmap_app, concat_app, IH. simpl. rewrite app_nil_r.
  rewrite take_take_drop. f_equal. lia.
Qed.

Section flagged_facts.
Variable Coll : Type.
Variable find_flagged : Z → Coll → list document.

(** X15: the pages of [get_flagged_transactions] tile the listing of the cursor
    (lines 11-33): for a limit from 1 to 1000 and a minimal risk that is not
    negative, the requests at the offsets 0, [limit], 2 [limit], ... are all
    served, no page is longer than [limit], the pages put one after the
    other are the first documents of the listing, without a gap and without
    a repetition, and once the offsets have passed the length of the listing
    they are the whole listing and any further page is empty. *)
Theorem flagged_pages_tile_the_listing (limit min_risk : Z) (c : Coll) (k : nat) :
  1 ≤ limit ≤ 1000 → 0 ≤ min_risk →
  let listing := find_flagged min_risk c in
  ∃ pages,
    mapM (λ i : nat, get_flagged_transactions Coll find_flagged
                       limit (Z.of_nat i * limit) min_risk c) (seq 0 k) = Some pages ∧
    Forall (λ p, (length p ≤ Z.to_nat limit)%nat) pages ∧
    concat pages = take (k * Z.to_nat limit) listing ∧
    ((length listing ≤ k * Z.to_nat limit)%nat →
     concat pages = listing ∧
     get_flagged_transactions Coll find_flagged
       limit (Z.of_nat k * limit) min_risk c = Some []).
Proof.
  intros Hl Hm listing.
  assert (∀ i : nat, get_flagged_transactions Coll find_flagged
                       limit (Z.of_nat i * limit) min_risk c
                     = Some (take (Z.to_nat limit)
                                  (drop (i * Z.to_nat limit) listing))) as Hpage.
  { intros i. unfold get_flagged_transactions.
    rewrite bool_decide_eq_true_2 by lia.
    by rewrite Z2Nat.inj_mul, Nat2Z.id by lia. }
  exists ((λ i, take (Z.to_nat limit) (drop (i * Z.to_nat limit) listing)) <$> seq 0 k).
  split_and!.
  - apply mapM_Some, Forall2_fmap_r, Forall_Forall2_diag, Forall_forall.
    intros i _. apply Hpage.
  - apply Forall_fmap, Forall_forall. intros i _. simpl.
    rewrite length_take. lia.
  - apply concat_pages.
  - intros Hlen. split.
    + rewrite concat_pages. by apply take_ge.
    + rewrite Hpage, drop_ge by done. by rewrite take_nil.
Qed.

(** A request out of the bounds is refused (lines 12-14). *)
Lemma get_flagged_transactions_refused limit offset min_risk c :
  limit < 1 ∨ 1000 < limit ∨ offset < 0 ∨ min_risk < 0 →
  get_flagged_transactions Coll find_flagged limit offset min_risk c = None.
Proof.
  intros H. unfold get_flagged_transactions.
  rewrite bool_decide_eq_false_2; [done|lia].
Qed.
End flagged_facts.

(** ** The check of well-formed batches, run *)





(** a run that returned, returned its output *)
Lemma returned_Some (o : option Output) : returned o = true → o = Some (output_of o).
Proof. by destruct o. Qed.

(** an ingestion that returned, returned its metadata *)
Lemma stored_inr {C} (x : C * (error + metadata)) :
  stored x.2 = true → x = (x.1, inr (metadata_of x.2)).
Proof. by destruct x as [c [e|m]]. Qed.


(** ** The output on a well-formed batch *)

Section well_formed_extras.
Variable to_datetime : string → option Z.
Variable fsum : list float → float.


End well_formed_extras.


(** ** The further theorems, at the concrete batches *)

(** The new-device check on the three accounts. *)
Lemma new_device_fires_on_first_occurrence_accounts :
  process_transactions iso8601 seq_sum accounts true None = Some accounts_out ∧
  "device_hash" ∈ resolve_features accounts None ∧
  (∃ st ks xs,
    risk_checks iso8601 seq_sum accounts (resolve_features accounts None) = Some st ∧
    Forall2 (λ r k, acct_of r = Some k) (rows (frame st)) ks ∧
    Forall2 (λ r x, cells r !! "device_hash" ≫= as_ident = Some x) (rows (frame st)) xs ∧
    rows_perm (cells_step (velocity_columns ++ final_columns))
              (rows (frame st)) (rows (out_frame accounts_out)) ∧
    ("risk_new_device", "New device detected") ∈ attrs_active_risks accounts_out ∧
    ∀ i r k x, rows (frame st) !! i = Some r → ks !! i = Some k → xs !! i = Some x →
      ∃ b, cells r !! "risk_new_device" = Some (CBool b) ∧
           (b = true ↔ ∀ j, (j < i)%nat → ks !! j = Some k → xs !! j ≠ Some x) ∧
           ((∀ j, (j < i)%nat → ks !! j ≠ Some k) → b = true)).
Proof.
  split; [apply returned_Some; vm_compute; reflexivity|].
  split; [vm_compute; reflexivity|].
  apply (new_device_fires_on_first_occurrence iso8601 seq_sum accounts true None accounts_out);
    [apply returned_Some; vm_compute; reflexivity
    |vm_compute; reflexivity].
Defined.

(** The new-address check on the three accounts. *)
Lemma new_ip_fires_on_first_occurrence_accounts :
  process_transactions iso8601 seq_sum accounts true None = Some accounts_out ∧
  "ip_address" ∈ resolve_features accounts None ∧
  (∃ st ks xs,
    risk_checks iso8601 seq_sum accounts (resolve_features accounts None) = Some st ∧
    Forall2 (λ r k, acct_of r = Some k) (rows (frame st)) ks ∧
    Forall2 (λ r x, cells r !! "ip_address" ≫= as_ident = Some x) (rows (frame st)) xs ∧
    rows_perm (cells_step (velocity_columns ++ final_columns))
              (rows (frame st)) (rows (out_frame accounts_out)) ∧
    ("risk_new_ip", "New IP address detected") ∈ attrs_active_risks accounts_out ∧
    ∀ i r k x, rows (frame st) !! i = Some r → ks !! i = Some k → xs !! i = Some x →
      ∃ b, cells r !! "risk_new_ip" = Some (CBool b) ∧
           (b = true ↔ ∀ j, (j < i)%nat → ks !! j = Some k → xs !! j ≠ Some x) ∧
           ((∀ j, (j < i)%nat → ks !! j ≠ Some k) → b = true)).
Proof.
  split; [apply returned_Some; vm_compute; reflexivity|].
  split; [vm_compute; reflexivity|].
  apply (new_ip_fires_on_first_occurrence iso8601 seq_sum accounts true None accounts_out);
    [apply returned_Some; vm_compute; reflexivity
    |vm_compute; reflexivity].
Defined.


(** The verdicts of the three accounts, with six active checks. *)
Lemma verdict_tolerates_at_most_one_miss_accounts :
  process_transactions iso8601 seq_sum accounts true None = Some accounts_out ∧
  (let n := length (attrs_active_risks accounts_out) in
  (n ≤ 6)%nat ∧
  ∀ r, r ∈ rows (out_frame accounts_out) →
    ∃ s b,
      cells r !! "final_risk_score" = Some (CInt s) ∧
      cells r !! "final_is_anomalous" = Some (CBool b) ∧
      0 ≤ s ≤ Z.of_nat n ∧
      (b = true ↔
       (1 ≤ n)%nat ∧ Z.of_nat n - s ≤ (if (n <=? 3)%nat then 0 else 1))).
Proof.
  split; [apply returned_Some; vm_compute; reflexivity|].
  apply (verdict_tolerates_at_most_one_miss iso8601 seq_sum accounts true None accounts_out);
    [apply returned_Some; vm_compute; reflexivity].
Defined.

(** Three stamped records: the four checks without their feature stay silent. *)
Lemma inactive_checks_never_fire_three :
  process_transactions iso8601 seq_sum three_stamped true None = Some three_stamped_out ∧
  (∀ c, c ∈ all_checks →
    check_active (resolve_features three_stamped None) true c = false →
    column c ∉ (attrs_active_risks three_stamped_out).*1 ∧
    description c ∉ (attrs_active_risks three_stamped_out).*2 ∧
    ∀ r, r ∈ rows (out_frame three_stamped_out) → cells r !! column c = Some (CBool false)).
Proof.
  split; [apply returned_Some; vm_compute; reflexivity|].
  apply (inactive_checks_never_fire iso8601 seq_sum three_stamped true None three_stamped_out);
    [apply returned_Some; vm_compute; reflexivity].
Defined.

(** The three accounts with the simulation mode off. *)
Lemma simulation_off_leaves_the_defaults_accounts :
  process_transactions iso8601 seq_sum accounts false None = Some accounts_plain_out ∧
  false && bool_decide ("timestamp" ∈ resolve_features accounts None) = false ∧
  (∃ st,
    risk_checks iso8601 seq_sum accounts (resolve_features accounts None) = Some st ∧
    "risk_velocity_sim" ∉ (attrs_active_risks accounts_plain_out).*1 ∧
    Forall2 (λ rw r,
        label r = label rw ∧
        cells_step (velocity_columns ++ final_columns) rw r ∧
        cells r !! "session_id" = Some CNA ∧
        cells r !! "txn_count_sim" = Some (CInt 1) ∧
        cells r !! "risk_velocity_sim" = Some (CBool false) ∧
        cells r !! "sim_timestamp" =
          (if bool_decide ("timestamp" ∈ resolve_features accounts None)
           then cells rw !! "timestamp" else Some CNA) ∧
        cells r !! "final_risk_score" = cells rw !! "base_risk_score")
      (rows (frame st)) (rows (out_frame accounts_plain_out))).
Proof.
  split; [apply returned_Some; vm_compute; reflexivity|].
  split; [vm_compute; reflexivity|].
  apply (simulation_off_leaves_the_defaults iso8601 seq_sum accounts false None accounts_plain_out);
    [apply returned_Some; vm_compute; reflexivity
    |vm_compute; reflexivity].
Defined.

(** The seventeen records: three sessions, nine records fire. *)
Lemma velocity_fires_three_times_per_session_seventeen :
  process_transactions iso8601 seq_sum seventeen true None = Some seventeen_out ∧
  "timestamp" ∈ resolve_features seventeen None ∧
  (let ns := (100 `min` (length (rows seventeen) `div` 5))%nat in
  length (rows (out_frame seventeen_out)) = length (rows seventeen) ∧
  length (filter (λ r, is_Some (cells r !! "session_id" ≫= as_str))
                 (rows (out_frame seventeen_out))) = (5 * ns)%nat ∧
  length (filter (λ r, fired r "risk_velocity_sim" = true)
                 (rows (out_frame seventeen_out))) = (3 * ns)%nat).
Proof.
  split; [apply returned_Some; vm_compute; reflexivity|].
  split; [vm_compute; reflexivity|].
  apply (velocity_fires_three_times_per_session iso8601 seq_sum seventeen None seventeen_out);
    [apply returned_Some; vm_compute; reflexivity
    |vm_compute; reflexivity].
Defined.

(** The order of the seventeen records in the output. *)
Lemma simulated_output_sorted_by_session_seventeen :
  process_transactions iso8601 seq_sum seventeen true None = Some seventeen_out ∧
  "timestamp" ∈ resolve_features seventeen None ∧
  (∃ keys : list (option string * Z),
    Forall2 (λ r k, cells r !! "session_id" ≫= as_ident = Some k.1 ∧
                    cells r !! "sim_timestamp" ≫= as_time = Some k.2)
            (rows (out_frame seventeen_out)) keys ∧
    StronglySorted (λ a b, session_time_leb a b = true) keys ∧
    ∀ i j a b, (i < j)%nat → keys !! i = Some a → keys !! j = Some b →
      (a.1 = None → b.1 = None) ∧
      (a.1 = b.1 → a.2 ≤ b.2) ∧
      (∀ s t, a.1 = Some s → b.1 = Some t → String.leb s t = true)).
Proof.
  split; [apply returned_Some; vm_compute; reflexivity|].
  split; [vm_compute; reflexivity|].
  apply (simulated_output_sorted_by_session iso8601 seq_sum seventeen None seventeen_out);
    [apply returned_Some; vm_compute; reflexivity
    |vm_compute; reflexivity].
Defined.



(** A batch with amounts and no account column: the engine raises. *)
Lemma engine_raises_on_missing_column_no_accounts :
  ((∃ f, f ∈ feature_names ∧ f ∈ resolve_features no_accounts None ∧ f ∉ columns no_accounts) ∨
   ((∃ f, f ∈ feature_names ∧ f ∈ resolve_features no_accounts None) ∧
    "sender_account" ∉ columns no_accounts)) ∧
  process_transactions iso8601 seq_sum no_accounts false None = None.
Proof.
  assert ((∃ f, f ∈ feature_names ∧ f ∈ resolve_features no_accounts None) ∧
          "sender_account" ∉ columns no_accounts) as H.
  { split; [exists "amount"; split; [compute_done|vm_compute; reflexivity]|compute_done]. }
  split; [by right|].
  apply (engine_raises_on_missing_column iso8601 seq_sum no_accounts false None).
  by right.
Defined.

(** A record stamped "yesterday": the engine raises. *)
Lemma engine_raises_on_unparsable_stamp_yesterday :
  "timestamp" ∈ resolve_features bad_stamp None ∧
  first_row bad_stamp ∈ rows bad_stamp ∧
  cells (first_row bad_stamp) !! "timestamp" = Some (CStr "yesterday") ∧
  iso8601 "yesterday" = None ∧
  process_transactions iso8601 seq_sum bad_stamp false None = None.
Proof.
  split; [vm_compute; reflexivity|].
  split; [vm_compute; left|].
  split; [vm_compute; reflexivity|].
  split; [vm_compute; reflexivity|].
  apply (engine_raises_on_unparsable_stamp iso8601 seq_sum bad_stamp false None
           (first_row bad_stamp) "yesterday");
    [vm_compute; reflexivity
    |vm_compute; left
    |vm_compute; reflexivity
    |vm_compute; reflexivity].
Defined.

(** The batch without an account column is rejected, and nothing is stored. *)
Lemma ingest_rejects_without_storing_no_accounts :
  (df_empty no_accounts = true ∨ "transaction_id" ∉ columns no_accounts ∨
   "sender_account" ∉ columns no_accounts ∨
   process_transactions iso8601 seq_sum no_accounts true
     (Some (list_to_set (columns no_accounts))) = None) ∧
  (let missing := filter (λ c, c ∉ columns no_accounts) ["sender_account"; "transaction_id"] in
   ∃ e, ingest_dataframe iso8601 seq_sum (list document) list_insert_many
          no_accounts true accounts_collection = (accounts_collection, inl e) ∧
        e ≠ StoreError ∧
        (df_empty no_accounts = true → e = ValueError "CSV contains no rows") ∧
        (df_empty no_accounts = false → missing ≠ [] →
         e = ValueError ("Missing required columns: " +:+ repr_list missing)) ∧
        (df_empty no_accounts = false → missing = [] → e = EngineError)).
Proof.
  assert ("sender_account" ∉ columns no_accounts) as H by compute_done.
  split; [by right; right; left|].
  apply (ingest_rejects_without_storing iso8601 seq_sum (list document) list_insert_many
           no_accounts true accounts_collection).
  by right; right; left.
Defined.

(** The three accounts, ingested into an empty collection. *)
Lemma ingest_success_metadata_accounts :
  ingest_dataframe iso8601 seq_sum (list document) list_insert_many
    accounts_with_ids true [] = (accounts_stored, inr accounts_metadata) ∧
  (∃ out,
    process_transactions iso8601 seq_sum accounts_with_ids true
        (Some (list_to_set (columns accounts_with_ids))) = Some out ∧
    list_insert_many (to_records (out_frame out)) [] = (accounts_stored, true) ∧
    (0 < length (rows accounts_with_ids))%nat ∧
    "transaction_id" ∈ columns accounts_with_ids ∧
    "sender_account" ∈ columns accounts_with_ids ∧
    rows_processed accounts_metadata = length (rows accounts_with_ids) ∧
    meta_simulation_mode accounts_metadata = true ∧
    meta_available_features accounts_metadata =
      filter (λ f, f ∈ columns accounts_with_ids) feature_names ∧
    meta_missing_features accounts_metadata =
      filter (λ f, f ∉ columns accounts_with_ids) feature_names ∧
    meta_active_risks accounts_metadata =
      description <$>
        filter (λ c, check_active (list_to_set (columns accounts_with_ids)) true c = true)
               all_checks ∧
    length (meta_active_risks accounts_metadata) =
      (length (meta_available_features accounts_metadata) +
       (if true && bool_decide ("timestamp" ∈ columns accounts_with_ids) then 1 else 0))%nat ∧
    meta_threshold accounts_metadata =
      select_threshold (length (meta_active_risks accounts_metadata))).
Proof.
  split; [apply (stored_inr accounts_ingested); vm_compute; reflexivity|].
  apply (ingest_success_metadata iso8601 seq_sum (list document) list_insert_many
           accounts_with_ids true [] accounts_stored accounts_metadata).
  apply (stored_inr accounts_ingested); vm_compute; reflexivity.
Defined.

(** Three pages of two documents over the collection of the three accounts. *)
Lemma flagged_pages_tile_the_listing_accounts :
  1 ≤ 2 ≤ 1000 ∧ 0 ≤ 0 ∧
  (let listing := list_find_flagged 0 accounts_collection in
   ∃ pages,
     mapM (λ i : nat, get_flagged_transactions (list document) list_find_flagged
                        2 (Z.of_nat i * 2) 0 accounts_collection) (seq 0 3) = Some pages ∧
     Forall (λ p, (length p ≤ Z.to_nat 2)%nat) pages ∧
     concat pages = take (3 * Z.to_nat 2) listing ∧
     ((length listing ≤ 3 * Z.to_nat 2)%nat →
      concat pages = listing ∧
      get_flagged_transactions (list document) list_find_flagged
        2 (Z.of_nat 3 * 2) 0 accounts_collection = Some [])).
Proof.
  split; [lia|]. split; [lia|].
  apply (flagged_pages_tile_the_listing (list document) list_find_flagged
           2 0 accounts_collection 3); lia.
Defined.

